(** * python-redmine: the resource engine of [redmine/resources.py]

    A shallow embedding of the [Resource] base class and of the overrides its
    subclasses layer on it: lazy cached attribute resolution ([__getattr__]),
    guarded change-tracking writes ([__setattr__]), the value codec
    ([decode]/[encode]), the lifecycle operations ([save], [refresh]) and
    the representation helpers ([_representation], [__str__], [__repr__]).

    Conventions of the embedding
    - Python values are the constructors of [value]; tuples are read as lists
      and floats are not represented.
    - [_decoded_attrs], [_encoded_attrs], [_changes] and keyword arguments are
      finite maps from attribute names to values; JSON objects carried inside
      a value are insertion-ordered association lists ([VDict]).
    - A method runs in the monad [M]: it threads the receiver and the log of
      calls made on manager objects, and ends in a result or in a raised
      exception; what was mutated before a raise stays mutated.
    - Attribute access on an instance goes through [getattr], the
      [__getattr__] of the receiver's class.  Python only reaches
      [__getattr__] for names that normal lookup does not find, so
      [getattr] is never asked for a method, a property or a class constant.
    - Nested attribute resolution is bounded by a depth (Python's recursion
      limit); when it is exhausted [RecursionError] is raised.
    - The attributes the constructor sets ([manager], the two readonly
      tuples, [_relations_name] and the three stores) are typed fields of the
      instance.  A write under a structural name ([manager] or a name that
      starts with an underscore) replaces the field of that name; the value
      is read at the type of the field.  Values that have no reading at that
      type, and structural names that are not fields, are kept in
      [__dict__]; class constants are read from the class.
    - The manager, the connection settings, the server behind them and the
      few functions of Python's library that the module calls
      ([strftime], [strptime], [str], [LooseVersion]) are collaborators:
      they are taken as records of functions. *)

From stdpp Require Import gmap strings list fin_maps pretty.

#[local] Set Warnings "-register-all,-clear-no-such-hyp".
#[local] Open Scope Z_scope.

(** ** Exceptions *)

Inductive exn :=
| AttributeError
| ResourceAttrError
| ReadonlyAttrError
| CustomFieldValueError
| ResourceVersionMismatchError
| TypeError
| KeyError
| ValueError
| IndexError
| RecursionError
| ServerError (code : Z).

#[global] Instance exn_eq_dec : EqDecision exn.
Proof. solve_decision. Defined.

Inductive Res (A : Type) :=
| Ok (a : A)
| Raise (e : exn).
Arguments Ok {A} a.
Arguments Raise {A} e.

(** [try: body except (e1, ..., en): handler] on results. *)
Definition try_except {A} (body : Res A) (caught : list exn) (handler : Res A) : Res A :=
  match body with
  | Ok a => Ok a
  | Raise e => if bool_decide (e ∈ caught) then handler else Raise e
  end.

(** ** Resource classes *)

Inductive Class :=
| Resource | Project | Issue | TimeEntry | Enumeration | Attachment
| IssueJournal | WikiPage | ProjectMembership | IssueCategory | IssueRelation
| Version | User | Group | Role | News | IssueStatus | Tracker | Query
| CustomField.

#[global] Instance Class_eq_dec : EqDecision Class.
Proof. solve_decision. Defined.

(** ** Values *)

Record date := Date { year : Z; month : Z; day : Z }.
Record datetime := DateTime { dt_date : date; hour : Z; minute : Z; second : Z }.

Inductive value :=
| VNone
| VBool (b : bool)
| VInt (z : Z)
| VStr (s : string)
| VDate (d : date)
| VDateTime (d : datetime)
| VList (l : list value)
| VDict (d : list (string * value))
(* a Resource object of class [c] built by a manager with scope [params]
   around the wire fragment [raw] *)
| VResource (c : Class) (params : gmap string value) (raw : value)
(* a ResourceSet over wire fragments *)
| VResourceSet (c : Class) (params : gmap string value) (raw : value)
(* the lazy ResourceSet returned by [manager.filter] for some filters *)
| VFilter (c : Class) (filters : gmap string value)
(* the bound helpers [Issue.Watcher(issue)] and [Group.User(group)] *)
| VWatcher (issue_id : value)
| VGroupUser (group_id : value)
(* a ResourceManager object: the class it builds, its scope parameters and
   the settings of its connection (the two formats, the attribute-error
   policy and the server version) *)
| VManager (c : Class) (params : gmap string value) (formats : string * string)
    (policy : value) (version : value).

Abbreviation kwargs := (gmap string value).

(** [x is not None] *)
Definition is_not_None (v : value) : bool :=
  match v with VNone => false | _ => true end.

(** [d.get(k)] followed by the test [is not None]: the value when the key is
    there with a value other than [None]. *)
Definition get_not_None (d : gmap string value) (k : string) : option value :=
  match d !! k with
  | Some v => if is_not_None v then Some v else None
  | None => None
  end.

(** Lookup in a JSON object, [d[k]] and [k in d]. *)
Fixpoint assoc_get (d : list (string * value)) (k : string) : option value :=
  match d with
  | [] => None
  | (k', v) :: d' => if bool_decide (k' = k) then Some v else assoc_get d' k
  end.

(** [d[k] = v] on an insertion-ordered dict: an existing key keeps its place. *)
Fixpoint assoc_set {K V} `{EqDecision K} (d : list (K * V)) (k : K) (v : V) : list (K * V) :=
  match d with
  | [] => [(k, v)]
  | (k', v') :: d' =>
      if bool_decide (k' = k) then (k', v) :: d' else (k', v') :: assoc_set d' k v
  end.

(** [dict(pairs)] *)
Definition dict_of_pairs (ps : list (string * value)) : list (string * value) :=
  foldl (fun d p => assoc_set d p.1 p.2) [] ps.

(** ** Module-level tables *)

Definition _RESOURCE_SET_MAP : gmap string Class :=
  list_to_map
    [("trackers", Tracker); ("issue_categories", IssueCategory);
     ("custom_fields", CustomField); ("groups", Group); ("users", User);
     ("memberships", ProjectMembership); ("relations", IssueRelation);
     ("attachments", Attachment); ("watchers", User);
     ("journals", IssueJournal); ("children", Issue); ("roles", Role)].

Definition _RESOURCE_MAP : gmap string Class :=
  list_to_map
    [("author", User); ("assigned_to", User); ("project", Project);
     ("tracker", Tracker); ("status", IssueStatus); ("user", User);
     ("issue", Issue); ("priority", Enumeration); ("activity", Enumeration);
     ("category", IssueCategory); ("fixed_version", Version)].

Definition _RELATIONS_MAP : gmap string Class :=
  list_to_map
    [("wiki_pages", WikiPage); ("memberships", ProjectMembership);
     ("issue_categories", IssueCategory); ("versions", Version);
     ("news", News); ("relations", IssueRelation);
     ("time_entries", TimeEntry); ("issues", Issue)].

Definition _SINGLE_ATTR_ID_MAP : gmap string string :=
  list_to_map
    [("parent_id", "parent"); ("project_id", "project");
     ("tracker_id", "tracker"); ("priority_id", "priority");
     ("assigned_to_id", "assigned_to"); ("category_id", "category");
     ("fixed_version_id", "fixed_version"); ("parent_issue_id", "parent");
     ("issue_id", "issue"); ("activity_id", "activity")].

Definition _MULTIPLE_ATTR_ID_MAP : gmap string string :=
  list_to_map [("user_ids", "users"); ("role_ids", "roles")].

(** ** Class attributes *)

Module Cls.

Definition __name__ (c : Class) : string :=
  match c with
  | Resource => "Resource" | Project => "Project" | Issue => "Issue"
  | TimeEntry => "TimeEntry" | Enumeration => "Enumeration"
  | Attachment => "Attachment" | IssueJournal => "IssueJournal"
  | WikiPage => "WikiPage" | ProjectMembership => "ProjectMembership"
  | IssueCategory => "IssueCategory" | IssueRelation => "IssueRelation"
  | Version => "Version" | User => "User" | Group => "Group" | Role => "Role"
  | News => "News" | IssueStatus => "IssueStatus" | Tracker => "Tracker"
  | Query => "Query" | CustomField => "CustomField"
  end.

Definition _repr (c : Class) : list (list string) :=
  match c with
  | Issue => [["id"; "subject"]; ["id"]]
  | TimeEntry | IssueJournal | ProjectMembership | IssueRelation => [["id"]]
  | Attachment => [["id"; "filename"]; ["id"]]
  | WikiPage => [["title"]]
  | User => [["id"; "firstname"; "lastname"]; ["id"; "name"]]
  | News => [["id"; "title"]]
  | _ => [["id"; "name"]]
  end.

Definition _includes (c : Class) : list string :=
  match c with
  | Project => ["trackers"; "issue_categories"; "enabled_modules"]
  | Issue => ["children"; "attachments"; "relations"; "changesets"; "journals"; "watchers"]
  | WikiPage => ["attachments"]
  | User => ["memberships"; "groups"]
  | Group => ["memberships"; "users"]
  | _ => []
  end.

Definition _relations (c : Class) : list string :=
  match c with
  | Project =>
      ["wiki_pages"; "memberships"; "issue_categories"; "time_entries";
       "versions"; "news"; "issues"]
  | Issue => ["relations"; "time_entries"]
  | User => ["issues"; "time_entries"]
  | IssueStatus | Tracker => ["issues"]
  | _ => []
  end.

Definition _relations_name (c : Class) : option string :=
  match c with
  | User => Some "assigned_to"
  | IssueStatus => Some "status"
  | _ => None
  end.

Definition _unconvertible (c : Class) : list string :=
  match c with
  | Project => ["name"; "description"] ++ ["identifier"; "status"]
  | Issue => ["name"; "description"] ++ ["subject"; "notes"]
  | IssueJournal => ["notes"]
  | WikiPage => ["name"; "description"] ++ ["title"; "text"]
  | Version | User => ["status"]
  | _ => ["name"; "description"]
  end.

Definition _members : list string := ["manager"].

Definition _create_readonly (c : Class) : list string :=
  let base := ["id"; "created_on"; "updated_on"; "author"; "user"; "project"; "issue"] in
  match c with
  | Issue => base ++ ["spent_hours"]
  | WikiPage => base ++ ["version"]
  | ProjectMembership => base ++ ["user"; "roles"]
  | User => base ++ ["api_key"; "last_login_on"]
  | _ => base
  end.

Definition _update_readonly (c : Class) : list string :=
  match c with
  | Project => _create_readonly Resource ++ ["identifier"]
  | _ => _create_readonly c
  end.

End Cls.

(** ** Collaborators *)

(** What the module takes from outside: the functions of Python's library it
    calls, and whether the exceptions module derives [ResourceAttrError]
    from [AttributeError].  [strptime s fmt] is [None] where Python raises
    [ValueError]. *)
Record Python := {
  strftime_date : date -> string -> string;
  strftime_datetime : datetime -> string -> string;
  strptime : string -> string -> option datetime;
  str : value -> string;
  LooseVersion_lt : string -> string -> bool;
  ResourceAttrError_is_AttributeError : bool
}.

(** [isinstance(e, AttributeError)] *)
Definition is_AttributeError (py : Python) (e : exn) : bool :=
  match e with
  | AttributeError => true
  | ResourceAttrError => ResourceAttrError_is_AttributeError py
  | _ => false
  end.

(** The connection object, [manager.redmine]. *)
Record Redmine := {
  date_format : string;
  datetime_format : string;
  raise_attr_exception : value;
  ver : value
}.

(** A ResourceManager: the class it builds, its scope parameters and the
    connection. *)
Record Manager := {
  resource_class : Class;
  params : kwargs;
  redmine : Redmine
}.

(** A manager object read as a value, and back. *)
Definition VManager_of (m : Manager) : value :=
  VManager (resource_class m) (params m)
    (date_format (redmine m), datetime_format (redmine m))
    (raise_attr_exception (redmine m)) (ver (redmine m)).

Definition as_manager (v : value) : option Manager :=
  match v with
  | VManager c ps formats policy version =>
      Some {| resource_class := c; params := ps;
              redmine := {| date_format := formats.1; datetime_format := formats.2;
                            raise_attr_exception := policy; ver := version |} |}
  | _ => None
  end.

(** [manager.new_manager(name, **params)], with [name] the name of class [c]. *)
Definition new_manager (m : Manager) (c : Class) (ps : kwargs) : Manager :=
  {| resource_class := c; params := ps; redmine := redmine m |}.

(** Modelled from the spec: [manager.to_resource] and
    [manager.to_resource_set] of the managers module, which wrap a wire
    fragment into an instance, respectively into a collection, of the
    manager's class without a request. *)
Definition to_resource (m : Manager) (raw : value) : value :=
  VResource (resource_class m) (params m) raw.

Definition to_resource_set (m : Manager) (raw : value) : value :=
  VResourceSet (resource_class m) (params m) raw.

(** Calls on manager objects that the engine makes, in the order made. *)
Inductive Call :=
| CallGet (m : Manager) (id : value) (ps : kwargs)
| CallFilter (m : Manager) (filters : kwargs)
| CallCreate (m : Manager) (fields : kwargs)
| CallUpdate (m : Manager) (id : value) (fields : kwargs)
| CallDelete (m : Manager) (id : value) (ps : kwargs).

(** What is behind the manager: the outcome of a request may depend on the
    calls made before it. *)
Record Server := {
  serve_get : list Call -> Manager -> value -> kwargs -> Res kwargs;
  serve_create : list Call -> Manager -> kwargs -> Res kwargs;
  serve_update : list Call -> Manager -> value -> kwargs -> Res value;
  serve_delete : list Call -> Manager -> value -> kwargs -> Res value
}.

(** ** Instances *)

Record Instance := {
  __class__ : Class;
  manager : Manager;
  _create_readonly : list string;
  _update_readonly : list string;
  _relations_name : string;
  _decoded_attrs : kwargs;
  _encoded_attrs : kwargs;
  _changes : kwargs;
  (* whether [_changes['custom_fields']] is the very list object held by
     [_decoded_attrs['custom_fields']], so that writing into one by index
     shows in the other *)
  custom_fields_shared : bool;
  (* what [object.__setattr__] stored that the fields above do not hold:
     attributes under other structural names, and values that have no
     reading at the type of the field they were written to *)
  __dict__ : kwargs
}.

Definition with_decoded (d : kwargs) (shared : bool) (r : Instance) : Instance :=
  {| __class__ := __class__ r; manager := manager r;
     _create_readonly := _create_readonly r; _update_readonly := _update_readonly r;
     _relations_name := _relations_name r;
     _decoded_attrs := d; _encoded_attrs := _encoded_attrs r;
     _changes := _changes r; custom_fields_shared := shared;
     __dict__ := __dict__ r |}.

Definition with_encoded (e : kwargs) (r : Instance) : Instance :=
  {| __class__ := __class__ r; manager := manager r;
     _create_readonly := _create_readonly r; _update_readonly := _update_readonly r;
     _relations_name := _relations_name r;
     _decoded_attrs := _decoded_attrs r; _encoded_attrs := e;
     _changes := _changes r; custom_fields_shared := custom_fields_shared r;
     __dict__ := __dict__ r |}.

Definition with_changes (c : kwargs) (shared : bool) (r : Instance) : Instance :=
  {| __class__ := __class__ r; manager := manager r;
     _create_readonly := _create_readonly r; _update_readonly := _update_readonly r;
     _relations_name := _relations_name r;
     _decoded_attrs := _decoded_attrs r; _encoded_attrs := _encoded_attrs r;
     _changes := c; custom_fields_shared := shared;
     __dict__ := __dict__ r |}.

Definition with_relations_name (n : string) (r : Instance) : Instance :=
  {| __class__ := __class__ r; manager := manager r;
     _create_readonly := _create_readonly r; _update_readonly := _update_readonly r;
     _relations_name := n;
     _decoded_attrs := _decoded_attrs r; _encoded_attrs := _encoded_attrs r;
     _changes := _changes r; custom_fields_shared := custom_fields_shared r;
     __dict__ := __dict__ r |}.

Definition with_manager (m : Manager) (r : Instance) : Instance :=
  {| __class__ := __class__ r; manager := m;
     _create_readonly := _create_readonly r; _update_readonly := _update_readonly r;
     _relations_name := _relations_name r;
     _decoded_attrs := _decoded_attrs r; _encoded_attrs := _encoded_attrs r;
     _changes := _changes r; custom_fields_shared := custom_fields_shared r;
     __dict__ := __dict__ r |}.

Definition with_create_readonly (names : list string) (r : Instance) : Instance :=
  {| __class__ := __class__ r; manager := manager r;
     _create_readonly := names; _update_readonly := _update_readonly r;
     _relations_name := _relations_name r;
     _decoded_attrs := _decoded_attrs r; _encoded_attrs := _encoded_attrs r;
     _changes := _changes r; custom_fields_shared := custom_fields_shared r;
     __dict__ := __dict__ r |}.

Definition with_update_readonly (names : list string) (r : Instance) : Instance :=
  {| __class__ := __class__ r; manager := manager r;
     _create_readonly := _create_readonly r; _update_readonly := names;
     _relations_name := _relations_name r;
     _decoded_attrs := _decoded_attrs r; _encoded_attrs := _encoded_attrs r;
     _changes := _changes r; custom_fields_shared := custom_fields_shared r;
     __dict__ := __dict__ r |}.

Definition with___dict__ (d : kwargs) (r : Instance) : Instance :=
  {| __class__ := __class__ r; manager := manager r;
     _create_readonly := _create_readonly r; _update_readonly := _update_readonly r;
     _relations_name := _relations_name r;
     _decoded_attrs := _decoded_attrs r; _encoded_attrs := _encoded_attrs r;
     _changes := _changes r; custom_fields_shared := custom_fields_shared r;
     __dict__ := d |}.

(** [self._decoded_attrs[k] = v]: binding ['custom_fields'] to another object
    ends the sharing. *)
Definition set_decoded_item (k : string) (v : value) (r : Instance) : Instance :=
  with_decoded (<[k := v]> (_decoded_attrs r))
    (if bool_decide (k = "custom_fields") then false else custom_fields_shared r) r.

(** [self._changes[k] = v] *)
Definition set_changes_item (k : string) (v : value) (r : Instance) : Instance :=
  with_changes (<[k := v]> (_changes r))
    (if bool_decide (k = "custom_fields") then false else custom_fields_shared r) r.

(** [self._encoded_attrs[k] = v] and [self._encoded_attrs.pop(k, None)] *)
Definition set_encoded_item (k : string) (v : value) (r : Instance) : Instance :=
  with_encoded (<[k := v]> (_encoded_attrs r)) r.

Definition pop_encoded_item (k : string) (r : Instance) : Instance :=
  with_encoded (delete k (_encoded_attrs r)) r.

(** [str.lower] on ASCII letters. *)
Definition lower_ascii (a : Ascii.ascii) : Ascii.ascii :=
  let n := Ascii.nat_of_ascii a in
  if ((65 <=? n) && (n <=? 90))%nat then Ascii.ascii_of_nat (n + 32) else a.

Fixpoint lower (s : string) : string :=
  match s with
  | EmptyString => EmptyString
  | String a s' => String (lower_ascii a) (lower s')
  end.

(** [dict.fromkeys(names)] *)
Definition fromkeys (names : list string) : kwargs :=
  list_to_map ((fun n => (n, VNone)) <$> names).

(** [Resource.__init__]: every assignment of the constructor goes to a
    structural name and so sets the attribute itself. *)
Definition __init__ (c : Class) (m : Manager) (attributes : kwargs) : Instance :=
  let relations_includes := Cls._relations c ++ Cls._includes c in
  {| __class__ := c;
     manager := m;
     _create_readonly := Cls._create_readonly c ++ relations_includes;
     _update_readonly := Cls._update_readonly c ++ relations_includes;
     _decoded_attrs := attributes ∪ fromkeys relations_includes;
     _encoded_attrs := ∅;
     _changes := ∅;
     custom_fields_shared := false;
     _relations_name :=
       match Cls._relations_name c with
       | Some n => n
       | None => lower (Cls.__name__ c)
       end;
     __dict__ := ∅ |}.

(** [Resource.raw] *)
Definition raw (r : Instance) : kwargs := _decoded_attrs r.

(** [Resource.is_new] *)
Definition is_new (r : Instance) : bool :=
  if bool_decide (is_Some (_decoded_attrs r !! "id"))
     || bool_decide (is_Some (_decoded_attrs r !! "created_on"))
  then false else true.

(** [Resource.__dir__] and [Resource.__iter__] *)
Definition __dir__ (r : Instance) : list string := (map_to_list (_decoded_attrs r)).*1.
Definition __iter__ (r : Instance) : list (string * value) := map_to_list (_decoded_attrs r).

(** ** The method monad *)

Record World := { self : Instance; calls : list Call }.

Definition M (A : Type) : Type := World -> World * Res A.

#[global] Instance Res_ret : MRet Res := fun A a => Ok a.
#[global] Instance Res_bind : MBind Res := fun A B f r =>
  match r with
  | Ok a => f a
  | Raise e => Raise e
  end.

#[global] Instance M_ret : MRet M := fun A a w => (w, Ok a).
#[global] Instance M_bind : MBind M := fun A B f m w =>
  match m w with
  | (w', Ok a) => f a w'
  | (w', Raise e) => (w', Raise e)
  end.

Definition raise {A} (e : exn) : M A := fun w => (w, Raise e).
Definition lift {A} (r : Res A) : M A := fun w => (w, r).
Definition get_self : M Instance := fun w => (w, Ok (self w)).
Definition modify_self (f : Instance -> Instance) : M unit :=
  fun w => ({| self := f (self w); calls := calls w |}, Ok tt).
Definition log_call (c : Call) : M unit :=
  fun w => ({| self := self w; calls := calls w ++ [c] |}, Ok tt).
Definition get_calls : M (list Call) := fun w => (w, Ok (calls w)).

(** Running a method of another object: the receiver changes for the time of
    the call, the log of calls is shared. *)
Definition on_instance {A} (r : Instance) (m : M A) : M A :=
  fun w =>
    let '(w', res) := m {| self := r; calls := calls w |} in
    ({| self := self w; calls := calls w' |}, res).

(** [getattr(obj, name, default)] *)
Definition getattr_default (py : Python) (self_getattr : string -> M value)
    (attr : string) (default : value) : M value :=
  fun w =>
    match self_getattr attr w with
    | (w', Raise e) => if is_AttributeError py e then (w', Ok default) else (w', Raise e)
    | r => r
    end.

(** ** Operations on values *)

(** [hash(v)] succeeds: lists and dicts are unhashable. *)
Definition hashable (v : value) : bool :=
  match v with
  | VList _ | VDict _ => false
  | _ => true
  end.

#[global] Instance date_eq_dec : EqDecision date.
Proof. solve_decision. Defined.
#[global] Instance datetime_eq_dec : EqDecision datetime.
Proof. solve_decision. Defined.

(** Equality of dictionary keys: [True == 1] and [False == 0]; objects
    compare by identity, which values do not carry, so an object used as a
    key is taken to match nothing. *)
Definition key_eqb (a b : value) : bool :=
  match a, b with
  | VNone, VNone => true
  | VBool x, VBool y => bool_decide (x = y)
  | VBool x, VInt y => bool_decide (y = if x then 1 else 0)
  | VInt x, VBool y => bool_decide (x = if y then 1 else 0)
  | VInt x, VInt y => bool_decide (x = y)
  | VStr x, VStr y => bool_decide (x = y)
  | VDate x, VDate y => bool_decide (x = y)
  | VDateTime x, VDateTime y => bool_decide (x = y)
  | _, _ => false
  end.

(** [for x in v]: the elements a loop over [v] visits.  Resource objects and
    collections are only produced by [encode] and kept in the cache; looping
    over them is not represented and reads as [TypeError]. *)
Definition iter (v : value) : Res (list value) :=
  match v with
  | VList l => Ok l
  | VStr s => Ok ((fun a => VStr (String a EmptyString)) <$> String.list_ascii_of_string s)
  | VDict d => Ok (VStr <$> d.*1)
  | _ => Raise TypeError
  end.

(** [v[k]] for a string [k] *)
Definition getitem (v : value) (k : string) : Res value :=
  match v with
  | VDict d =>
      match assoc_get d k with
      | Some x => Ok x
      | None => Raise KeyError
      end
  | _ => Raise TypeError
  end.

(** [k in v] for a string [k] *)
Definition contains (v : value) (k : string) : Res bool :=
  match v with
  | VDict d => Ok (bool_decide (is_Some (assoc_get d k)))
  | VList l => Ok (existsb (key_eqb (VStr k)) l)
  | VStr s => Ok (bool_decide (is_Some (String.index 0 k s)))
  | _ => Raise TypeError
  end.

(** A dict keyed by custom field ids, in insertion order. *)
Fixpoint ids_get (new : list (value * value)) (k : value) : option value :=
  match new with
  | [] => None
  | (k', v) :: new' => if key_eqb k' k then Some v else ids_get new' k
  end.

Fixpoint ids_set (new : list (value * value)) (k v : value) : list (value * value) :=
  match new with
  | [] => [(k, v)]
  | (k', v') :: new' =>
      if key_eqb k' k then (k', v) :: new' else (k', v') :: ids_set new' k v
  end.

Fixpoint ids_pop (new : list (value * value)) (k : value) : list (value * value) :=
  match new with
  | [] => []
  | (k', v) :: new' => if key_eqb k' k then new' else (k', v) :: ids_pop new' k
  end.

Section Engine.
Context (py : Python) (srv : Server).

(** ** The codec *)

(** [datetime.strptime(v, fmt)] *)
Definition datetime_strptime (v : value) (fmt : string) : Res datetime :=
  match v with
  | VStr s =>
      match strptime py s fmt with
      | Some d => Ok d
      | None => Raise ValueError
      end
  | _ => Raise TypeError
  end.

(** [Resource.decode] *)
Definition Resource_decode (attr : string) (v : value) (m : Manager) : string * value :=
  match v with
  | VDate d => (attr, VStr (strftime_date py d (date_format (redmine m))))
  | VDateTime d => (attr, VStr (strftime_datetime py d (datetime_format (redmine m))))
  | _ => (attr, v)
  end.

(** [cls.decode]: [Issue] and [TimeEntry] override it. *)
Definition decode (cls : Class) (attr : string) (v : value) (m : Manager) : string * value :=
  match cls with
  | Issue =>
      if bool_decide (attr = "version_id") then ("fixed_version_id", v)
      else Resource_decode attr v m
  | TimeEntry =>
      let attr :=
        if bool_decide (attr = "from_date") then "from"
        else if bool_decide (attr = "to_date") then "to"
        else attr in
      Resource_decode attr v m
  | _ => Resource_decode attr v m
  end.

(** [Resource.encode] *)
Definition Resource_encode (cls : Class) (attr : string) (v : value) (m : Manager)
    : Res (string * value) :=
  if bool_decide (attr ∈ Cls._unconvertible cls) then Ok (attr, v)
  else match _RESOURCE_MAP !! attr with
  | Some c => Ok (attr, to_resource (new_manager m c ∅) v)
  | None =>
  match _RESOURCE_SET_MAP !! attr with
  | Some c => Ok (attr, to_resource_set (new_manager m c ∅) v)
  | None =>
  if bool_decide (attr = "parent") then Ok (attr, to_resource (new_manager m cls ∅) v)
  else
    try_except
      (try_except
         (dt ← datetime_strptime v (datetime_format (redmine m));
          Ok (attr, VDateTime dt))
         [TypeError; ValueError]
         (dt ← datetime_strptime v (date_format (redmine m));
          Ok (attr, VDate (dt_date dt))))
      [TypeError; ValueError]
      (Ok (attr, v))
  end end.

(** [cls.encode]: [Project], [WikiPage] and [CustomField] override it. *)
Definition encode (cls : Class) (attr : string) (v : value) (m : Manager)
    : Res (string * value) :=
  match cls with
  | Project =>
      if bool_decide (attr = "enabled_modules") then
        modules ← iter v;
        names ← mapM (fun module => getitem module "name") modules;
        Ok (attr, VList names)
      else Resource_encode cls attr v m
  | WikiPage =>
      if bool_decide (attr = "parent") then
        let project_id := default (VInt 0) (params m !! "project_id") in
        Ok (attr, to_resource (new_manager m cls {[ "project_id" := project_id ]}) v)
      else Resource_encode cls attr v m
  | CustomField =>
      v ← (if bool_decide (attr = "trackers") then
             has ← contains v "tracker";
             if (has : bool) then tracker ← getitem v "tracker"; Ok (VList [tracker])
             else Ok v
           else Ok v);
      Resource_encode cls attr v m
  | _ => Resource_encode cls attr v m
  end.

(** [cls.bulk_decode] and [cls.bulk_encode] on a dict *)
Definition bulk_decode (cls : Class) (attrs : list (string * value)) (m : Manager)
    : list (string * value) :=
  dict_of_pairs ((fun kv => decode cls kv.1 kv.2 m) <$> attrs).

Definition bulk_encode (cls : Class) (attrs : list (string * value)) (m : Manager)
    : Res (list (string * value)) :=
  pairs ← mapM (fun kv => encode cls kv.1 kv.2 m) attrs;
  Ok (dict_of_pairs pairs).

(** ** Calls on the manager *)

(** Modelled from the spec: [manager.get], [manager.filter],
    [manager.create], [manager.update] and [manager.delete] of the managers
    module.  [get] and [create] wrap the returned payload in an instance of
    the manager's class, [filter] returns a lazy collection, [update] and
    [delete] return the acknowledgement. *)
Definition manager_get (m : Manager) (id : value) (ps : kwargs) : M Instance :=
  seen ← get_calls;
  log_call (CallGet m id ps);;
  payload ← lift (serve_get srv seen m id ps);
  mret (__init__ (resource_class m) m payload).

Definition manager_filter (m : Manager) (filters : kwargs) : M value :=
  log_call (CallFilter m filters);;
  mret (VFilter (resource_class m) filters).

Definition manager_create (m : Manager) (fields : kwargs) : M Instance :=
  seen ← get_calls;
  log_call (CallCreate m fields);;
  payload ← lift (serve_create srv seen m fields);
  mret (__init__ (resource_class m) m payload).

Definition manager_update (m : Manager) (id : value) (fields : kwargs) : M value :=
  seen ← get_calls;
  log_call (CallUpdate m id fields);;
  lift (serve_update srv seen m id fields).

Definition manager_delete (m : Manager) (id : value) (ps : kwargs) : M value :=
  seen ← get_calls;
  log_call (CallDelete m id ps);;
  lift (serve_delete srv seen m id ps).

(** ** Attribute resolution *)

(** In the methods below [self_getattr name] stands for the attribute access
    [self.name] (or [getattr(self, name)]) on the receiver, which Python
    routes to the [__getattr__] of the receiver's class. *)

(** The property [internal_id]; [WikiPage] keys identity by title. *)
Definition internal_id (self_getattr : string -> M value) : M value :=
  r ← get_self;
  match __class__ r with
  | WikiPage => self_getattr "title"
  | _ => self_getattr "id"
  end.

(** [dict(params, project_id=self.manager.params.get('project_id', 0))], the
    parameters [WikiPage] passes on from [refresh] and [delete]; the other
    classes pass theirs unchanged. *)
Definition scoped_params (r : Instance) (ps : kwargs) : kwargs :=
  match __class__ r with
  | WikiPage => <["project_id" := default (VInt 0) (params (manager r) !! "project_id")]> ps
  | _ => ps
  end.

(** [Resource.refresh(itself, **params)]: [None] when refreshing in place,
    the new resource otherwise. *)
Definition Resource_refresh (self_getattr : string -> M value) (itself : bool)
    (ps : kwargs) : M (option Instance) :=
  r ← get_self;
  id ← internal_id self_getattr;
  resource ← manager_get (manager r) id ps;
  if itself then
    modify_self (with_encoded ∅);;
    modify_self (with_decoded (raw resource) false);;
    mret None
  else mret (Some resource).

(** [self.refresh]: [WikiPage] adds the project scope of its manager. *)
Definition refresh (self_getattr : string -> M value) (itself : bool) (ps : kwargs)
    : M (option Instance) :=
  r ← get_self;
  Resource_refresh self_getattr itself (scoped_params r ps).

(** The test on [manager.redmine.raise_attr_exception] that ends
    [__getattr__]. *)
Definition raises_attr_exception (cls : Class) (policy : value) : bool :=
  match policy with
  | VBool b => b
  | VList names => existsb (key_eqb (VStr (Cls.__name__ cls))) names
  | _ => false
  end.

(** The end of [Resource.__getattr__], reached when nothing resolved the
    attribute: the defaults if this is a new item, else the exception or
    [None]. *)
Definition unresolved (attr : string) : M value :=
  r ← get_self;
  if is_new r then
    mret (if bool_decide (attr ∈ ["id"; "version"]) then VInt 0 else VStr EmptyString)
  else if raises_attr_exception (__class__ r)
            (raise_attr_exception (redmine (manager r)))
  then raise ResourceAttrError
  else mret VNone.

(** [Resource.__getattr__] *)
Definition Resource___getattr__ (self_getattr : string -> M value) (attr : string)
    : M value :=
  if String.prefix "_" attr then raise AttributeError
  else
    r ← get_self;
    (* If this isn't the first time attribute access we can return it from cache *)
    match get_not_None (_encoded_attrs r) attr with
    | Some encoded => mret encoded
    | None =>
        (* Else this is the first time access and we need to encode the attribute *)
        '(attr, encoded) ←
          match get_not_None (_decoded_attrs r) attr with
          | Some decoded => lift (encode (__class__ r) attr decoded (manager r))
          | None =>
              if bool_decide (attr ∈ Cls._relations (__class__ r)) then
                id ← internal_id self_getattr;
                c ← lift (match _RELATIONS_MAP !! attr with
                          | Some c => Ok c
                          | None => Raise KeyError
                          end);
                encoded ← manager_filter (new_manager (manager r) c ∅)
                            {[ _relations_name r +:+ "_id" := id ]};
                mret (attr, encoded)
              else if bool_decide (attr ∈ Cls._includes (__class__ r)) then
                resource ← refresh self_getattr false {[ "include" := VStr attr ]};
                encoded ← match resource with
                          | Some resource => on_instance resource (self_getattr attr)
                          | None => raise AttributeError
                          end;
                mret (attr, encoded)
              else mret (attr, VNone)
          end;
        (* In case of successful encoding we put it to a cache and return *)
        if is_not_None encoded then
          modify_self (set_encoded_item attr encoded);;
          mret encoded
        else unresolved attr
    end.

(** [Issue.Watcher(issue)] and [Group.User(group)] *)
Definition Issue_Watcher (self_getattr : string -> M value) : M value :=
  r ← get_self;
  issue_id ← internal_id self_getattr;
  let v := ver (redmine (manager r)) in
  if is_not_None v && LooseVersion_lt py (str py v) "2.3"
  then raise ResourceVersionMismatchError
  else mret (VWatcher issue_id).

Definition Group_User (self_getattr : string -> M value) : M value :=
  group_id ← internal_id self_getattr;
  mret (VGroupUser group_id).

(** [type(self).__getattr__]: the overrides of [Issue], [WikiPage], [User],
    [Group] and [CustomField] around [Resource.__getattr__]. *)
Definition class___getattr__ (self_getattr : string -> M value) (attr : string)
    : M value :=
  r ← get_self;
  match __class__ r with
  | Issue =>
      if bool_decide (attr = "version") then
        Resource___getattr__ self_getattr "fixed_version"
      else if bool_decide (attr = "watcher") then Issue_Watcher self_getattr
      else Resource___getattr__ self_getattr attr
  | WikiPage =>
      (if bool_decide (attr = "text")
          && negb (bool_decide (is_Some (_decoded_attrs r !! attr)))
       then
         resource ← refresh self_getattr false ∅;
         text ← match resource with
                | Some resource => on_instance resource (self_getattr attr)
                | None => raise AttributeError
                end;
         modify_self (set_decoded_item attr text)
       else mret tt);;
      Resource___getattr__ self_getattr attr
  | User =>
      if bool_decide (attr = "time_entries")
         && negb (bool_decide (is_Some (_encoded_attrs r !! attr)))
      then
        modify_self (with_relations_name "user");;
        v ← Resource___getattr__ self_getattr attr;
        modify_self (with_relations_name "assigned_to");;
        mret v
      else Resource___getattr__ self_getattr attr
  | Group =>
      if bool_decide (attr = "user") then Group_User self_getattr
      else Resource___getattr__ self_getattr attr
  | CustomField =>
      if bool_decide (attr = "value")
         && negb (bool_decide (is_Some (_decoded_attrs r !! attr)))
      then mret (VStr EmptyString)
      else Resource___getattr__ self_getattr attr
  | _ => Resource___getattr__ self_getattr attr
  end.

(** Attribute access with at most [depth] nested resolutions. *)
Fixpoint getattr (depth : nat) (attr : string) : M value :=
  match depth with
  | O => raise RecursionError
  | S d => class___getattr__ (getattr d) attr
  end.

(** [Resource.__getitem__] *)
Definition __getitem__ (depth : nat) (item : string) : M value := getattr depth item.

(** [Resource.__int__]; [WikiPage] answers its version. *)
Definition __int__ (depth : nat) : M value :=
  r ← get_self;
  match __class__ r with
  | WikiPage => getattr depth "version"
  | _ => getattr depth "id"
  end.

(** ** Attribute writes *)

(** The dict [new] built from the incoming custom fields: each field is
    keyed by its id and decoded attribute by attribute. *)
Fixpoint custom_fields_dict (cls : Class) (m : Manager) (fields : list value)
    (new : list (value * value)) : Res (list (value * value)) :=
  match fields with
  | [] => Ok new
  | field :: fields' =>
      id ← getitem field "id";
      match field with
      | VDict d =>
          if hashable id
          then custom_fields_dict cls m fields' (ids_set new id (VDict (bulk_decode cls d m)))
          else Raise TypeError
      | _ => Raise TypeError
      end
  end.

(** The loop over the stored custom fields: [stored[i] = new.pop(id)]
    wherever the id of the field at [i] is a key of [new].  [todo] is what
    remains to be visited, from index [i] on.  The loop ends with the list,
    what is left of [new], and the exception that interrupted it, if any. *)
Fixpoint custom_fields_loop (i : nat) (todo stored : list value)
    (new : list (value * value)) : list value * list (value * value) * option exn :=
  match todo with
  | [] => (stored, new, None)
  | field :: todo' =>
      match getitem field "id" with
      | Raise e => (stored, new, Some e)
      | Ok id =>
          if hashable id then
            match ids_get new id with
            | Some f => custom_fields_loop (S i) todo' (<[i := f]> stored) (ids_pop new id)
            | None => custom_fields_loop (S i) todo' stored new
            end
          else (stored, new, Some TypeError)
      end
  end.

(** Writing into the list object [_decoded_attrs['custom_fields']]. *)
Definition store_custom_fields (l : list value) (r : Instance) : Instance :=
  let r' := with_decoded (<["custom_fields" := VList l]> (_decoded_attrs r))
              (custom_fields_shared r) r in
  if custom_fields_shared r
  then with_changes (<["custom_fields" := VList l]> (_changes r)) true r'
  else r'.

(** The [custom_fields] branch of [Resource.__setattr__]. *)
Definition setattr_custom_fields (attr : string) (v : value) : M unit :=
  r ← get_self;
  new ← lift (try_except
                (fields ← iter v;
                 custom_fields_dict (__class__ r) (manager r) fields [])
                [TypeError; KeyError]
                (Raise CustomFieldValueError));
  stored ← match _decoded_attrs r !! "custom_fields" with
           | Some stored => mret stored
           | None =>
               modify_self (set_decoded_item "custom_fields" (VList []));;
               mret (VList [])
           end;
  match stored with
  | VList l =>
      match custom_fields_loop 0 l l new with
      | (l', _, Some e) => modify_self (store_custom_fields l');; raise e
      | (l', new', None) =>
          let merged := l' ++ new'.*2 in
          modify_self (store_custom_fields merged);;
          modify_self (fun r => with_changes (<[attr := VList merged]> (_changes r)) true r)
      end
  | VStr EmptyString | VDict [] => raise AttributeError
  | _ => raise TypeError
  end.

(** The last branch of [Resource.__setattr__]. *)
Definition setattr_plain (attr : string) (v : value) : M unit :=
  r ← get_self;
  let '(decoded_attr, decoded_value) := decode (__class__ r) attr v (manager r) in
  modify_self (set_changes_item decoded_attr decoded_value);;
  modify_self (set_decoded_item attr decoded_value);;
  match _SINGLE_ATTR_ID_MAP !! attr with
  | Some mirrored =>
      modify_self (set_decoded_item mirrored (VDict [("id", decoded_value)]))
  | None =>
      match _MULTIPLE_ATTR_ID_MAP !! attr with
      | Some mirrored =>
          member_ids ← lift (iter decoded_value);
          modify_self
            (set_decoded_item mirrored
               (VList ((fun member_id => VDict [("id", member_id)]) <$> member_ids)))
      | None => mret tt
      end
  end.

(** The names a tuple, a list or a dict holds for the test [attr in v]:
    its strings, respectively its keys. *)
Definition as_names (v : value) : option (list string) :=
  match v with
  | VList l => Some (omap (fun x => match x with VStr s => Some s | _ => None end) l)
  | VDict d => Some d.*1
  | _ => None
  end.

(** A dict read as a store. *)
Definition as_store (v : value) : option kwargs :=
  match v with
  | VDict d => Some (list_to_map d)
  | _ => None
  end.

(** [object.__setattr__(self, attr, value)]: the attribute of that name is
    replaced.  [_relations_name] is only ever formatted into the filter
    key, so any value is read as the text it formats to; a store written
    from outside shares no list with the other stores.  A value that has no
    reading at the type of the field (a number written to a store, say) and
    a name that is not a field are kept in [__dict__]: the embedding does
    not follow an instance whose own attributes are ill-typed. *)
Definition object___setattr__ (attr : string) (v : value) (r : Instance) : Instance :=
  let aside := with___dict__ (<[attr := v]> (__dict__ r)) r in
  let typed (field : option (Instance -> Instance)) :=
    match field with
    | Some replace => replace (with___dict__ (delete attr (__dict__ r)) r)
    | None => aside
    end in
  if bool_decide (attr = "manager") then typed (with_manager <$> as_manager v)
  else if bool_decide (attr = "_create_readonly") then
    typed (with_create_readonly <$> as_names v)
  else if bool_decide (attr = "_update_readonly") then
    typed (with_update_readonly <$> as_names v)
  else if bool_decide (attr = "_relations_name") then
    typed (Some (with_relations_name (match v with VStr s => s | _ => str py v end)))
  else if bool_decide (attr = "_decoded_attrs") then
    typed ((fun d => with_decoded d false) <$> as_store v)
  else if bool_decide (attr = "_encoded_attrs") then
    typed (with_encoded <$> as_store v)
  else if bool_decide (attr = "_changes") then
    typed ((fun c => with_changes c false) <$> as_store v)
  else aside.

(** [Resource.__setattr__] *)
Definition Resource___setattr__ (attr : string) (v : value) : M unit :=
  r ← get_self;
  if bool_decide (attr ∈ Cls._members) || String.prefix "_" attr then
    modify_self (object___setattr__ attr v)
  else if bool_decide (attr ∈ _create_readonly r) && is_new r then
    raise ReadonlyAttrError
  else if bool_decide (attr ∈ _update_readonly r) && negb (is_new r) then
    raise ReadonlyAttrError
  else
    (if bool_decide (attr = "custom_fields") then setattr_custom_fields attr v
     else setattr_plain attr v);;
    (* When we set an attribute we only clean the cache *)
    modify_self (pop_encoded_item attr).

(** [setattr(self, attr, v)]: [Issue] renames [version_id] on the way. *)
Definition setattr (attr : string) (v : value) : M unit :=
  r ← get_self;
  match __class__ r with
  | Issue =>
      if bool_decide (attr = "version_id")
      then Resource___setattr__ "fixed_version_id" v
      else Resource___setattr__ attr v
  | _ => Resource___setattr__ attr v
  end.

(** [Resource.__setitem__] *)
Definition __setitem__ (item : string) (v : value) : M unit := setattr item v.

(** ** Lifecycle *)

(** The hooks are no-ops, but for [WikiPage.post_update], which bumps the
    version counter in both stores. *)
Definition pre_create : M unit := mret tt.
Definition post_create : M unit := mret tt.
Definition pre_update : M unit := mret tt.
Definition pre_delete : M unit := mret tt.
Definition post_delete : M unit := mret tt.

Definition post_update : M unit :=
  r ← get_self;
  match __class__ r with
  | WikiPage =>
      version ← lift (match default (VInt 0) (_decoded_attrs r !! "version") with
                      | VInt z => Ok (VInt (z + 1))
                      | VBool b => Ok (VInt ((if b then 1 else 0) + 1))
                      | _ => Raise TypeError
                      end);
      modify_self (set_encoded_item "version" version);;
      modify_self (set_decoded_item "version" version)
  | _ => mret tt
  end.

(** [Resource.save]; [now] is what [datetime.utcnow()] reads. *)
Definition save (self_getattr : string -> M value) (now : datetime) : M value :=
  r ← get_self;
  (if negb (is_new r) then
     pre_update;;
     id ← internal_id self_getattr;
     r ← get_self;
     manager_update (manager r) id (_changes r);;
     modify_self
       (set_decoded_item "updated_on"
          (VStr (strftime_datetime py now (datetime_format (redmine (manager r))))));;
     post_update
   else
     pre_create;;
     created ← manager_create (manager r) (_changes r);
     modify_self (with_decoded (raw created) false);;
     post_create);;
  modify_self (with_changes ∅ false);;
  mret (VBool true).

(** [Resource.delete]; [WikiPage] adds the project scope of its manager. *)
Definition delete_ (self_getattr : string -> M value) (ps : kwargs) : M value :=
  r ← get_self;
  pre_delete;;
  id ← internal_id self_getattr;
  response ← manager_delete (manager r) id (scoped_params r ps);
  post_delete;;
  mret response.

(** ** Representation *)

(** The inner loop of [_representation], over the reversed tuple. *)
Fixpoint representation_attrs (self_getattr : string -> M value)
    (reversed_attrs : list string) (_str_ _repr_ : list value)
    : M (list value * list value) :=
  match reversed_attrs with
  | [] => mret (_str_, _repr_)
  | attr :: rest =>
      v ← getattr_default py self_getattr attr VNone;
      if is_not_None v then
        representation_attrs self_getattr rest
          (if bool_decide (attr ≠ "id") then v :: _str_ else _str_) (v :: _repr_)
      else mret (_str_, _repr_)
  end.

(** The outer loop, over the tuples of [_repr]. *)
Fixpoint representation_tuples (self_getattr : string -> M value)
    (tuples : list (list string)) (_str_ _repr_ : list value)
    : M (list value * list value) :=
  match tuples with
  | [] => mret (_str_, _repr_)
  | attrs :: rest =>
      '(_str_, _repr_) ← representation_attrs self_getattr (reverse attrs) _str_ _repr_;
      if (0 <? length _repr_)%nat then mret (_str_, _repr_)
      else representation_tuples self_getattr rest _str_ _repr_
  end.

(** [Resource._representation] *)
Definition _representation (self_getattr : string -> M value) (target : string)
    : M (list value) :=
  r ← get_self;
  '(_str_, _repr_) ← representation_tuples self_getattr (Cls._repr (__class__ r)) [] [];
  r ← get_self;
  let '(_str_, _repr_) :=
    if is_new r && (2 <? length _repr_)%nat
    then (removelast _str_, removelast _repr_)
    else (_str_, _repr_) in
  if bool_decide (target = "str") then
    match _str_ with
    | _ :: _ => mret _str_
    | [] =>
        match _repr_ with
        | first :: _ => mret [VStr (str py first)]
        | [] => raise IndexError
        end
    end
  else mret _repr_.

(** [' '.join(values)] *)
Fixpoint join_space (values : list value) : Res string :=
  match values with
  | [] => Ok EmptyString
  | [VStr s] => Ok s
  | VStr s :: rest => tail ← join_space rest; Ok (s +:+ " " +:+ tail)
  | _ => Raise TypeError
  end.

(** [Resource.__str__] *)
Definition __str__ (self_getattr : string -> M value) : M string :=
  values ← _representation self_getattr "str";
  lift (join_space values).

(** The double quote character, as a string. *)
Definition quote : string := String (Ascii.ascii_of_nat 34) EmptyString.

(** [Resource.__repr__] *)
Definition __repr__ (self_getattr : string -> M value) : M string :=
  values ← _representation self_getattr "repr";
  r ← get_self;
  let view := "<redmine.resources." +:+ Cls.__name__ (__class__ r) in
  '(view, values) ← match values with
                    | [] => raise IndexError
                    | VInt _ as first :: rest | VBool _ as first :: rest =>
                        mret (view +:+ " #" +:+ str py first, rest)
                    | _ => mret (view, values)
                    end;
  view ← (if (0 <? length values)%nat then
            joined ← lift (join_space values);
            mret (view +:+ " " +:+ quote +:+ joined +:+ quote)
          else mret view);
  mret (view +:+ ">").

End Engine.

(** ** A concrete environment for the worked examples *)

Module Fixture.

Definition pad2 (z : Z) : string :=
  if z <? 10 then "0" +:+ pretty z else pretty z.

Definition format_date (d : date) : string :=
  pretty (year d) +:+ "-" +:+ pad2 (month d) +:+ "-" +:+ pad2 (day d).

Definition format_datetime (d : datetime) : string :=
  format_date (dt_date d) +:+ "T" +:+ pad2 (hour d) +:+ ":" +:+ pad2 (minute d)
  +:+ ":" +:+ pad2 (second d) +:+ "Z".

Fixpoint digits (acc : Z) (s : string) : option Z :=
  match s with
  | EmptyString => Some acc
  | String a s' =>
      let n := Z.of_nat (Ascii.nat_of_ascii a) in
      if (48 <=? n) && (n <=? 57) then digits (10 * acc + (n - 48)) s' else None
  end.

Definition parse_date (s : string) : option date :=
  if bool_decide (String.substring 4 1 s = "-") && bool_decide (String.substring 7 1 s = "-")
  then
    y ← digits 0 (String.substring 0 4 s);
    m ← digits 0 (String.substring 5 2 s);
    d ← digits 0 (String.substring 8 2 s);
    if (1 <=? m) && (m <=? 12) && (1 <=? d) && (d <=? 31)
    then Some (Date y m d) else None
  else None.

Definition parse_time (d : date) (s : string) : option datetime :=
  if bool_decide (String.substring 0 1 s = "T") && bool_decide (String.substring 3 1 s = ":")
     && bool_decide (String.substring 6 1 s = ":") && bool_decide (String.substring 9 1 s = "Z")
  then
    h ← digits 0 (String.substring 1 2 s);
    mi ← digits 0 (String.substring 4 2 s);
    se ← digits 0 (String.substring 7 2 s);
    if (h <? 24) && (mi <? 60) && (se <? 62)
    then Some (DateTime d h mi se) else None
  else None.

(** A stand-in for [strptime] on the two default formats of the connection. *)
Definition parse (s fmt : string) : option datetime :=
  if bool_decide (fmt = "%Y-%m-%d") then
    if bool_decide (String.length s = 10%nat)
    then d ← parse_date s; Some (DateTime d 0 0 0)
    else None
  else if bool_decide (fmt = "%Y-%m-%dT%H:%M:%SZ") then
    if bool_decide (String.length s = 20%nat)
    then d ← parse_date (String.substring 0 10 s); parse_time d (String.substring 10 10 s)
    else None
  else None.

Definition to_str (v : value) : string :=
  match v with
  | VNone => "None"
  | VBool true => "True"
  | VBool false => "False"
  | VInt z => pretty z
  | VStr s => s
  | VDate d => format_date d
  | _ => "<object>"
  end.

Definition py : Python :=
  {| strftime_date := fun d _ => format_date d;
     strftime_datetime := fun d _ => format_datetime d;
     strptime := parse;
     str := to_str;
     LooseVersion_lt := fun _ _ => false;
     ResourceAttrError_is_AttributeError := true |}.

(** The defaults of the connection; [strict] raises on missing attributes,
    [lenient] answers [None]. *)
Definition strict : Redmine :=
  {| date_format := "%Y-%m-%d";
     datetime_format := "%Y-%m-%dT%H:%M:%SZ";
     raise_attr_exception := VBool true;
     ver := VNone |}.

Definition lenient : Redmine :=
  {| date_format := "%Y-%m-%d";
     datetime_format := "%Y-%m-%dT%H:%M:%SZ";
     raise_attr_exception := VBool false;
     ver := VNone |}.

Definition manager_of (c : Class) (rm : Redmine) : Manager :=
  {| resource_class := c; params := ∅; redmine := rm |}.

(** A server that answers every [get] and [create] with one payload and
    acknowledges updates and deletions. *)
Definition serving (payload : kwargs) : Server :=
  {| serve_get := fun _ _ _ _ => Ok payload;
     serve_create := fun _ _ _ => Ok payload;
     serve_update := fun _ _ _ _ => Ok VNone;
     serve_delete := fun _ _ _ _ => Ok VNone |}.

(** A server that is down. *)
Definition failing : Server :=
  {| serve_get := fun _ _ _ _ => Raise (ServerError 500);
     serve_create := fun _ _ _ => Raise (ServerError 500);
     serve_update := fun _ _ _ _ => Raise (ServerError 500);
     serve_delete := fun _ _ _ _ => Raise (ServerError 500) |}.

Definition world_of (r : Instance) : World := {| self := r; calls := [] |}.

Definition field (id : Z) (v : string) : value :=
  VDict [("id", VInt id); ("value", VStr v)].

(** An issue not yet saved, and issue 1 as fetched. *)
Definition new_issue : Instance := __init__ Issue (manager_of Issue strict) ∅.

Definition issue_1 : Instance :=
  __init__ Issue (manager_of Issue strict)
    (<["id" := VInt 1]> (<["project" := VDict [("id", VInt 1)]]> ∅)).

(** Issue 1 with a new subject pending, and a reading of the clock. *)
Definition issue_1_edited : World :=
  (setattr py "subject" (VStr "Fix bug") (world_of issue_1)).1.

Definition noon : datetime := DateTime (Date 2020 1 2) 12 0 0.

(** Issue 2 as fetched, with the time of its last update. *)
Definition issue_2 : Instance :=
  __init__ Issue (manager_of Issue strict)
    (<["id" := VInt 2]> (<["updated_on" := VStr "2014-01-01T00:00:00Z"]> ∅)).

(** A server that knows issue 1 with one child. *)
Definition with_children : Server :=
  serving (<["id" := VInt 1]> (<["children" := VList [VDict [("id", VInt 7)]]]> ∅)).

(** Issue 3 as fetched, with two custom fields. *)
Definition issue_3 : Instance :=
  __init__ Issue (manager_of Issue strict)
    (<["id" := VInt 3]> (<["custom_fields" := VList [field 1 "a"; field 2 "b"]]> ∅)).

(** Issue 4 as fetched, with two custom fields of the same id. *)
Definition issue_4 : Instance :=
  __init__ Issue (manager_of Issue strict)
    (<["id" := VInt 4]> (<["custom_fields" := VList [field 1 "a"; field 1 "b"]]> ∅)).

(** A new issue whose subject has been written. *)
Definition new_issue_fix_bug : World :=
  (setattr py "subject" (VStr "Fix bug") (world_of new_issue)).1.

(** User 5 as embedded in another payload, with a last name only, and time
    entry 5. *)
Definition user_5 : Instance :=
  __init__ User (manager_of User lenient)
    (<["id" := VInt 5]> (<["lastname" := VStr "Smith"]> ∅)).

Definition time_entry_5 : Instance :=
  __init__ TimeEntry (manager_of TimeEntry strict) (<["id" := VInt 5]> ∅).

(** Issue 6 as fetched, with a null due date. *)
Definition issue_6 : Instance :=
  __init__ Issue (manager_of Issue strict)
    (<["id" := VInt 6]> (<["due_date" := VNone]> ∅)).

(** A time entry not yet saved. *)
Definition new_time_entry : Instance := __init__ TimeEntry (manager_of TimeEntry strict) ∅.

End Fixture.


(** ** Predicates used in the statements *)

(** [keeps P m]: whatever the outcome of [m], the receiver satisfies [P]
    afterwards if it did before. *)
Definition keeps (P : Instance → Prop) {A} (m : M A) : Prop :=
  ∀ w, P (self w) → P (self (m w).1).

(** The part of an instance that attribute reads leave alone: its class,
    its manager, its readonly sets and its pending changes. *)
Definition same_shell (r0 r : Instance) : Prop :=
  __class__ r = __class__ r0 ∧ manager r = manager r0 ∧
  _create_readonly r = _create_readonly r0 ∧ _update_readonly r = _update_readonly r0 ∧
  _changes r = _changes r0.

(** The structural names of [__setattr__]: the members and the names that
    start with an underscore.  They are the instance's own state (the
    manager, the readonly tuples, the stores), which the class sets itself. *)
Definition structural (attr : string) : bool :=
  bool_decide (attr ∈ Cls._members) || String.prefix "_" attr.

(** The worlds an instance goes through in the hands of a caller: built by
    the constructor, then read, written under the names that are not
    structural, saved, refreshed or deleted any number of times, whether the
    operation returned or raised. *)
Inductive reachable (py : Python) (srv : Server) : World → Prop :=
| reachable_init c m attributes :
    reachable py srv {| self := __init__ c m attributes; calls := [] |}
| reachable_getattr w depth attr :
    reachable py srv w → reachable py srv (getattr py srv depth attr w).1
| reachable_setattr w attr v :
    structural attr = false →
    reachable py srv w → reachable py srv (setattr py attr v w).1
| reachable_save w depth now :
    reachable py srv w → reachable py srv (save py srv (getattr py srv depth) now w).1
| reachable_refresh w depth itself ps :
    reachable py srv w →
    reachable py srv (refresh srv (getattr py srv depth) itself ps w).1
| reachable_delete w depth ps :
    reachable py srv w → reachable py srv (delete_ srv (getattr py srv depth) ps w).1.


(** ** Custom fields: what the merge amounts to *)

(** The id of a custom field, and whether a value is a field with an id
    that can key a dict. *)
Definition field_id (f : value) : option value :=
  match f with
  | VDict d => assoc_get d "id"
  | _ => None
  end.

Definition well_formed_field (f : value) : bool :=
  match field_id f with
  | Some id => hashable id
  | None => false
  end.

(** [f] is a field whose id equals [id]. *)
Definition has_id (id : value) (f : value) : bool :=
  match field_id f with
  | Some id' => key_eqb id id'
  | None => false
  end.

(** A field decoded attribute by attribute. *)
Definition decoded_field (py : Python) (cls : Class) (m : Manager) (f : value) : value :=
  match f with
  | VDict d => VDict (bulk_decode py cls d m)
  | _ => f
  end.

(** The incoming field that counts for an id: the last one with that id,
    decoded. *)
Definition incoming_for (py : Python) (cls : Class) (m : Manager) (fields : list value)
    (id : value) : option value :=
  decoded_field py cls m <$> last (List.filter (has_id id) fields).

(** No two of the keys are equal. *)
Fixpoint distinct_keys (ks : list value) : Prop :=
  match ks with
  | [] => True
  | k :: ks' => Forall (fun k' => key_eqb k k' = false) ks' ∧ distinct_keys ks'
  end.

(** The entries of [new] whose key is the id of none of the fields [seen]. *)
Definition unmatched (seen : list value) (new : list (value * value)) : list (value * value) :=
  List.filter (fun kv => negb (existsb (has_id kv.1) seen)) new.

(** What the merge leaves at the place of the stored field [f], the stored
    fields [seen] coming before it. *)
Definition replacement (new : list (value * value)) (seen : list value) (f : value) : value :=
  match field_id f with
  | Some id =>
      if existsb (has_id id) seen then f
      else default f (ids_get new id)
  | None => f
  end.

(** The merged list: every stored field keeps its place, the first stored
    field of an id that has an incoming field being replaced by it; the
    incoming fields whose id no stored field has follow, in the order of
    [new]. *)
Definition merged_fields (new : list (value * value)) (stored : list value) : list value :=
  imap (fun i f => replacement new (take i stored) f) stored ++ (unmatched stored new).*2.

(** ** Representation: what the loops amount to *)

(** The attributes of a tuple taken from its end, with what they resolve to
    under [ρ], up to the first that resolves to [None]. *)
Fixpoint resolved_from_end (ρ : string → value) (reversed_attrs : list string)
    : list (string * value) :=
  match reversed_attrs with
  | [] => []
  | attr :: rest =>
      if is_not_None (ρ attr) then (attr, ρ attr) :: resolved_from_end ρ rest else []
  end.

(** The same in the order of the tuple: its longest resolved suffix. *)
Definition resolved_suffix (ρ : string → value) (attrs : list string)
    : list (string * value) :=
  reverse (resolved_from_end ρ (reverse attrs)).

(** The resolved suffix of the first tuple that has one. *)
Fixpoint accepted (ρ : string → value) (tuples : list (list string))
    : list (string * value) :=
  match tuples with
  | [] => []
  | attrs :: rest =>
      match resolved_suffix ρ attrs with
      | [] => accepted ρ rest
      | resolved => resolved
      end
  end.

(** The values of the attributes other than [id]. *)
Definition display (resolved : list (string * value)) : list value :=
  (List.filter (fun av => negb (bool_decide (av.1 = "id"))) resolved).*2.

(** The values kept for the display, which leave out those of [id], and for
    the structured form; a new instance with more than two values for the
    latter loses the last value of each. *)
Definition represented (ρ : string → value) (new : bool) (tuples : list (list string))
    : list value * list value :=
  let resolved := accepted ρ tuples in
  let _str_ := display resolved in
  let _repr_ := resolved.*2 in
  if new && (2 <? length _repr_)%nat
  then (removelast _str_, removelast _repr_)
  else (_str_, _repr_).

(** ** The cache holds no [None] *)

Definition no_None_cached (r : Instance) : Prop :=
  ∀ k, _encoded_attrs r !! k ≠ Some VNone.
(** ** Attribute resolution: the names and keys of a class *)

(** The names a class resolves in a [__getattr__] of its own, before or
    instead of handing over to [Resource.__getattr__]: the alias and the
    helper of [Issue], the text of [WikiPage], the time entries of [User],
    the helper of [Group] and the value of [CustomField]. *)
Definition own_names (c : Class) : list string :=
  match c with
  | Issue => ["version"; "watcher"]
  | WikiPage => ["text"]
  | User => ["time_entries"]
  | Group => ["user"]
  | CustomField => ["value"]
  | _ => []
  end.

(** The relation key of a class, under which the resources that refer to an
    instance of it are filtered: [assigned_to] for a user, [status] for an
    issue status, and the name of the class in lower case for the others. *)
Definition relation_key (c : Class) : string :=
  match c with
  | Resource => "resource" | Project => "project" | Issue => "issue"
  | TimeEntry => "timeentry" | Enumeration => "enumeration"
  | Attachment => "attachment" | IssueJournal => "issuejournal"
  | WikiPage => "wikipage" | ProjectMembership => "projectmembership"
  | IssueCategory => "issuecategory" | IssueRelation => "issuerelation"
  | Version => "version" | User => "assigned_to" | Group => "group"
  | Role => "role" | News => "news" | IssueStatus => "status"
  | Tracker => "tracker" | Query => "query" | CustomField => "customfield"
  end.

(** The relation key an instance holds is the one of its class; a user
    holds [user] instead while its time entries are being read, and keeps
    it if that read is interrupted. *)
Definition keyed (r : Instance) : Prop :=
  _relations_name r = relation_key (__class__ r) ∨
  (__class__ r = User ∧ _relations_name r = "user").

(** [r] is keyed and of the class of [r0]. *)
Definition keyed_as (r0 r : Instance) : Prop :=
  __class__ r = __class__ r0 ∧ keyed r.

(** ** What a read may change *)

(** [r] is [r0] after attribute reads: the shell is the same, and [decoded]
    is the same but, on a wiki page that had no [text], under [text]. *)
Definition read_frame (r0 r : Instance) : Prop :=
  same_shell r0 r ∧
  ∀ k, _decoded_attrs r !! k = _decoded_attrs r0 !! k ∨
       (__class__ r0 = WikiPage ∧ k = "text" ∧ _decoded_attrs r0 !! k = None).

(** ** Custom fields: what makes a second merge a no-op *)

(** Every entry of [new] is a field whose own id is its key. *)
Definition self_keyed (new : list (value * value)) : Prop :=
  Forall (fun kv => has_id kv.1 kv.2 = true) new.

(** A custom field as the setter is usually given: a dict (its names are
    pairwise distinct) whose id is [None], a boolean, an integer or a
    string, which decoding leaves as it is. *)
Definition plain_field (f : value) : Prop :=
  ∃ d id, f = VDict d ∧ NoDup d.*1 ∧ assoc_get d "id" = Some id ∧
          match id with VNone | VBool _ | VInt _ | VStr _ => True | _ => False end.

(** ** The bulk codec: where the entries of [dict(pairs)] stand *)

(** The names of a list, each once, in the order in which they first
    occur. *)
Fixpoint first_occurrences (names : list string) : list string :=
  match names with
  | [] => []
  | n :: rest =>
      n :: List.filter (fun x => negb (bool_decide (x = n))) (first_occurrences rest)
  end.

(** The value of the last pair of a name. *)
Definition last_value (ps : list (string * value)) (k : string) : option value :=
  assoc_get (reverse ps) k.

(** ** Links *)

(** The class attribute [query_one], the path of one resource. *)
Definition query_one (c : Class) : option string :=
  match c with
  | Project => Some "/projects/{0}.json"
  | Issue => Some "/issues/{0}.json"
  | TimeEntry => Some "/time_entries/{0}.json"
  | Attachment => Some "/attachments/{0}.json"
  | WikiPage => Some "/projects/{project_id}/wiki/{0}.json"
  | ProjectMembership => Some "/memberships/{0}.json"
  | IssueCategory => Some "/issue_categories/{0}.json"
  | IssueRelation => Some "/relations/{0}.json"
  | Version => Some "/versions/{0}.json"
  | User => Some "/users/{0}.json"
  | Group => Some "/groups/{0}.json"
  | Role => Some "/roles/{0}.json"
  | _ => None
  end.

(** The characters [{], [}] and [.]. *)
Definition open_brace : Ascii.ascii := Ascii.ascii_of_nat 123.
Definition close_brace : Ascii.ascii := Ascii.ascii_of_nat 125.
Definition dot : Ascii.ascii := Ascii.ascii_of_nat 46.

(** The index a replacement field names, when its name is a number. *)
Fixpoint field_index (acc : nat) (name : string) : option nat :=
  match name with
  | EmptyString => Some acc
  | String a name' =>
      let n := Ascii.nat_of_ascii a in
      if ((48 <=? n) && (n <=? 57))%nat then field_index (10 * acc + (n - 48)) name'
      else None
  end.

(** [s.replace(old, new)] for a non-empty [old]: every occurrence of [old]
    found from the left, without overlap, becomes [new].  [skip] counts the
    characters of an occurrence still to pass over. *)
Fixpoint replace_from (skip : nat) (old new s : string) : string :=
  match s with
  | EmptyString => EmptyString
  | String a s' =>
      match skip with
      | S k => replace_from k old new s'
      | O =>
          if String.prefix old s
          then new +:+ replace_from (String.length old - 1) old new s'
          else String a (replace_from 0 old new s')
      end
  end.

Definition replace (old new s : string) : string := replace_from 0 old new s.

Section Links.
Context (py : Python).

(** [format(v, '')], what a replacement field without a format spec is
    replaced by: a string as it is, any other value as [str] prints it. *)
Definition format_value (v : value) : string :=
  match v with
  | VStr s => s
  | _ => str py v
  end.

(** The value of the replacement field [name]. *)
Definition format_field (name : string) (args : list value) (named : kwargs)
    : Res string :=
  match name with
  | EmptyString => Raise ValueError
  | _ =>
      match field_index 0 name with
      | Some i =>
          match args !! i with
          | Some v => Ok (format_value v)
          | None => Raise IndexError
          end
      | None =>
          match named !! name with
          | Some v => Ok (format_value v)
          | None => Raise KeyError
          end
      end
  end.

(** [template.format] on positional and named arguments, for the templates
    of this module,
    whose replacement fields are a number or a name between braces:
    conversions, format specs, doubled braces and automatic numbering are
    not represented.  [field] holds the name of the field being read, if
    any. *)
Fixpoint format_from (template : string) (field : option string) (args : list value)
    (named : kwargs) : Res string :=
  match template with
  | EmptyString =>
      match field with
      | None => Ok EmptyString
      | Some _ => Raise ValueError
      end
  | String a rest =>
      match field with
      | None =>
          if bool_decide (a = open_brace) then format_from rest (Some EmptyString) args named
          else if bool_decide (a = close_brace) then Raise ValueError
          else out ← format_from rest None args named; Ok (String a out)
      | Some name =>
          if bool_decide (a = close_brace) then
            text ← format_field name args named;
            out ← format_from rest None args named;
            Ok (text +:+ out)
          else format_from rest (Some (name +:+ String a EmptyString)) args named
      end
  end.

Definition format (template : string) (args : list value) (named : kwargs) : Res string :=
  format_from template None args named.

(** The address of the server, [manager.redmine.url], a string. *)
Context (redmine_url : Redmine → string).

(** [self.query_one.format(...)]: a class without [query_one] has [None]
    there, which has no [format]. *)
Definition query_one_format (c : Class) (args : list value) (named : kwargs)
    : Res string :=
  match query_one c with
  | Some template => format template args named
  | None => Raise AttributeError
  end.

(** The property [Resource.url] *)
Definition Resource_url (self_getattr : string -> M value) : M value :=
  r ← get_self;
  match query_one (__class__ r) with
  | Some _ =>
      id ← internal_id self_getattr;
      path ← lift (query_one_format (__class__ r) [id] ∅);
      mret (VStr (redmine_url (redmine (manager r)) +:+ replace ".json" "" path))
  | None => mret VNone
  end.

(** [self.url]: the overrides of the subclasses around [Resource.url]. *)
Definition url (self_getattr : string -> M value) : M value :=
  r ← get_self;
  let base := VStr (redmine_url (redmine (manager r))) in
  match __class__ r with
  | Project =>
      identifier ← self_getattr "identifier";
      path ← lift (query_one_format Project [identifier] ∅);
      text ← lift (format "{0}{1}" [base; VStr (replace ".json" "" path)] ∅);
      mret (VStr text)
  | Enumeration =>
      id ← internal_id self_getattr;
      text ← lift (format "{0}/enumerations/{1}/edit" [base; id] ∅);
      mret (VStr text)
  | WikiPage =>
      id ← internal_id self_getattr;
      let project_id := default (VInt 0) (params (manager r) !! "project_id") in
      path ← lift (query_one_format WikiPage [id] {[ "project_id" := project_id ]});
      mret (VStr (redmine_url (redmine (manager r)) +:+ replace ".json" "" path))
  | News =>
      id ← internal_id self_getattr;
      text ← lift (format "{0}/news/{1}" [base; id] ∅);
      mret (VStr text)
  | IssueStatus =>
      id ← internal_id self_getattr;
      text ← lift (format "{0}/issue_statuses/{1}/edit" [base; id] ∅);
      mret (VStr text)
  | Tracker =>
      id ← internal_id self_getattr;
      text ← lift (format "{0}/trackers/{1}/edit" [base; id] ∅);
      mret (VStr text)
  | Query =>
      let project_id := default (VInt 0) (_decoded_attrs r !! "project_id") in
      id ← internal_id self_getattr;
      text ← lift (format "{0}/projects/{1}/issues?query_id={2}" [base; project_id; id] ∅);
      mret (VStr text)
  | CustomField =>
      id ← internal_id self_getattr;
      text ← lift (format "{0}/custom_fields/{1}/edit" [base; id] ∅);
      mret (VStr text)
  | _ => Resource_url self_getattr
  end.

End Links.

(** The part of [query_one] that comes before the identity. *)
Definition path_prefix (c : Class) : string :=
  match c with
  | Project => "/projects/"
  | Issue => "/issues/"
  | TimeEntry => "/time_entries/"
  | Attachment => "/attachments/"
  | ProjectMembership => "/memberships/"
  | IssueCategory => "/issue_categories/"
  | IssueRelation => "/relations/"
  | Version => "/versions/"
  | User => "/users/"
  | Group => "/groups/"
  | Role => "/roles/"
  | _ => EmptyString
  end.


(** * Properties *)

(** Unfolding the monad. *)
Ltac unfold_M :=
  unfold mbind, mret, M_bind, M_ret, Res_bind, Res_ret, lift, raise, get_self,
    modify_self, log_call, get_calls in *.

Section Codec.
Context (py : Python).

(** C9. [Resource.encode] is total on the attributes it does not wrap: a
    string that parses under the date-time format becomes that date-time,
    else one that parses under the date format becomes that date, and
    everything else, strings that do not parse and values that are not
    strings alike, is returned unchanged; nothing is raised.  On these
    attributes the [encode] of every class is [Resource.encode], but for
    [enabled_modules] of [Project]. *)
Theorem Resource_encode_total (cls : Class) (attr : string) (v : value) (m : Manager) :
  attr ∉ Cls._unconvertible cls →
  _RESOURCE_MAP !! attr = None →
  _RESOURCE_SET_MAP !! attr = None →
  attr ≠ "parent" →
  Resource_encode py cls attr v m =
    Ok (attr,
        match v with
        | VStr s =>
            match strptime py s (datetime_format (redmine m)) with
            | Some dt => VDateTime dt
            | None =>
                match strptime py s (date_format (redmine m)) with
                | Some dt => VDate (dt_date dt)
                | None => v
                end
            end
        | _ => v
        end) ∧
  (¬ (cls = Project ∧ attr = "enabled_modules") →
   encode py cls attr v m = Resource_encode py cls attr v m).
Proof.
  intros Hu Hr Hs Hp. split.
  - unfold Resource_encode.
    rewrite bool_decide_eq_false_2 by done. rewrite Hr, Hs.
    rewrite bool_decide_eq_false_2 by done.
    destruct v; try reflexivity. simpl.
    destruct (strptime py s (datetime_format (redmine m))); [reflexivity|]. simpl.
    destruct (strptime py s (date_format (redmine m))); reflexivity.
  - intros Hover. destruct cls; try reflexivity; simpl.
    + rewrite bool_decide_eq_false_2; [done|]. intros ->. by apply Hover.
    + by rewrite bool_decide_eq_false_2.
    + rewrite bool_decide_eq_false_2; [done|]. intros ->. vm_compute in Hs. discriminate.
Qed.

End Codec.

Lemma Resource_encode_total_witness :
  Resource_encode Fixture.py Issue "start_date" (VStr "2014-01-02")
    (Fixture.manager_of Issue Fixture.strict)
  = Ok ("start_date", VDate (Date 2014 1 2)).
Proof.
  destruct (Resource_encode_total Fixture.py Issue "start_date" (VStr "2014-01-02")
              (Fixture.manager_of Issue Fixture.strict)
              ltac:(compute_done) eq_refl eq_refl ltac:(discriminate)) as [-> _].
  reflexivity.
Defined.

Section Resolution.
Context (py : Python) (srv : Server).

Lemma Resource_encode_not_None cls attr v m a e :
  is_not_None v = true →
  Resource_encode py cls attr v m = Ok (a, e) →
  a = attr ∧ is_not_None e = true.
Proof.
  intros Hv. unfold Resource_encode.
  case_bool_decide; [by intros [= <- <-]|].
  destruct (_RESOURCE_MAP !! attr); [by intros [= <- <-]|].
  destruct (_RESOURCE_SET_MAP !! attr); [by intros [= <- <-]|].
  case_bool_decide; [by intros [= <- <-]|].
  destruct (datetime_strptime py v (datetime_format (redmine m))) as [dt|x]; simpl.
  { by intros [= <- <-]. }
  case_bool_decide; simpl; [|by rewrite bool_decide_eq_false_2].
  destruct (datetime_strptime py v (date_format (redmine m))) as [dt|y]; simpl.
  { by intros [= <- <-]. }
  case_bool_decide; simpl; [|done]. by intros [= <- <-].
Qed.

(** What [encode] returns for a value other than [None] is filed under the
    name it was asked for and is not [None] either. *)
Lemma encode_not_None cls attr v m a e :
  is_not_None v = true →
  encode py cls attr v m = Ok (a, e) →
  a = attr ∧ is_not_None e = true.
Proof.
  intros Hv. destruct cls; simpl; try apply Resource_encode_not_None; try done.
  - case_bool_decide; [|by apply Resource_encode_not_None].
    destruct (iter v); simpl; [|done].
    destruct (mapM _ _); simpl; [|done]. by intros [= <- <-].
  - case_bool_decide; [|by apply Resource_encode_not_None]. by intros [= <- <-].
  - case_bool_decide; [|by apply Resource_encode_not_None].
    destruct (contains v "tracker") as [[]|]; simpl; [| |done].
    + destruct (getitem v "tracker"); simpl; [|done].
      by apply Resource_encode_not_None.
    + by apply Resource_encode_not_None.
Qed.

End Resolution.

Section Steps.
Context (py : Python) (srv : Server) (g : string → M value).

(** Step 1: a cached value is returned as it is. *)
Lemma getattr_cached attr w e :
  String.prefix "_" attr = false →
  get_not_None (_encoded_attrs (self w)) attr = Some e →
  Resource___getattr__ py srv g attr w = (w, Ok e).
Proof.
  intros Hp He. unfold Resource___getattr__. rewrite Hp. unfold_M. by rewrite He.
Qed.

(** Step 2: a decoded value is encoded, cached and returned. *)
Lemma getattr_decoded attr w d :
  String.prefix "_" attr = false →
  get_not_None (_encoded_attrs (self w)) attr = None →
  get_not_None (_decoded_attrs (self w)) attr = Some d →
  Resource___getattr__ py srv g attr w =
    match encode py (__class__ (self w)) attr d (manager (self w)) with
    | Ok (_, e) => ({| self := set_encoded_item attr e (self w); calls := calls w |}, Ok e)
    | Raise x => (w, Raise x)
    end.
Proof.
  intros Hp He Hd. unfold Resource___getattr__. rewrite Hp. unfold_M.
  rewrite He, Hd.
  assert (Hn : is_not_None d = true).
  { unfold get_not_None in Hd. destruct (_ !! _); [|done].
    by destruct (is_not_None v) eqn:?; simplify_eq. }
  destruct (encode _ _ _ _ _) as [[a e]|x] eqn:Henc; [|done].
  apply encode_not_None in Henc as [-> Hne]; [|done]. by rewrite Hne.
Qed.

(** Step 3: a relation name is resolved by a filter on the mapped class,
    keyed by the identity of the receiver. *)
Lemma getattr_relation attr w w1 id c :
  String.prefix "_" attr = false →
  get_not_None (_encoded_attrs (self w)) attr = None →
  get_not_None (_decoded_attrs (self w)) attr = None →
  attr ∈ Cls._relations (__class__ (self w)) →
  internal_id g w = (w1, Ok id) →
  _RELATIONS_MAP !! attr = Some c →
  let filters : kwargs := {[ _relations_name (self w) +:+ "_id" := id ]} in
  Resource___getattr__ py srv g attr w =
    ({| self := set_encoded_item attr (VFilter c filters) (self w1);
        calls := calls w1 ++ [CallFilter (new_manager (manager (self w)) c ∅) filters] |},
     Ok (VFilter c filters)).
Proof.
  intros Hp He Hd Hr Hid Hc filters. unfold Resource___getattr__. rewrite Hp. unfold_M.
  rewrite He, Hd. rewrite bool_decide_eq_true_2 by done.
  rewrite Hid, Hc. reflexivity.
Qed.

(** A refresh that is not in place: one [get] on the manager, keyed by the
    identity of the receiver; the receiver is as resolving its identity left
    it. *)
Lemma refresh_not_itself ps w w1 id payload :
  internal_id g w = (w1, Ok id) →
  let m := manager (self w) in
  let ps' := scoped_params (self w) ps in
  serve_get srv (calls w1) m id ps' = Ok payload →
  refresh srv g false ps w =
    ({| self := self w1; calls := calls w1 ++ [CallGet m id ps'] |},
     Ok (Some (__init__ (resource_class m) m payload))).
Proof.
  intros Hid m ps' Hget. unfold refresh, Resource_refresh, manager_get. unfold_M.
  simpl. rewrite Hid. simpl. fold m ps'. rewrite Hget. reflexivity.
Qed.

(** Step 4: an include name is resolved on a resource fetched anew with
    that include. *)
Lemma getattr_include attr w w1 id payload w2 e :
  String.prefix "_" attr = false →
  get_not_None (_encoded_attrs (self w)) attr = None →
  get_not_None (_decoded_attrs (self w)) attr = None →
  attr ∉ Cls._relations (__class__ (self w)) →
  attr ∈ Cls._includes (__class__ (self w)) →
  internal_id g w = (w1, Ok id) →
  let m := manager (self w) in
  let ps := scoped_params (self w) {[ "include" := VStr attr ]} in
  serve_get srv (calls w1) m id ps = Ok payload →
  g attr {| self := __init__ (resource_class m) m payload;
            calls := calls w1 ++ [CallGet m id ps] |} = (w2, Ok e) →
  Resource___getattr__ py srv g attr w =
    if is_not_None e
    then ({| self := set_encoded_item attr e (self w1); calls := calls w2 |}, Ok e)
    else unresolved attr {| self := self w1; calls := calls w2 |}.
Proof.
  intros Hp He Hd Hr Hi Hid m ps Hget Hg.
  unfold Resource___getattr__. rewrite Hp. unfold_M.
  rewrite He, Hd. rewrite bool_decide_eq_false_2 by done.
  rewrite bool_decide_eq_true_2 by done.
  pose proof (refresh_not_itself {[ "include" := VStr attr ]} w w1 id payload Hid Hget) as Hrf.
  unfold_M. rewrite Hrf. unfold on_instance. cbn [self calls]. fold m ps.
  rewrite Hg. cbn [self calls]. by destruct (is_not_None e).
Qed.

(** Steps 5 and 6: neither cached, nor decoded, nor a relation, nor an
    include. *)
Lemma getattr_unresolved attr w :
  String.prefix "_" attr = false →
  get_not_None (_encoded_attrs (self w)) attr = None →
  get_not_None (_decoded_attrs (self w)) attr = None →
  attr ∉ Cls._relations (__class__ (self w)) →
  attr ∉ Cls._includes (__class__ (self w)) →
  Resource___getattr__ py srv g attr w = unresolved attr w.
Proof.
  intros Hp He Hd Hr Hi. unfold Resource___getattr__. rewrite Hp. unfold_M.
  rewrite He, Hd. rewrite !bool_decide_eq_false_2 by done. simpl.
  reflexivity.
Qed.

End Steps.

(** The attribute-error policy demands raising for a class exactly when it is
    the boolean [True] or a list that names the class. *)
Lemma raises_attr_exception_spec cls policy :
  raises_attr_exception cls policy = true ↔
  policy = VBool true ∨ ∃ names, policy = VList names ∧ VStr (Cls.__name__ cls) ∈ names.
Proof.
  split.
  - destruct policy; simpl; try done.
    + intros ->. by left.
    + intros H. right. exists l. split; [done|].
      apply existsb_exists in H as (x & Hin & Hx). apply list_elem_of_In in Hin.
      destruct x; simpl in Hx; try done. by apply bool_decide_eq_true in Hx as <-.
  - intros [->|(names & -> & Hin)]; [done|]. simpl.
    apply existsb_exists. exists (VStr (Cls.__name__ cls)). split.
    + by apply list_elem_of_In.
    + simpl. by apply bool_decide_eq_true.
Qed.

Lemma default_names (attr : string) :
  bool_decide (attr ∈ ["id"; "version"]) = bool_decide (attr = "id" ∨ attr = "version").
Proof. apply bool_decide_ext. rewrite !elem_of_cons, elem_of_nil. tauto. Qed.


(** ** Properties of the receiver that a method keeps *)

Section Keeps.
Context (P : Instance → Prop).

Lemma keeps_ret {A} (a : A) : keeps P (mret a).
Proof. by intros w. Qed.

Lemma keeps_raise {A} e : keeps P (raise e : M A).
Proof. by intros w. Qed.

Lemma keeps_lift {A} (r : Res A) : keeps P (lift r).
Proof. by intros w. Qed.

Lemma keeps_get_self : keeps P get_self.
Proof. by intros w. Qed.

Lemma keeps_get_calls : keeps P get_calls.
Proof. by intros w. Qed.

Lemma keeps_log_call c : keeps P (log_call c).
Proof. by intros w. Qed.

Lemma keeps_modify_self f : (∀ r, P r → P (f r)) → keeps P (modify_self f).
Proof. intros Hf w. apply Hf. Qed.

Lemma keeps_bind {A B} (m : M A) (k : A → M B) :
  keeps P m → (∀ a, keeps P (k a)) → keeps P (m ≫= k).
Proof.
  intros Hm Hk w Hw. unfold mbind, M_bind. specialize (Hm w Hw).
  destruct (m w) as [w' [a|e]]; simpl in *; [by apply Hk|done].
Qed.

Lemma keeps_on_instance {A} r (m : M A) : keeps P (on_instance r m).
Proof. intros w Hw. unfold on_instance. by destruct (m _). Qed.

End Keeps.

Ltac keeps_step :=
  lazymatch goal with
  | |- keeps _ (_ ≫= _) => apply keeps_bind; [|intros ?]
  | |- keeps _ (mret _) => apply keeps_ret
  | |- keeps _ (raise _) => apply keeps_raise
  | |- keeps _ (lift _) => apply keeps_lift
  | |- keeps _ get_self => apply keeps_get_self
  | |- keeps _ get_calls => apply keeps_get_calls
  | |- keeps _ (log_call _) => apply keeps_log_call
  | |- keeps _ (on_instance _ _) => apply keeps_on_instance
  | |- keeps _ (modify_self _) => apply keeps_modify_self; intros ? ?
  | |- keeps _ (if ?b then _ else _) => destruct b eqn:?
  | |- keeps _ (match ?x with _ => _ end) => destruct x eqn:?
  | |- keeps _ (let '(_, _) := ?x in _) => destruct x
  end.

Section Reads.
Context (py : Python) (srv : Server).

Lemma keeps_internal_id P g : (∀ a, keeps P (g a)) → keeps P (internal_id g).
Proof. intros Hg. unfold internal_id. repeat keeps_step; apply Hg. Qed.

Lemma keeps_manager_get P m id ps : keeps P (manager_get srv m id ps).
Proof. unfold manager_get. repeat keeps_step. Qed.

Lemma keeps_refresh_not_itself P g ps :
  (∀ a, keeps P (g a)) → keeps P (refresh srv g false ps).
Proof.
  intros Hg. unfold refresh, Resource_refresh.
  repeat first [apply keeps_internal_id; [done] | apply keeps_manager_get | keeps_step].
Qed.

(** A property of the receiver that the three writes of attribute reads
    keep: the relation key of [User], the text of [WikiPage], and a cache
    entry other than [None]. *)
Context (P : Instance → Prop).
Hypothesis P_relations_name : ∀ n r, P r → P (with_relations_name n r).
Hypothesis P_decoded : ∀ k v r, P r → P (set_decoded_item k v r).
Hypothesis P_encoded : ∀ k v r, is_not_None v = true → P r → P (set_encoded_item k v r).

Lemma keeps_Resource___getattr__ g attr :
  (∀ a, keeps P (g a)) → keeps P (Resource___getattr__ py srv g attr).
Proof.
  intros Hg. unfold Resource___getattr__, unresolved, manager_filter.
  repeat first [apply keeps_internal_id; [done]
               | apply keeps_refresh_not_itself; [done]
               | keeps_step]; try done.
  by apply P_encoded.
Qed.

Lemma keeps_class___getattr__ g attr :
  (∀ a, keeps P (g a)) → keeps P (class___getattr__ py srv g attr).
Proof.
  intros Hg. unfold class___getattr__, Issue_Watcher, Group_User.
  repeat first [apply keeps_Resource___getattr__; [done]
               | apply keeps_internal_id; [done]
               | apply keeps_refresh_not_itself; [done]
               | keeps_step]; try done; auto.
Qed.

Lemma keeps_getattr depth attr : keeps P (getattr py srv depth attr).
Proof.
  revert attr. induction depth as [|d IH]; intros attr; simpl.
  - apply keeps_raise.
  - by apply keeps_class___getattr__.
Qed.

End Reads.


(** ** Readonly attributes *)

Section Readonly.
Context (py : Python) (srv : Server).






End Readonly.

Section Readonly2.
Context (py : Python) (srv : Server).








End Readonly2.

(** *** Writes under structural names *)

Lemma as_manager_of (m : Manager) : as_manager (VManager_of m) = Some m.
Proof. by destruct m as [c ps []]. Qed.

Lemma as_names_of (names : list string) : as_names (VList (VStr <$> names)) = Some names.
Proof.
  unfold as_names. f_equal. induction names as [|n names IH]; [done|].
  rewrite fmap_cons. cbn [omap list_omap]. by rewrite IH.
Qed.

(** A write under the name of one of its own attributes gives the instance
    the value written: a manager, a tuple of names, a dict. *)
Lemma object___setattr___replaces (py : Python) (r : Instance) :
  (∀ m, manager (object___setattr__ py "manager" (VManager_of m) r) = m) ∧
  (∀ names,
     _create_readonly (object___setattr__ py "_create_readonly" (VList (VStr <$> names)) r)
     = names ∧
     _update_readonly (object___setattr__ py "_update_readonly" (VList (VStr <$> names)) r)
     = names) ∧
  (∀ d,
     _decoded_attrs (object___setattr__ py "_decoded_attrs" (VDict d) r) = list_to_map d ∧
     _encoded_attrs (object___setattr__ py "_encoded_attrs" (VDict d) r) = list_to_map d ∧
     _changes (object___setattr__ py "_changes" (VDict d) r) = list_to_map d) ∧
  (∀ n, _relations_name (object___setattr__ py "_relations_name" (VStr n) r) = n).
Proof.
  unfold object___setattr__. repeat split.
  - intros m. cbn [bool_decide]. rewrite bool_decide_eq_true_2 by done.
    by rewrite as_manager_of.
  - rewrite bool_decide_eq_false_2 by done. rewrite bool_decide_eq_true_2 by done.
    by rewrite as_names_of.
  - rewrite !bool_decide_eq_false_2 by done. rewrite bool_decide_eq_true_2 by done.
    by rewrite as_names_of.
Qed.

(** The guard is the tuple the instance holds.  A write under a structural
    name replaces what the instance holds: once a caller has emptied
    [_update_readonly], the setter files [id] like any other attribute.
    This is why the worlds of [reachable] are those of a caller that leaves
    the structural names to the class. *)
Lemma structural_write_replaces_the_guard :
  let w1 := (setattr Fixture.py "_update_readonly" (VList [])
               (Fixture.world_of Fixture.issue_1)).1 in
  _update_readonly (self w1) = [] ∧
  ∃ w2, setattr Fixture.py "id" (VInt 5) w1 = (w2, Ok tt) ∧
        _changes (self w2) !! "id" = Some (VInt 5) ∧
        _decoded_attrs (self w2) !! "id" = Some (VInt 5).
Proof. cbv zeta. split; [reflexivity|]. eexists. split; [reflexivity|]. by split. Qed.



(** ** Plain attribute writes *)

(** The name [decode] files a value under: the one it was given, but for the
    aliases of [TimeEntry] and [Issue]. *)
Lemma decode_key (py : Python) c attr v m :
  (decode py c attr v m).1 =
    match c with
    | TimeEntry =>
        if bool_decide (attr = "from_date") then "from"
        else if bool_decide (attr = "to_date") then "to" else attr
    | Issue => if bool_decide (attr = "version_id") then "fixed_version_id" else attr
    | _ => attr
    end.
Proof.
  destruct c; simpl; unfold Resource_decode; try by destruct v.
  by case_bool_decide; [|destruct v].
Qed.

(** The name [Resource.__setattr__] is called with: [Issue] passes
    [fixed_version_id] for [version_id]. *)
Lemma setattr_dispatch (py : Python) attr v w :
  setattr py attr v w =
    Resource___setattr__ py
      (if bool_decide (__class__ (self w) = Issue ∧ attr = "version_id")
       then "fixed_version_id" else attr) v w.
Proof.
  unfold setattr. unfold_M. simpl. destruct (__class__ (self w)) eqn:Hc;
    try (rewrite bool_decide_eq_false_2; [done|by intros [? _]]).
  case_bool_decide as H1; [by rewrite bool_decide_eq_true_2|].
  rewrite bool_decide_eq_false_2; [done|by intros [_ ?]].
Qed.

(** C4, as the code has it. A permitted plain write (the name is not
    structural, not readonly in the current state and not [custom_fields];
    for an [Issue] the name [version_id] stands for [fixed_version_id])
    decodes the pair through the class; the decoded value goes into the
    pending changes under the name [decode] returned and into [decoded]
    under the name that was written; a single-id convenience name also sets
    its mirrored attribute in [decoded] to the stub [{id: value}], a
    multi-id one to the list of stubs of the elements of the value; the
    cache entry of the written name is dropped. *)
Theorem plain_write (py : Python) (name : string) (v : value) (w : World) :
  let r := self w in
  let attr :=
    if bool_decide (__class__ r = Issue ∧ name = "version_id")
    then "fixed_version_id" else name in
  bool_decide (attr ∈ Cls._members) || String.prefix "_" attr = false →
  attr ∉ (if is_new r then _create_readonly r else _update_readonly r) →
  attr ≠ "custom_fields" →
  let k := (decode py (__class__ r) attr v (manager r)).1 in
  let dv := (decode py (__class__ r) attr v (manager r)).2 in
  let stub (e : value) := VDict [("id", e)] in
  ∀ mirror : kwargs → kwargs,
    match _SINGLE_ATTR_ID_MAP !! attr, _MULTIPLE_ATTR_ID_MAP !! attr with
    | Some mirrored, _ => mirror = insert mirrored (stub dv)
    | None, Some mirrored =>
        ∃ elements, iter dv = Ok elements ∧ mirror = insert mirrored (VList (stub <$> elements))
    | None, None => mirror = id
    end →
    ∃ w', setattr py name v w = (w', Ok tt) ∧
          _changes (self w') = <[k := dv]> (_changes r) ∧
          _decoded_attrs (self w') = mirror (<[attr := dv]> (_decoded_attrs r)) ∧
          _encoded_attrs (self w') = delete attr (_encoded_attrs r) ∧
          calls w' = calls w ∧
          k = match __class__ r with
              | TimeEntry =>
                  if bool_decide (attr = "from_date") then "from"
                  else if bool_decide (attr = "to_date") then "to" else attr
              | Issue => if bool_decide (attr = "version_id") then "fixed_version_id" else attr
              | _ => attr
              end.
Proof.
  intros r attr Hs Hro Hcf k dv stub mirror Hm. rewrite setattr_dispatch.
  pose proof (decode_key py (__class__ r) attr v (manager r)) as Hkey. fold k in Hkey.
  fold r attr. clearbody attr. subst r.
  unfold Resource___setattr__. unfold_M. simpl. rewrite Hs.
  assert (Hc : bool_decide (attr ∈ _create_readonly (self w)) && is_new (self w) = false).
  { destruct (is_new (self w)); [|by rewrite andb_false_r].
    by rewrite bool_decide_eq_false_2. }
  assert (Hu : bool_decide (attr ∈ _update_readonly (self w)) && negb (is_new (self w)) = false).
  { destruct (is_new (self w)); [by rewrite andb_false_r|].
    by rewrite bool_decide_eq_false_2. }
  rewrite Hc, Hu. rewrite bool_decide_eq_false_2 by done.
  unfold setattr_plain. unfold_M. simpl.
  destruct (decode py (__class__ (self w)) attr v (manager (self w))) as [k' dv'] eqn:Hdec.
  simpl in k, dv. subst k dv. simpl.
  destruct (_SINGLE_ATTR_ID_MAP !! attr) as [mirrored|]; simpl.
  { subst mirror. by eexists. }
  destruct (_MULTIPLE_ATTR_ID_MAP !! attr) as [mirrored|]; simpl.
  { destruct Hm as (elements & -> & ->). simpl. by eexists. }
  subst mirror. by eexists.
Qed.

Lemma plain_write_witness :
  ∃ w', setattr Fixture.py "project_id" (VInt 2)
          (Fixture.world_of Fixture.issue_1) = (w', Ok tt) ∧
        _changes (self w') = {[ "project_id" := VInt 2 ]} ∧
        _decoded_attrs (self w') !! "project_id" = Some (VInt 2) ∧
        _decoded_attrs (self w') !! "project" = Some (VDict [("id", VInt 2)]).
Proof.
  destruct (plain_write Fixture.py "project_id" (VInt 2) (Fixture.world_of Fixture.issue_1)
              eq_refl ltac:(compute_done) ltac:(discriminate)
              (insert "project" (VDict [("id", VInt 2)])) eq_refl)
    as (w' & Hw' & Hch & Hdec & _).
  exists w'. split; [exact Hw'|]. rewrite Hch, Hdec. repeat split.
Defined.

(** C4 as stated fails for the aliases of [TimeEntry]: after
    [from_date] is written the value is under [from] in the changes and under
    [from_date] in [decoded], and no name holds it in both. *)
Lemma from_date_is_filed_under_two_names :
  let '(w', outcome) :=
    setattr Fixture.py "from_date" (VDate (Date 2014 1 2))
      (Fixture.world_of Fixture.new_time_entry) in
  outcome = Ok tt ∧
  _changes (self w') = {[ "from" := VStr "2014-01-02" ]} ∧
  _decoded_attrs (self w') = {[ "from_date" := VStr "2014-01-02" ]} ∧
  ¬ ∃ name x, _changes (self w') !! name = Some x ∧ _decoded_attrs (self w') !! name = Some x.
Proof.
  vm_compute. repeat split. intros (name & x & H1 & H2).
  change (({[ "from" := VStr "2014-01-02" ]} : kwargs) !! name = Some x) in H1.
  change (({[ "from_date" := VStr "2014-01-02" ]} : kwargs) !! name = Some x) in H2.
  apply lookup_singleton_Some in H1 as [<- _].
  by apply lookup_singleton_Some in H2 as [? _].
Qed.

(** ** The identity of an instance *)

Section Identity.
Context (py : Python) (srv : Server).

Lemma getattr_S depth attr :
  getattr py srv (S depth) attr = class___getattr__ py srv (getattr py srv depth) attr.
Proof. reflexivity. Qed.

(** The attribute that holds the identity. *)
Lemma internal_id_getattr depth w :
  internal_id (getattr py srv (S depth)) w =
    Resource___getattr__ py srv (getattr py srv depth)
      (if bool_decide (__class__ (self w) = WikiPage) then "title" else "id") w.
Proof.
  unfold internal_id. unfold_M. cbn [self calls].
  destruct (__class__ (self w)) eqn:Hc; rewrite getattr_S; unfold class___getattr__;
    unfold_M; cbn [self calls]; rewrite Hc; reflexivity.
Qed.

(** Resolving the identity makes no call and leaves the receiver as it was,
    but for the cache entry of the identity. *)
Lemma internal_id_frame depth w w1 res :
  internal_id (getattr py srv depth) w = (w1, res) →
  calls w1 = calls w ∧
  same_shell (self w) (self w1) ∧
  _decoded_attrs (self w1) = _decoded_attrs (self w) ∧
  _relations_name (self w1) = _relations_name (self w) ∧
  (res = Ok VNone ∨ (∃ e, res = Raise e) → w1 = w) ∧
  ∀ k, k ∉ ["id"; "title"] → _encoded_attrs (self w1) !! k = _encoded_attrs (self w) !! k.
Proof.
  destruct depth as [|d].
  { unfold internal_id. unfold_M. simpl.
    destruct (__class__ (self w)); intros [= <- <-]; by repeat split. }
  rewrite internal_id_getattr.
  set (key := if bool_decide (__class__ (self w) = WikiPage) then "title" else "id").
  assert (Hp : String.prefix "_" key = false) by (subst key; by case_bool_decide).
  assert (Hr : key ∉ Cls._relations (__class__ (self w))).
  { subst key. destruct (__class__ (self w)); compute_done. }
  assert (Hi : key ∉ Cls._includes (__class__ (self w))).
  { subst key. destruct (__class__ (self w)); compute_done. }
  assert (Hk : key ∈ ["id"; "title"]) by (subst key; case_bool_decide; set_solver).
  destruct (get_not_None (_encoded_attrs (self w)) key) as [e|] eqn:He.
  { rewrite (getattr_cached _ _ _ _ _ e Hp He). intros [= <- <-]. by repeat split. }
  destruct (get_not_None (_decoded_attrs (self w)) key) as [dv|] eqn:Hd.
  { rewrite (getattr_decoded _ _ _ _ _ dv Hp He Hd).
    destruct (encode _ _ _ _ _) as [[a e]|x] eqn:Henc.
    - intros [= <- <-]. repeat split; try done.
      + intros [[= ->]|[x [=]]]. apply encode_not_None in Henc as [_ ?]; [done|].
        unfold get_not_None in Hd. destruct (_ !! _); [|done].
        by destruct (is_not_None v) eqn:?; simplify_eq.
      + intros k' Hk'. simpl. apply lookup_insert_ne. by intros <-.
    - intros [= <- <-]. by repeat split. }
  rewrite (getattr_unresolved _ _ _ _ _ Hp He Hd Hr Hi). unfold unresolved. unfold_M.
  destruct (is_new (self w)); [|destruct (raises_attr_exception _ _)];
    intros [= <- <-]; by repeat split.
Qed.

End Identity.

(** ** Saving *)

(** C6. [save] on a persisted instance submits the pending changes to the
    update operation of the manager under the identity of the instance,
    stamps the reading of the clock into [decoded] under [updated_on] and
    clears the changes; on a new instance it submits them to the create
    operation, replaces [decoded] by the attributes of the returned
    resource and clears the changes; both report [True].  The hooks run
    around the manager call: they do nothing, but for [WikiPage.post_update],
    which bumps the version once the update went through.  When the manager
    call raises, the exception propagates with the changes, and [decoded],
    as they were. *)
Theorem save_submits_changes (py : Python) (srv : Server) (depth : nat)
    (now : datetime) (w : World) :
  let r := self w in
  let m := manager r in
  let g := getattr py srv depth in
  (is_new r = false →
   ∀ w1 id, internal_id g w = (w1, Ok id) →
     let call := CallUpdate m id (_changes r) in
     let stamp := VStr (strftime_datetime py now (datetime_format (redmine m))) in
     (∀ e, serve_update srv (calls w) m id (_changes r) = Raise e →
        save py srv g now w = ({| self := self w1; calls := calls w ++ [call] |}, Raise e) ∧
        _changes (self w1) = _changes r ∧ _decoded_attrs (self w1) = _decoded_attrs r) ∧
     (∀ ack, serve_update srv (calls w) m id (_changes r) = Ok ack →
        (__class__ r ≠ WikiPage →
         ∃ w', save py srv g now w = (w', Ok (VBool true)) ∧
               calls w' = calls w ++ [call] ∧
               _decoded_attrs (self w') = <["updated_on" := stamp]> (_decoded_attrs r) ∧
               _changes (self w') = ∅) ∧
        (__class__ r = WikiPage →
         ∀ z, default (VInt 0) (_decoded_attrs r !! "version") = VInt z →
         ∃ w', save py srv g now w = (w', Ok (VBool true)) ∧
               calls w' = calls w ++ [call] ∧
               _decoded_attrs (self w') =
                 <["version" := VInt (z + 1)]> (<["updated_on" := stamp]> (_decoded_attrs r)) ∧
               _encoded_attrs (self w') !! "version" = Some (VInt (z + 1)) ∧
               _changes (self w') = ∅))) ∧
  (is_new r = true →
   let call := CallCreate m (_changes r) in
   (∀ e, serve_create srv (calls w) m (_changes r) = Raise e →
      save py srv g now w = ({| self := r; calls := calls w ++ [call] |}, Raise e)) ∧
   (∀ payload, serve_create srv (calls w) m (_changes r) = Ok payload →
      ∃ w', save py srv g now w = (w', Ok (VBool true)) ∧
            calls w' = calls w ++ [call] ∧
            _decoded_attrs (self w') = raw (__init__ (resource_class m) m payload) ∧
            payload ⊆ _decoded_attrs (self w') ∧
            _changes (self w') = ∅)).
Proof.
  intros r m g. split.
  - intros Hnew w1 id Hid call stamp.
    destruct (internal_id_frame py srv depth w w1 (Ok id) Hid)
      as (Hcalls & (Hcls & Hm & _ & _ & Hch) & Hdec & _).
    assert (Hsave : save py srv g now w =
      (let '(w2, ack) := manager_update srv m id (_changes r) w1 in
       match ack with
       | Ok _ =>
           (modify_self (set_decoded_item "updated_on" stamp);; post_update;;
            modify_self (with_changes ∅ false);; mret (VBool true)) w2
       | Raise e => (w2, Raise e)
       end)).
    { unfold save, pre_update. unfold_M. cbn [self calls]. fold r. rewrite Hnew.
      cbn [negb]. fold g. rewrite Hid. cbn [self calls]. rewrite Hm, Hch. fold r m.
      destruct (manager_update srv m id (_changes r) w1) as [w2 [ack|e]]; [|done].
      subst stamp. destruct (set_decoded_item _ _ _); simpl.
      by destruct (post_update _) as [? []]. }
    rewrite Hsave. unfold manager_update. unfold_M. cbn [self calls]. rewrite Hcalls.
    fold call. split.
    + intros e ->. by cbn.
    + intros ack ->. cbn [self calls]. unfold post_update. unfold_M.
      cbn [self calls __class__ set_decoded_item with_decoded _decoded_attrs].
      rewrite Hcls, Hdec. fold r. split.
      * intros Hc. destruct (__class__ r); try done;
          (eexists; split; [reflexivity|]; cbn; by rewrite Hdec).
      * intros -> z Hz. rewrite lookup_insert_ne by done. rewrite Hz.
        eexists. split; [reflexivity|]. cbn. rewrite Hdec. repeat split.
        apply lookup_insert_eq.
  - intros Hnew call. unfold save, pre_create, post_create, manager_create. unfold_M.
    cbn [self calls]. fold r m. rewrite Hnew. cbn [negb]. fold call. split.
    + intros e ->. done.
    + intros payload ->. cbn. eexists. repeat split.
      apply map_union_subseteq_l.
Qed.

Lemma save_submits_changes_witness :
  let m := Fixture.manager_of Issue Fixture.strict in
  let call := CallUpdate m (VInt 1) {[ "subject" := VStr "Fix bug" ]} in
  (∃ w', save Fixture.py (Fixture.serving ∅) (getattr Fixture.py (Fixture.serving ∅) 1)
           Fixture.noon Fixture.issue_1_edited = (w', Ok (VBool true)) ∧
         calls w' = [call] ∧
         _decoded_attrs (self w') !! "updated_on" = Some (VStr "2020-01-02T12:00:00Z") ∧
         _changes (self w') = ∅) ∧
  (∃ w', save Fixture.py Fixture.failing (getattr Fixture.py Fixture.failing 1)
           Fixture.noon Fixture.issue_1_edited = (w', Raise (ServerError 500)) ∧
         calls w' = [call] ∧
         _changes (self w') = {[ "subject" := VStr "Fix bug" ]}).
Proof.
  intros m call. split.
  - destruct (save_submits_changes Fixture.py (Fixture.serving ∅) 1 Fixture.noon
                Fixture.issue_1_edited) as [Hp _].
    destruct (Hp eq_refl
                (internal_id (getattr Fixture.py (Fixture.serving ∅) 1)
                   Fixture.issue_1_edited).1 (VInt 1) eq_refl) as [_ Hok].
    destruct (Hok VNone eq_refl) as [Hbase _].
    destruct (Hbase ltac:(discriminate)) as (w' & Hsave & Hcalls & Hdec & Hch).
    exists w'. split; [exact Hsave|]. split; [exact Hcalls|]. split; [|exact Hch].
    rewrite Hdec. reflexivity.
  - destruct (save_submits_changes Fixture.py Fixture.failing 1 Fixture.noon
                Fixture.issue_1_edited) as [Hp _].
    destruct (Hp eq_refl
                (internal_id (getattr Fixture.py Fixture.failing 1)
                   Fixture.issue_1_edited).1 (VInt 1) eq_refl) as [Hfail _].
    destruct (Hfail (ServerError 500) eq_refl) as (Hsave & Hch & _).
    eexists. split; [exact Hsave|]. split; [reflexivity|]. exact Hch.
Defined.

(** ** The cache after a write to a mirrored attribute *)

(** C2 fails on the code. Reading [project] of issue 1 caches the project
    resource; writing [project_id] rewrites [decoded['project']] to the stub
    of project 2 but drops only the cache entry of [project_id], so the next
    read of [project] still answers the resource of project 1.  Likewise
    [save] stamps a new [updated_on] into [decoded] and leaves the cached
    date-time of the old one in place. *)
Theorem mirrored_write_keeps_stale_cache :
  let g := getattr Fixture.py (Fixture.serving ∅) 2 in
  let project_1 := VResource Project ∅ (VDict [("id", VInt 1)]) in
  (let '(w1, first) := g "project" (Fixture.world_of Fixture.issue_1) in
   let '(w2, written) := setattr Fixture.py "project_id" (VInt 2) w1 in
   let '(w3, second) := g "project" w2 in
   first = Ok project_1 ∧ written = Ok tt ∧
   _decoded_attrs (self w2) !! "project" = Some (VDict [("id", VInt 2)]) ∧
   _encoded_attrs (self w2) !! "project" = Some project_1 ∧
   second = Ok project_1) ∧
  (let old := VDateTime (DateTime (Date 2014 1 1) 0 0 0) in
   let '(w1, first) := g "updated_on" (Fixture.world_of Fixture.issue_2) in
   let '(w2, saved) := save Fixture.py (Fixture.serving ∅) g Fixture.noon w1 in
   let '(w3, second) := g "updated_on" w2 in
   first = Ok old ∧ saved = Ok (VBool true) ∧
   _decoded_attrs (self w2) !! "updated_on" = Some (VStr "2020-01-02T12:00:00Z") ∧
   _encoded_attrs (self w2) !! "updated_on" = Some old ∧
   second = Ok old).
Proof. vm_compute. repeat split. Qed.

(** ** Relations are fetched once *)

Section Relations.
Context (py : Python) (srv : Server).

(** How the classes route a relation name to [Resource.__getattr__]: only
    [User] steps in, for [time_entries] not yet cached, to key the filter by
    [user_id]. *)
Lemma relation_dispatch g attr w :
  attr ∈ Cls._relations (__class__ (self w)) →
  class___getattr__ py srv g attr w =
    if bool_decide (__class__ (self w) = User ∧ attr = "time_entries")
       && negb (bool_decide (is_Some (_encoded_attrs (self w) !! attr)))
    then (modify_self (with_relations_name "user");;
          v ← Resource___getattr__ py srv g attr;
          modify_self (with_relations_name "assigned_to");;
          mret v) w
    else Resource___getattr__ py srv g attr w.
Proof.
  intros Hr. unfold class___getattr__. unfold_M. cbn [self calls].
  destruct (__class__ (self w)) eqn:Hc; cbn in Hr;
    try (by apply elem_of_nil in Hr);
    try (rewrite (bool_decide_eq_false_2 (_ ∧ _)) by (by intros [? _]); reflexivity).
  - (* Issue *)
    rewrite (bool_decide_eq_false_2 (_ ∧ _)) by (by intros [? _]).
    assert (attr ≠ "version" ∧ attr ≠ "watcher") as [H1 H2] by set_solver.
    rewrite (bool_decide_eq_false_2 (attr = "version")) by done.
    by rewrite (bool_decide_eq_false_2 (attr = "watcher")) by done.
  - (* User *)
    destruct (decide (attr = "time_entries")) as [->|Hne].
    + rewrite (bool_decide_eq_true_2 (_ ∧ _)) by done. cbn [andb].
      by destruct (bool_decide (is_Some _)).
    + rewrite (bool_decide_eq_false_2 (_ ∧ _)) by (by intros [_ ?]).
      by rewrite (bool_decide_eq_false_2 (attr = "time_entries")) by done.
Qed.

Lemma relation_not_structural c attr :
  attr ∈ Cls._relations c → String.prefix "_" attr = false ∧ attr ∉ ["id"; "title"].
Proof. destruct c; cbn; intros H; try (by apply elem_of_nil in H); set_solver. Qed.

Lemma relation_mapped c attr :
  attr ∈ Cls._relations c → is_Some (_RELATIONS_MAP !! attr).
Proof.
  destruct c; cbn; intros H; try (by apply elem_of_nil in H);
    repeat (apply elem_of_cons in H as [->|H]; [by eexists|]); by apply elem_of_nil in H.
Qed.


(** The identity does not depend on the relation key of the receiver. *)
Lemma internal_id_with_relations_name depth name w :
  internal_id (getattr py srv depth)
    {| self := with_relations_name name (self w); calls := calls w |} =
  let '(w0, res) := internal_id (getattr py srv depth) w in
  ({| self := with_relations_name name (self w0); calls := calls w0 |}, res).
Proof.
  destruct depth as [|d].
  { unfold internal_id. unfold_M. cbn [self calls __class__ with_relations_name].
    by destruct (__class__ (self w)). }
  rewrite !internal_id_getattr. cbn [self calls __class__ with_relations_name].
  set (key := if bool_decide (__class__ (self w) = WikiPage) then "title" else "id").
  assert (Hp : String.prefix "_" key = false) by (subst key; by case_bool_decide).
  assert (Hr : bool_decide (key ∈ Cls._relations (__class__ (self w))) = false).
  { apply bool_decide_eq_false. subst key. destruct (__class__ (self w)); compute_done. }
  assert (Hi : bool_decide (key ∈ Cls._includes (__class__ (self w))) = false).
  { apply bool_decide_eq_false. subst key. destruct (__class__ (self w)); compute_done. }
  unfold Resource___getattr__, unresolved. rewrite Hp. unfold_M.
  cbn [self calls __class__ with_relations_name _encoded_attrs _decoded_attrs manager].
  destruct (get_not_None (_encoded_attrs (self w)) key); [done|].
  destruct (get_not_None (_decoded_attrs (self w)) key).
  - destruct (encode _ _ _ _ _) as [[a e]|x]; [|done].
    destruct (is_not_None e); [done|]. unfold is_new. simpl.
    by repeat match goal with |- context [if ?b then _ else _] => destruct b end.
  - rewrite Hr, Hi. unfold is_new. simpl.
    by repeat match goal with |- context [if ?b then _ else _] => destruct b end.
Qed.

End Relations.

(** C8, as the code has it. Two consecutive reads of a relation of the class
    (a name of its [_relations], neither cached nor present in [decoded]) on
    an instance whose identity resolves call [filter] on the manager exactly
    once: the first read makes that one call and caches the collection, the
    second answers the cached collection without any call. *)
Theorem relation_fetched_once (py : Python) (srv : Server) (depth : nat)
    (attr : string) (w w0 : World) (id : value) :
  let r := self w in
  attr ∈ Cls._relations (__class__ r) →
  get_not_None (_encoded_attrs r) attr = None →
  get_not_None (_decoded_attrs r) attr = None →
  internal_id (getattr py srv depth) w = (w0, Ok id) →
  let key :=
    (if bool_decide (__class__ r = User ∧ attr = "time_entries")
        && negb (bool_decide (is_Some (_encoded_attrs r !! attr)))
     then "user" else _relations_name r) +:+ "_id" in
  ∃ c w1,
    _RELATIONS_MAP !! attr = Some c ∧
    let found := VFilter c {[ key := id ]} in
    getattr py srv (S depth) attr w = (w1, Ok found) ∧
    calls w1 = calls w ++ [CallFilter (new_manager (manager r) c ∅) {[ key := id ]}] ∧
    ∀ depth', getattr py srv (S depth') attr w1 = (w1, Ok found).
Proof.
  intros r Hr He Hd Hid key. subst r.
  destruct (relation_not_structural _ _ Hr) as [Hp _].
  destruct (relation_mapped _ _ Hr) as [c Hc].
  destruct (internal_id_frame py srv depth w w0 _ Hid) as (Hcalls & (Hcls & _) & _).
  assert (Hfirst : ∃ w1,
    getattr py srv (S depth) attr w = (w1, Ok (VFilter c {[ key := id ]})) ∧
    calls w1 = calls w ++ [CallFilter (new_manager (manager (self w)) c ∅) {[ key := id ]}] ∧
    __class__ (self w1) = __class__ (self w) ∧
    _encoded_attrs (self w1) !! attr = Some (VFilter c {[ key := id ]})).
  { rewrite getattr_S, relation_dispatch by done. subst key.
    destruct (bool_decide (__class__ (self w) = User ∧ attr = "time_entries")
              && negb (bool_decide (is_Some (_encoded_attrs (self w) !! attr)))).
    - unfold_M. cbn [self calls].
      set (w' := {| self := with_relations_name "user" (self w); calls := calls w |}).
      assert (Hid' : internal_id (getattr py srv depth) w'
                     = ({| self := with_relations_name "user" (self w0); calls := calls w0 |},
                        Ok id)).
      { subst w'. by rewrite internal_id_with_relations_name, Hid. }
      rewrite (getattr_relation py srv _ attr w' _ id c Hp He Hd Hr Hid' Hc).
      cbn [self calls]. eexists. split; [reflexivity|].
      rewrite Hcalls. repeat split; try done. simpl. apply lookup_insert_eq.
    - rewrite (getattr_relation py srv _ attr w w0 id c Hp He Hd Hr Hid Hc).
      eexists. split; [reflexivity|]. cbn [self calls].
      rewrite Hcalls. repeat split; try done. simpl. apply lookup_insert_eq. }
  destruct Hfirst as (w1 & Hget & Hcalls1 & Hcls1 & Hcached).
  exists c, w1. split; [done|]. split; [done|]. split; [done|].
  intros depth'. rewrite getattr_S. rewrite relation_dispatch by (by rewrite Hcls1).
  rewrite Hcached. rewrite (bool_decide_eq_true_2 (is_Some _)) by done.
  rewrite andb_false_r. apply getattr_cached; [done|].
  unfold get_not_None. by rewrite Hcached.
Qed.

Lemma relation_fetched_once_witness :
  let g := getattr Fixture.py Fixture.failing 2 in
  let found := VFilter TimeEntry {[ "issue_id" := VInt 1 ]} in
  ∃ w1, g "time_entries" (Fixture.world_of Fixture.issue_1) = (w1, Ok found) ∧
        calls w1 = [CallFilter (Fixture.manager_of TimeEntry Fixture.strict)
                      {[ "issue_id" := VInt 1 ]}] ∧
        g "time_entries" w1 = (w1, Ok found).
Proof.
  intros g found.
  destruct (relation_fetched_once Fixture.py Fixture.failing 1 "time_entries"
              (Fixture.world_of Fixture.issue_1)
              (internal_id (getattr Fixture.py Fixture.failing 1)
                 (Fixture.world_of Fixture.issue_1)).1 (VInt 1)
              ltac:(compute_done) eq_refl eq_refl eq_refl)
    as (c & w1 & Hc & Hget & Hcalls & Hsecond).
  injection Hc as <-.
  exists w1. split; [exact Hget|]. split; [exact Hcalls|]. apply (Hsecond 1%nat).
Defined.

(** C8 as stated fails on its example: [children] is an include of [Issue]
    and a relation of no class, so that two reads of it call [get] on the
    manager once and [filter] never. *)
Lemma children_is_not_fetched_by_filter :
  let g := getattr Fixture.py Fixture.with_children 3 in
  let first := g "children" (Fixture.world_of Fixture.issue_1) in
  let second := g "children" first.1 in
  (∀ c, "children" ∉ Cls._relations c) ∧
  "children" ∈ Cls._includes Issue ∧
  first.2 = Ok (VResourceSet Issue ∅ (VList [VDict [("id", VInt 7)]])) ∧
  second.2 = first.2 ∧
  calls second.1 = [CallGet (Fixture.manager_of Issue Fixture.strict) (VInt 1)
                      {[ "include" := VStr "children" ]}] ∧
  ¬ ∃ m filters, CallFilter m filters ∈ calls second.1.
Proof.
  intros g first second.
  assert (Hcalls : calls second.1 =
            [CallGet (Fixture.manager_of Issue Fixture.strict) (VInt 1)
               {[ "include" := VStr "children" ]}]) by (vm_compute; reflexivity).
  split; [|split; [|split; [|split; [|split]]]].
  - intros c. destruct c; compute_done.
  - compute_done.
  - vm_compute. reflexivity.
  - vm_compute. reflexivity.
  - exact Hcalls.
  - intros (m & filters & H). rewrite Hcalls in H.
    apply list_elem_of_singleton in H. discriminate.
Qed.

(** ** Custom fields *)

Lemma key_eqb_sym a b : key_eqb a b = key_eqb b a.
Proof.
  destruct a, b; simpl; try done; apply bool_decide_ext; try naive_solver.
Qed.

Lemma key_eqb_trans a b c :
  key_eqb a b = true → key_eqb b c = true → key_eqb a c = true.
Proof.
  destruct a, b; simpl; try done; intros H1%bool_decide_eq_true;
    destruct c; simpl; try done; intros H2%bool_decide_eq_true;
    apply bool_decide_eq_true; try congruence;
    repeat match goal with b : bool |- _ => destruct b end; simpl in *; congruence.
Qed.

(** Two keys equal to a third are equal. *)
Lemma key_eqb_common a b c :
  key_eqb a c = true → key_eqb b c = true → key_eqb a b = true.
Proof. intros H1 H2. rewrite key_eqb_sym in H2. by eapply key_eqb_trans. Qed.

Lemma ids_get_set new k v id :
  ids_get (ids_set new k v) id = if key_eqb k id then Some v else ids_get new id.
Proof.
  induction new as [|[k' v'] new IH]; simpl; [done|].
  destruct (key_eqb k' k) eqn:Hk; simpl.
  - destruct (key_eqb k' id) eqn:Hid.
    + rewrite key_eqb_sym in Hk. by rewrite (key_eqb_trans _ _ _ Hk Hid).
    + destruct (key_eqb k id) eqn:Hkid; [|done].
      by rewrite (key_eqb_trans _ _ _ Hk Hkid) in Hid.
  - rewrite IH. destruct (key_eqb k' id) eqn:Hid; [|done].
    destruct (key_eqb k id) eqn:Hkid; [|done].
    by rewrite (key_eqb_common _ _ _ Hid Hkid) in Hk.
Qed.

Lemma ids_get_None new id :
  ids_get new id = None ↔ ∀ kv, kv ∈ new → key_eqb kv.1 id = false.
Proof.
  induction new as [|[k v] new IH]; simpl.
  - split; [|done]. intros _ kv H. by apply elem_of_nil in H.
  - destruct (key_eqb k id) eqn:Hk.
    + split; [done|]. intros H. specialize (H (k, v)). simpl in H.
      rewrite Hk in H. discriminate H. apply elem_of_cons. by left.
    + rewrite IH. split.
      * intros H kv [->|Hin]%elem_of_cons; [done|by apply H].
      * intros H kv Hin. apply H. apply elem_of_cons. by right.
Qed.

Lemma ids_set_keys new k v :
  (ids_set new k v).*1 =
    if existsb (fun k' => key_eqb k' k) new.*1 then new.*1 else new.*1 ++ [k].
Proof.
  induction new as [|[k' v'] new IH]; [done|]. cbn [ids_set].
  rewrite fmap_cons. cbn [fst existsb].
  destruct (key_eqb k' k); rewrite fmap_cons; cbn [fst orb]; [done|].
  rewrite IH. by destruct (existsb _ _).
Qed.

Lemma distinct_keys_snoc ks k :
  distinct_keys ks → existsb (fun k' => key_eqb k' k) ks = false → distinct_keys (ks ++ [k]).
Proof.
  induction ks as [|k' ks IH]; simpl.
  - intros _ _. by split.
  - intros [Hk Hd] [Hkk Hex]%orb_false_elim. split; [|by apply IH].
    apply Forall_app. split; [done|]. by constructor.
Qed.

Lemma distinct_keys_set new k v :
  distinct_keys new.*1 → distinct_keys (ids_set new k v).*1.
Proof.
  intros Hd. rewrite ids_set_keys.
  destruct (existsb _ _) eqn:He; [done|]. by apply distinct_keys_snoc.
Qed.

Lemma distinct_keys_filter (P : value * value → bool) new :
  distinct_keys new.*1 → distinct_keys (List.filter P new).*1.
Proof.
  induction new as [|[k v] new IH]; simpl; [done|].
  intros [Hk Hd]. destruct (P (k, v)); simpl; [|by apply IH].
  split; [|by apply IH]. clear -Hk.
  induction new as [|[k' v'] new IH]; simpl; [done|].
  apply Forall_cons in Hk as [? ?]. destruct (P (k', v')); simpl; [|by apply IH].
  constructor; [done|by apply IH].
Qed.

(** With distinct keys, popping a key removes every entry of that key. *)
Lemma ids_pop_filter new id :
  distinct_keys new.*1 →
  ids_pop new id = List.filter (fun kv => negb (key_eqb kv.1 id)) new.
Proof.
  induction new as [|[k v] new IH]; simpl; [done|].
  intros [Hk Hd]. destruct (key_eqb k id) eqn:Hkid; simpl.
  - clear IH Hd. induction new as [|[k' v'] new IH]; simpl; [done|].
    apply Forall_cons in Hk as [Hkk Hk]. simpl in Hkk.
    destruct (key_eqb k' id) eqn:Hk'; simpl.
    + by rewrite (key_eqb_common _ _ _ Hkid Hk') in Hkk.
    + f_equal. by apply IH.
  - f_equal. by apply IH.
Qed.

Lemma filter_all {A} (P : A → bool) l :
  (∀ x, x ∈ l → P x = true) → List.filter P l = l.
Proof.
  induction l as [|x l IH]; simpl; [done|]. intros H.
  rewrite (H x) by (apply elem_of_cons; by left).
  f_equal. apply IH. intros y Hy. apply H. apply elem_of_cons. by right.
Qed.

Lemma filter_and {A} (P Q : A → bool) l :
  List.filter Q (List.filter P l) = List.filter (fun x => P x && Q x) l.
Proof.
  induction l as [|x l IH]; simpl; [done|].
  destruct (P x); simpl; [|done]. destruct (Q x); simpl; by rewrite IH.
Qed.

(** Looking an id up among the entries that none of [seen] has matched. *)
Lemma ids_get_unmatched seen new id :
  ids_get (unmatched seen new) id =
    if existsb (has_id id) seen then None else ids_get new id.
Proof.
  unfold unmatched. induction new as [|[k v] new IH]; simpl.
  { by destruct (existsb _ _). }
  destruct (existsb (has_id k) seen) eqn:Hk; simpl.
  - rewrite IH. destruct (existsb (has_id id) seen) eqn:Hid; [done|].
    destruct (key_eqb k id) eqn:Hkid; [|done]. exfalso.
    apply existsb_exists in Hk as (f & Hin & Hf).
    assert (existsb (has_id id) seen = true); [|congruence].
    apply existsb_exists. exists f. split; [done|].
    unfold has_id in *. destruct (field_id f) as [id'|]; [|done].
    rewrite key_eqb_sym in Hkid. by eapply key_eqb_trans.
  - destruct (key_eqb k id) eqn:Hkid; [|done].
    destruct (existsb (has_id id) seen) eqn:Hid; [|done]. exfalso.
    apply existsb_exists in Hid as (f & Hin & Hf).
    assert (existsb (has_id k) seen = true); [|congruence].
    apply existsb_exists. exists f. split; [done|].
    unfold has_id in *. destruct (field_id f) as [id'|]; [|done].
    by eapply key_eqb_trans.
Qed.

(** Once a field of id [id] has been seen, the entries of that id are out. *)
Lemma unmatched_snoc seen f id new :
  field_id f = Some id →
  unmatched (seen ++ [f]) new =
    List.filter (fun kv => negb (key_eqb kv.1 id)) (unmatched seen new).
Proof.
  intros Hf. unfold unmatched. rewrite filter_and. apply filter_ext.
  intros [k v]. simpl. rewrite existsb_app. simpl. unfold has_id at 2. rewrite Hf.
  rewrite orb_false_r. by rewrite negb_orb.
Qed.

Lemma well_formed_field_inv f :
  well_formed_field f = true →
  ∃ d id, f = VDict d ∧ assoc_get d "id" = Some id ∧ hashable id = true ∧
          field_id f = Some id ∧ getitem f "id" = Ok id.
Proof.
  unfold well_formed_field, field_id, getitem. destruct f; try done.
  destruct (assoc_get d "id") as [id|] eqn:Hid; [|done]. intros Hh. by exists d, id.
Qed.

(** The loop over well-formed stored fields, from any point on: [done] is
    what the loop made of the fields [seen] it has visited. *)
Lemma custom_fields_loop_spec new todo seen done :
  distinct_keys new.*1 →
  length done = length seen →
  forallb well_formed_field todo = true →
  custom_fields_loop (length done) todo (done ++ todo) (unmatched seen new) =
    (done ++ imap (fun j f => replacement new (seen ++ take j todo) f) todo,
     unmatched (seen ++ todo) new, None).
Proof.
  intros Hd. revert seen done.
  induction todo as [|f todo IH]; intros seen done Hlen Hwf.
  { simpl. by rewrite !app_nil_r. }
  simpl in Hwf. apply andb_true_iff in Hwf as [Hf Hwf].
  destruct (well_formed_field_inv f Hf) as (d & id & -> & Hid & Hh & Hfid & Hget).
  cbn [custom_fields_loop]. rewrite Hget, Hh.
  rewrite ids_get_unmatched.
  assert (Hnext : unmatched ((seen ++ [VDict d]) ++ todo) new
                  = unmatched (seen ++ VDict d :: todo) new) by (by rewrite <- app_assoc).
  assert (Himap : imap (fun j f => replacement new (seen ++ take j (VDict d :: todo)) f)
                    (VDict d :: todo)
                  = replacement new seen (VDict d)
                    :: imap (fun j f => replacement new ((seen ++ [VDict d]) ++ take j todo) f)
                         todo).
  { rewrite imap_cons. cbn [take]. rewrite app_nil_r. f_equal.
    apply imap_ext. intros j x _. simpl. by rewrite <- app_assoc. }
  rewrite Himap. unfold replacement at 1. rewrite Hfid.
  destruct (existsb (has_id id) seen) eqn:Hseen.
  - (* an earlier stored field took the incoming one *)
    replace (done ++ VDict d :: todo) with ((done ++ [VDict d]) ++ todo)
      by (by rewrite <- app_assoc).
    replace (S (length done)) with (length (done ++ [VDict d]))
      by (rewrite length_app; simpl; lia).
    replace (unmatched seen new) with (unmatched (seen ++ [VDict d]) new).
    + rewrite (IH (seen ++ [VDict d]) (done ++ [VDict d])); [|by rewrite !length_app, Hlen|done].
      by rewrite Hnext, <- app_assoc.
    + rewrite (unmatched_snoc seen (VDict d) id new Hfid). apply filter_all.
      intros [k v] Hin. simpl. apply negb_true_iff.
      assert (Hnone : ids_get (unmatched seen new) id = None)
        by (by rewrite ids_get_unmatched, Hseen).
      rewrite ids_get_None in Hnone. by apply (Hnone (k, v)).
  - destruct (ids_get new id) as [g|] eqn:Hg; simpl.
    + (* the incoming field replaces the stored one *)
      rewrite ids_pop_filter by (by apply distinct_keys_filter).
      rewrite <- (unmatched_snoc seen (VDict d) id new Hfid).
      replace (<[length done := g]> (done ++ VDict d :: todo)) with ((done ++ [g]) ++ todo).
      2:{ rewrite <- app_assoc. simpl.
          rewrite insert_app_r_alt by lia. by rewrite Nat.sub_diag. }
      replace (S (length done)) with (length (done ++ [g]))
        by (rewrite length_app; simpl; lia).
      rewrite (IH (seen ++ [VDict d]) (done ++ [g])); [|by rewrite !length_app, Hlen|done].
      by rewrite Hnext, <- app_assoc.
    + (* no incoming field of this id *)
      replace (done ++ VDict d :: todo) with ((done ++ [VDict d]) ++ todo)
        by (by rewrite <- app_assoc).
      replace (S (length done)) with (length (done ++ [VDict d]))
        by (rewrite length_app; simpl; lia).
      replace (unmatched seen new) with (unmatched (seen ++ [VDict d]) new).
      * rewrite (IH (seen ++ [VDict d]) (done ++ [VDict d]));
          [|by rewrite !length_app, Hlen|done].
        by rewrite Hnext, <- app_assoc.
      * rewrite (unmatched_snoc seen (VDict d) id new Hfid). apply filter_all.
        intros [k v] Hin. simpl. apply negb_true_iff.
        assert (Hnone : ids_get (unmatched seen new) id = None)
          by (by rewrite ids_get_unmatched, Hseen).
        rewrite ids_get_None in Hnone. by apply (Hnone (k, v)).
Qed.

(** The whole loop is the merge. *)
Lemma custom_fields_loop_merged new stored :
  distinct_keys new.*1 →
  forallb well_formed_field stored = true →
  custom_fields_loop 0 stored stored new =
    (imap (fun j f => replacement new (take j stored) f) stored, unmatched stored new, None).
Proof.
  intros Hd Hwf.
  assert (Hnew : unmatched [] new = new).
  { unfold unmatched. by apply filter_all. }
  pose proof (custom_fields_loop_spec new stored [] [] Hd eq_refl Hwf) as H.
  simpl in H. by rewrite Hnew in H.
Qed.

Section Incoming.
Context (py : Python) (cls : Class) (m : Manager).

(** Malformed incoming fields make the construction of the dict raise
    [TypeError] or [KeyError]. *)
Lemma custom_fields_dict_malformed fields acc :
  forallb well_formed_field fields = false →
  ∃ e, custom_fields_dict py cls m fields acc = Raise e ∧ e ∈ [TypeError; KeyError].
Proof.
  revert acc. induction fields as [|f fields IH]; intros acc; simpl; [done|].
  destruct (well_formed_field f) eqn:Hf; simpl.
  - intros Hrest. destruct (well_formed_field_inv f Hf) as (d & id & -> & Hid & Hh & _ & _).
    simpl. rewrite Hid. simpl. rewrite Hh. by apply IH.
  - intros _. unfold well_formed_field, field_id in Hf.
    destruct f; simpl; try (eexists; split; [done|set_solver]).
    destruct (assoc_get d "id") as [id|]; simpl.
    + rewrite Hf. eexists; split; [done|set_solver].
    + eexists; split; [done|set_solver].
Qed.

(** Well-formed incoming fields are keyed by id: the keys are distinct and
    an id finds the last field that has it, decoded. *)
Lemma custom_fields_dict_spec fields acc :
  forallb well_formed_field fields = true →
  ∃ new,
    custom_fields_dict py cls m fields acc = Ok new ∧
    (distinct_keys acc.*1 → distinct_keys new.*1) ∧
    ∀ id, ids_get new id =
            match incoming_for py cls m fields id with
            | Some g => Some g
            | None => ids_get acc id
            end.
Proof.
  revert acc. induction fields as [|f fields IH]; intros acc; simpl.
  { intros _. by exists acc. }
  intros [Hf Hwf]%andb_true_iff.
  destruct (well_formed_field_inv f Hf) as (d & id & -> & Hid & Hh & Hfid & _).
  simpl. rewrite Hid. simpl. rewrite Hh.
  destruct (IH (ids_set acc id (VDict (bulk_decode py cls d m))) Hwf)
    as (new & Hnew & Hdist & Hget).
  exists new. split; [done|]. split.
  { intros Hacc. apply Hdist. by apply distinct_keys_set. }
  intros id'. rewrite Hget, ids_get_set. unfold incoming_for. simpl.
  unfold has_id at 2. rewrite Hfid. rewrite (key_eqb_sym id' id).
  destruct (key_eqb id id'); [|done].
  rewrite last_cons. by destruct (last _).
Qed.

End Incoming.

Lemma ids_set_fresh new k v :
  Forall (fun k' => key_eqb k' k = false) new.*1 → ids_set new k v = new ++ [(k, v)].
Proof.
  induction new as [|[k' v'] new IH]; simpl; [done|].
  intros [Hk Hrest]%Forall_cons. simpl in Hk. rewrite Hk. f_equal. by apply IH.
Qed.

Lemma distinct_keys_middle ks k ks' :
  distinct_keys (ks ++ k :: ks') → Forall (fun k' => key_eqb k' k = false) ks.
Proof.
  induction ks as [|k0 ks IH]; simpl; [done|].
  intros [Hk0 Hd]. constructor; [|by apply IH].
  apply Forall_app in Hk0 as [_ Hk0]. by apply Forall_cons in Hk0 as [? _].
Qed.

(** Incoming fields of pairwise distinct ids are keyed in their order. *)
Lemma custom_fields_dict_in_order py cls m fields acc :
  forallb well_formed_field fields = true →
  distinct_keys (acc.*1 ++ omap field_id fields) →
  custom_fields_dict py cls m fields acc =
    Ok (acc ++ ((fun f => (default VNone (field_id f), decoded_field py cls m f)) <$> fields)).
Proof.
  revert acc. induction fields as [|f fields IH]; intros acc; simpl.
  { intros _ _. by rewrite app_nil_r. }
  intros [Hf Hwf]%andb_true_iff.
  destruct (well_formed_field_inv f Hf) as (d & id & -> & Hid & Hh & Hfid & _).
  simpl. rewrite Hid. simpl. rewrite Hh. intros Hd.
  rewrite ids_set_fresh by (by eapply distinct_keys_middle).
  rewrite IH; [by rewrite <- app_assoc|done|].
  by rewrite fmap_app, <- app_assoc.
Qed.

(** The shape of the merged list. *)
Lemma merged_fields_shape new stored :
  (∀ i f, stored !! i = Some f →
     merged_fields new stored !! i = Some (replacement new (take i stored) f)) ∧
  drop (length stored) (merged_fields new stored) = (unmatched stored new).*2.
Proof.
  unfold merged_fields. split.
  - intros i f Hi. rewrite lookup_app_l.
    + by rewrite list_lookup_imap, Hi.
    + rewrite length_imap. by eapply lookup_lt_Some.
  - rewrite drop_app_length'; [done|]. by rewrite length_imap.
Qed.

(** C5, as the code has it. A permitted write to [custom_fields] takes a
    sequence of mappings that each hold a hashable [id] and raises
    [CustomFieldValueError] on anything else, leaving the instance as it
    was.  The incoming fields are decoded and keyed by id, a later field of
    an id superseding an earlier one of the same id (fields of distinct ids
    keep their order).  The stored fields are then scanned in order: the
    first stored field of an id that has an incoming field is replaced by it
    in place, every other stored field stays; the incoming fields whose id no
    stored field has are appended; the merged list is what [decoded] and the
    pending changes hold afterwards, and the cache entry is dropped. *)
Theorem custom_fields_merge (py : Python) (v : value) (w : World) :
  let r := self w in
  let cls := __class__ r in
  let m := manager r in
  "custom_fields" ∉ (if is_new r then _create_readonly r else _update_readonly r) →
  ((∀ fields, iter v = Ok fields → forallb well_formed_field fields = false) →
   setattr py "custom_fields" v w = (w, Raise CustomFieldValueError)) ∧
  (∀ fields stored,
     iter v = Ok fields →
     forallb well_formed_field fields = true →
     default (VList []) (_decoded_attrs r !! "custom_fields") = VList stored →
     forallb well_formed_field stored = true →
     ∃ new w',
       custom_fields_dict py cls m fields [] = Ok new ∧
       distinct_keys new.*1 ∧
       (∀ id, ids_get new id = incoming_for py cls m fields id) ∧
       (distinct_keys (omap field_id fields) →
        new = (fun f => (default VNone (field_id f), decoded_field py cls m f)) <$> fields) ∧
       setattr py "custom_fields" v w = (w', Ok tt) ∧
       _decoded_attrs (self w') =
         <["custom_fields" := VList (merged_fields new stored)]> (_decoded_attrs r) ∧
       _changes (self w') =
         <["custom_fields" := VList (merged_fields new stored)]> (_changes r) ∧
       _encoded_attrs (self w') = delete "custom_fields" (_encoded_attrs r) ∧
       calls w' = calls w) ∧
  (∀ new stored,
     (∀ i f, stored !! i = Some f →
        merged_fields new stored !! i = Some (replacement new (take i stored) f)) ∧
     drop (length stored) (merged_fields new stored) = (unmatched stored new).*2).
Proof.
  intros r cls m Hro. subst r cls m.
  assert (Hset : setattr py "custom_fields" v w =
    (setattr_custom_fields py "custom_fields" v;;
     modify_self (pop_encoded_item "custom_fields")) w).
  { rewrite setattr_dispatch.
    rewrite bool_decide_eq_false_2 by (by intros [_ ?]).
    unfold Resource___setattr__. unfold_M. cbn [self calls].
    replace (bool_decide ("custom_fields" ∈ Cls._members) || String.prefix "_" "custom_fields")
      with false by done.
    destruct (is_new (self w)); cbn [negb andb]; rewrite ?andb_false_r, ?andb_true_r;
      by rewrite (bool_decide_eq_false_2 ("custom_fields" ∈ _)) by done. }
  rewrite Hset. clear Hset. unfold setattr_custom_fields. unfold_M. cbn [self calls].
  split; [|split].
  - intros Hbad. destruct (iter v) as [fields|e] eqn:Hiter; simpl.
    + destruct (custom_fields_dict_malformed py (__class__ (self w)) (manager (self w))
                  fields [] (Hbad fields eq_refl)) as (e & -> & He).
      simpl. by rewrite bool_decide_eq_true_2.
    + destruct v; simpl in Hiter; try done; injection Hiter as <-; done.
  - intros fields stored -> Hwf Hstored Hswf. simpl.
    destruct (custom_fields_dict_spec py (__class__ (self w)) (manager (self w))
                fields [] Hwf) as (new & Hnew & Hdist & Hget).
    rewrite Hnew. simpl. exists new.
    assert (Hlookup : ∀ id, ids_get new id
                            = incoming_for py (__class__ (self w)) (manager (self w)) fields id).
    { intros id. rewrite Hget. simpl. by destruct (incoming_for _ _ _ _ _). }
    assert (Horder : distinct_keys (omap field_id fields) →
      new = (fun f => (default VNone (field_id f),
                       decoded_field py (__class__ (self w)) (manager (self w)) f)) <$> fields).
    { intros Hd.
      pose proof (custom_fields_dict_in_order py (__class__ (self w)) (manager (self w))
                    fields [] Hwf Hd) as H.
      rewrite Hnew in H. by injection H. }
    destruct (_decoded_attrs (self w) !! "custom_fields") as [s|] eqn:Hs; simpl in Hstored.
    + subst s. simpl. rewrite (custom_fields_loop_merged new stored (Hdist I) Hswf).
      cbn [self calls]. eexists. repeat split; try done; try (by apply Hdist).
      * unfold store_custom_fields, merged_fields.
        by destruct (custom_fields_shared (self w)).
      * unfold store_custom_fields, merged_fields.
        destruct (custom_fields_shared (self w)); simpl; [|done].
        by rewrite insert_insert_eq.
      * unfold store_custom_fields. by destruct (custom_fields_shared (self w)).
    + injection Hstored as <-. simpl. eexists. repeat split; try done; try (by apply Hdist).
      * unfold merged_fields, unmatched. simpl. rewrite insert_insert_eq.
        do 3 f_equal. symmetry. by apply filter_all.
      * unfold merged_fields, unmatched. simpl.
        do 3 f_equal. symmetry. by apply filter_all.
  - apply merged_fields_shape.
Qed.

Lemma custom_fields_merge_witness :
  let merged := VList [Fixture.field 1 "a"; Fixture.field 2 "c"; Fixture.field 3 "d"] in
  ∃ w', setattr Fixture.py "custom_fields"
          (VList [Fixture.field 2 "c"; Fixture.field 3 "d"])
          (Fixture.world_of Fixture.issue_3) = (w', Ok tt) ∧
        _decoded_attrs (self w') !! "custom_fields" = Some merged ∧
        _changes (self w') !! "custom_fields" = Some merged.
Proof.
  intros merged.
  destruct (custom_fields_merge Fixture.py
              (VList [Fixture.field 2 "c"; Fixture.field 3 "d"])
              (Fixture.world_of Fixture.issue_3) ltac:(compute_done)) as (_ & Hok & _).
  destruct (Hok [Fixture.field 2 "c"; Fixture.field 3 "d"]
              [Fixture.field 1 "a"; Fixture.field 2 "b"]
              eq_refl eq_refl eq_refl eq_refl)
    as (new & w' & Hnew & _ & _ & _ & Hset & Hdec & Hch & _).
  vm_compute in Hnew. injection Hnew as <-.
  exists w'. split; [exact Hset|]. rewrite Hdec, Hch, !lookup_insert_eq. by split.
Defined.

(** C5 as stated fails when ids repeat. Of two incoming fields of the same
    id only the last is kept, so the first, which no stored field matches, is
    not appended; and of two stored fields of the same id only the first is
    replaced. *)
Lemma repeated_ids_are_merged_once :
  (let result := setattr Fixture.py "custom_fields"
                   (VList [Fixture.field 1 "a"; Fixture.field 1 "b"])
                   (Fixture.world_of Fixture.new_issue) in
   result.2 = Ok tt ∧
   _decoded_attrs (self result.1) !! "custom_fields" = Some (VList [Fixture.field 1 "b"]) ∧
   Fixture.field 1 "a" ∉ [Fixture.field 1 "b"]) ∧
  (let result := setattr Fixture.py "custom_fields" (VList [Fixture.field 1 "c"])
                   (Fixture.world_of Fixture.issue_4) in
   result.2 = Ok tt ∧
   _decoded_attrs (self result.1) !! "custom_fields"
   = Some (VList [Fixture.field 1 "c"; Fixture.field 1 "b"]) ∧
   has_id (VInt 1) (Fixture.field 1 "b") = true).
Proof.
  repeat split; try (vm_compute; reflexivity).
  intros H. apply list_elem_of_singleton in H. discriminate.
Qed.

(** ** Representation *)

Section Representation.
Context (py : Python) (g : string → M value).
Context (I : World → Prop) (ρ : string → value) (names : list string).

(** The attributes [names] resolve as [ρ] says in every world of [I], and
    resolving them stays within [I]. *)
Hypothesis resolves :
  ∀ w attr, I w → attr ∈ names →
    ∃ w', getattr_default py g attr VNone w = (w', Ok (ρ attr)) ∧ I w'.

Lemma display_snoc resolved attr v :
  display (resolved ++ [(attr, v)]) =
    display resolved ++ (if bool_decide (attr ≠ "id") then [v] else []).
Proof.
  unfold display. rewrite List.filter_app, fmap_app. f_equal. simpl.
  destruct (decide (attr = "id")) as [->|Hne].
  - reflexivity.
  - rewrite (bool_decide_eq_false_2 (attr = "id")) by done.
    by rewrite bool_decide_eq_true_2.
Qed.

(** The inner loop puts the resolved suffix in front of what was collected. *)
Lemma representation_attrs_spec reversed_attrs _str_ _repr_ w :
  I w → reversed_attrs ⊆ names →
  ∃ w', representation_attrs py g reversed_attrs _str_ _repr_ w =
          (w', Ok (display (reverse (resolved_from_end ρ reversed_attrs)) ++ _str_,
                   (reverse (resolved_from_end ρ reversed_attrs)).*2 ++ _repr_)) ∧
        I w'.
Proof.
  revert _str_ _repr_ w.
  induction reversed_attrs as [|attr rest IH]; intros _str_ _repr_ w Hw Hsub.
  { exists w. by split. }
  cbn [representation_attrs resolved_from_end]. unfold_M.
  destruct (resolves w attr Hw) as (w1 & -> & Hw1); [set_solver|].
  destruct (is_not_None (ρ attr)) eqn:Hv.
  - destruct (IH (if bool_decide (attr ≠ "id") then ρ attr :: _str_ else _str_)
                (ρ attr :: _repr_) w1 Hw1) as (w' & -> & Hw'); [set_solver|].
    exists w'. split; [|done]. f_equal. f_equal.
    rewrite reverse_cons, display_snoc, fmap_app. simpl.
    rewrite <- !app_assoc. by destruct (bool_decide (attr ≠ "id")).
  - exists w1. by split.
Qed.

(** The outer loop stops at the first tuple that yields a value. *)
Lemma representation_tuples_spec tuples w :
  I w → concat tuples ⊆ names →
  ∃ w', representation_tuples py g tuples [] [] w =
          (w', Ok (display (accepted ρ tuples), (accepted ρ tuples).*2)) ∧
        I w'.
Proof.
  revert w. induction tuples as [|attrs rest IH]; intros w Hw Hsub.
  { exists w. by split. }
  cbn [representation_tuples accepted]. unfold_M.
  destruct (representation_attrs_spec (reverse attrs) [] [] w Hw)
    as (w1 & -> & Hw1).
  { intros a Ha. apply Hsub. rewrite concat_cons. apply elem_of_app. left.
    by rewrite elem_of_reverse in Ha. }
  fold (resolved_suffix ρ attrs). rewrite !app_nil_r.
  destruct (resolved_suffix ρ attrs) as [|av resolved] eqn:Hres.
  - simpl. apply IH; [done|]. intros a Ha. apply Hsub. rewrite concat_cons.
    apply elem_of_app. by right.
  - exists w1. split; [|done]. by rewrite fmap_cons.
Qed.

End Representation.

(** C7, as the code has it. The tuples of [_repr] are tried in order. The
    attributes of a tuple are resolved from the last one backwards, a missing
    attribute counting as [None], up to the first that resolves to [None]: the
    values resolved before it are kept.  The first tuple that yields a value
    this way is accepted, with the values it yielded, and no later tuple is
    tried; a tuple that yields none is passed over.  A new instance with more
    than two values loses the last one.  The structured form keeps every
    value; the display keeps the values of the attributes other than [id],
    or, when there is none, the string of the first value. *)
Theorem representation_of_resolved (py : Python) (g : string → M value)
    (I : World → Prop) (ρ : string → value) (new : bool) (w : World) :
  let tuples := Cls._repr (__class__ (self w)) in
  (∀ w attr, I w → attr ∈ concat tuples →
     ∃ w', getattr_default py g attr VNone w = (w', Ok (ρ attr)) ∧ I w') →
  (∀ w', I w' → is_new (self w') = new) →
  I w →
  let _str_ := (represented ρ new tuples).1 in
  let _repr_ := (represented ρ new tuples).2 in
  (∃ w', _representation py g "repr" w = (w', Ok _repr_) ∧ I w') ∧
  (∃ w', _representation py g "str" w =
           (w', match _str_, _repr_ with
                | _ :: _, _ => Ok _str_
                | [], first :: _ => Ok [VStr (str py first)]
                | [], [] => Raise IndexError
                end) ∧ I w').
Proof.
  intros tuples Hres Hnew Hw _str_ _repr_.
  destruct (representation_tuples_spec py g I ρ (concat tuples) Hres tuples w Hw)
    as (w' & Hloop & Hw'); [done|].
  unfold _representation. unfold_M. cbn [self calls]. fold tuples. rewrite Hloop.
  cbn [self calls]. rewrite (Hnew w' Hw'). subst _str_ _repr_. unfold represented.
  split; exists w'; (split; [|done]).
  - rewrite bool_decide_eq_false_2 by done.
    by destruct (new && (2 <? length (accepted ρ tuples).*2)%nat).
  - rewrite bool_decide_eq_true_2 by done.
    destruct (new && (2 <? length (accepted ρ tuples).*2)%nat); cbn [fst snd].
    + destruct (removelast (display _)); [|done]. by destruct (removelast _).
    + destruct (display _); [|done]. by destruct (_.*2).
Qed.

Lemma representation_of_resolved_witness :
  let g := getattr Fixture.py Fixture.failing 1 in
  (∃ w', _representation Fixture.py g "repr" Fixture.new_issue_fix_bug
         = (w', Ok [VInt 0; VStr "Fix bug"])) ∧
  (∃ w', _representation Fixture.py g "str" Fixture.new_issue_fix_bug
         = (w', Ok [VStr "Fix bug"])) ∧
  (__str__ Fixture.py g Fixture.new_issue_fix_bug).2 = Ok "Fix bug".
Proof.
  intros g.
  set (w0 := Fixture.new_issue_fix_bug).
  set (w1 := (g "subject" w0).1).
  set (ρ := fun attr : string => if bool_decide (attr = "subject") then VStr "Fix bug" else VInt 0).
  destruct (representation_of_resolved Fixture.py g (fun w => w = w0 ∨ w = w1) ρ true w0)
    as [(w' & Hrepr & _) (w'' & Hstr & _)].
  - intros w attr Hw Hattr.
    assert (Hcases : attr = "id" ∨ attr = "subject").
    { revert Hattr. change (Cls._repr (__class__ (self w0))) with [["id"; "subject"]; ["id"]].
      simpl. rewrite !elem_of_cons, elem_of_nil. tauto. }
    destruct Hw as [-> | ->], Hcases as [-> | ->].
    + exists w0. split; [vm_compute; reflexivity|by left].
    + exists w1. split; [vm_compute; reflexivity|by right].
    + exists w1. split; [vm_compute; reflexivity|by right].
    + exists w1. split; [vm_compute; reflexivity|by right].
  - intros w [-> | ->]; vm_compute; reflexivity.
  - by left.
  - split; [|split].
    + exists w'. exact Hrepr.
    + exists w''. exact Hstr.
    + vm_compute. reflexivity.
Defined.

(** C7 as stated fails in two places. A tuple with a missing attribute is
    not abandoned when a later attribute of it resolved: for a user that has
    a last name and no first name the first tuple is accepted with the last
    name alone, and the second tuple is not tried.  And the display of an
    instance whose accepted values are its identity alone is that identity. *)
Lemma partly_resolved_tuple_is_accepted :
  let g := getattr Fixture.py Fixture.failing 2 in
  let w := Fixture.world_of Fixture.user_5 in
  Cls._repr User = [["id"; "firstname"; "lastname"]; ["id"; "name"]] ∧
  (getattr_default Fixture.py g "firstname" VNone w).2 = Ok VNone ∧
  (getattr_default Fixture.py g "name" VNone w).2 = Ok VNone ∧
  (_representation Fixture.py g "repr" w).2 = Ok [VStr "Smith"] ∧
  (__str__ Fixture.py g w).2 = Ok "Smith" ∧
  (__str__ Fixture.py g (Fixture.world_of Fixture.time_entry_5)).2 = Ok "5" ∧
  (g "id" (Fixture.world_of Fixture.time_entry_5)).2 = Ok (VInt 5).
Proof. repeat split; vm_compute; reflexivity. Qed.

(** ** [None] in [decoded] *)

Section NoneEntries.
Context (py : Python) (srv : Server).

(** The constructor seeds a [None] under every relation and include name the
    payload does not carry. *)
Lemma __init___seeds c m attributes k :
  k ∈ Cls._relations c ++ Cls._includes c →
  attributes !! k = None →
  _decoded_attrs (__init__ c m attributes) !! k = Some VNone.
Proof.
  intros Hk Ha. simpl. rewrite lookup_union_r by done. unfold fromkeys.
  apply elem_of_list_to_map_1'.
  - intros v' Hin. by apply list_elem_of_fmap in Hin as (k' & [= _ ->] & _).
  - apply list_elem_of_fmap. by exists k.
Qed.

Lemma get_not_None_None d k : d !! k = Some VNone → get_not_None d k = None.
Proof. unfold get_not_None. by intros ->. Qed.

(** Reads never put a [None] in the cache. *)
Lemma keeps_no_None_cached depth attr :
  keeps no_None_cached (getattr py srv depth attr).
Proof.
  apply keeps_getattr.
  - by intros n r H.
  - by intros k v r H.
  - intros k v r Hv H k'. simpl. destruct (decide (k = k')) as [<-|Hne].
    + rewrite lookup_insert_eq. intros [= ->]. done.
    + rewrite lookup_insert_ne by done. apply H.
Qed.

Lemma include_not_identity c attr :
  attr ∈ Cls._relations c ++ Cls._includes c → attr ∉ ["id"; "title"].
Proof. destruct c; cbn; intros H; try (by apply elem_of_nil in H); set_solver. Qed.

(** An access that did not resolve a value through the cache, the codec, a
    relation or an include leaves the cache without an entry for the name. *)
Lemma unresolved_is_not_cached depth n w w' res :
  String.prefix "_" n = false →
  get_not_None (_encoded_attrs (self w)) n = None →
  get_not_None (_decoded_attrs (self w)) n = None →
  Resource___getattr__ py srv (getattr py srv depth) n w = (w', res) →
  (∃ v, res = Ok v ∧ is_not_None v = true ∧
        n ∈ Cls._relations (__class__ (self w)) ++ Cls._includes (__class__ (self w)) ∧
        _encoded_attrs (self w') !! n = Some v) ∨
  get_not_None (_encoded_attrs (self w')) n = None.
Proof.
  intros Hp He Hd. unfold Resource___getattr__. rewrite Hp. unfold_M.
  rewrite He, Hd.
  assert (Hkeep : ∀ w1 r, internal_id (getattr py srv depth) w = (w1, r) →
            n ∈ Cls._relations (__class__ (self w)) ++ Cls._includes (__class__ (self w)) →
            get_not_None (_encoded_attrs (self w1)) n = None).
  { intros w1 r Hid Hn.
    destruct (internal_id_frame py srv depth w w1 r Hid) as (_ & _ & _ & _ & _ & Henc).
    unfold get_not_None in *. rewrite Henc; [done|]. by eapply include_not_identity. }
  case_bool_decide as Hr.
  - (* relation *)
    assert (Hn : n ∈ Cls._relations (__class__ (self w)) ++ Cls._includes (__class__ (self w)))
      by set_solver.
    destruct (internal_id (getattr py srv depth) w) as [w1 [id|e]] eqn:Hid.
    + destruct (_RELATIONS_MAP !! n) as [c|]; unfold manager_filter; unfold_M; cbn.
      * intros [= <- <-]. left. eexists. repeat split; [done|]. simpl. apply lookup_insert_eq.
      * intros [= <- <-]. right. by eapply Hkeep.
    + intros [= <- <-]. right. by eapply Hkeep.
  - case_bool_decide as Hi.
    + (* include *)
      assert (Hn : n ∈ Cls._relations (__class__ (self w)) ++ Cls._includes (__class__ (self w)))
        by set_solver.
      unfold refresh, Resource_refresh, manager_get. unfold_M. cbn [self calls].
      destruct (internal_id (getattr py srv depth) w) as [w1 [id|e]] eqn:Hid.
      2:{ intros [= <- <-]. right. by eapply Hkeep. }
      cbn [self calls].
      destruct (serve_get srv _ _ _ _) as [payload|e]; cbn [self calls].
      2:{ intros [= <- <-]. right. simpl. by eapply Hkeep. }
      unfold on_instance. cbn [self calls].
      destruct (getattr py srv depth n _) as [w2 [v|e]]; cbn [self calls].
      2:{ intros [= <- <-]. right. simpl. by eapply Hkeep. }
      destruct (is_not_None v) eqn:Hv; cbn [self calls].
      * intros [= <- <-]. left. exists v. repeat split; try done. simpl.
        apply lookup_insert_eq.
      * unfold unresolved. unfold_M. simpl.
        repeat match goal with |- context [if ?b then _ else _] => destruct b end;
          intros [= <- <-]; right; simpl; by eapply Hkeep.
    + unfold unresolved. unfold_M. simpl.
      repeat match goal with |- context [if ?b then _ else _] => destruct b end;
        intros [= <- <-]; by right.
Qed.

End NoneEntries.

(** C10. A [decoded] entry that holds [None] (the constructor seeds one
    under every relation and include name the payload lacks, and a null of
    the wire is one) is passed over by [Resource.__getattr__] the way a
    missing entry is: the codec is not run, and the name goes on to relation
    resolution, to the include refresh, or, when it is neither, to the
    default of a new instance or the attribute-error policy.  No read ever
    stores [None] in the cache, and unless a relation or an include resolved
    a value the cache has no entry for the name after the read, so that the
    next read resolves it again. *)
Theorem None_entry_is_passed_over (py : Python) (srv : Server) (depth : nat)
    (n : string) (w : World) :
  let r := self w in
  let cls := __class__ r in
  let m := manager r in
  let g := getattr py srv depth in
  let get := Resource___getattr__ py srv g n w in
  String.prefix "_" n = false →
  get_not_None (_encoded_attrs r) n = None →
  _decoded_attrs r !! n = Some VNone →
  (n ∈ Cls._relations cls →
     ∀ w1 id c,
       internal_id g w = (w1, Ok id) →
       _RELATIONS_MAP !! n = Some c →
       let filters : kwargs := {[ _relations_name r +:+ "_id" := id ]} in
       get = ({| self := set_encoded_item n (VFilter c filters) (self w1);
                 calls := calls w1 ++ [CallFilter (new_manager m c ∅) filters] |},
              Ok (VFilter c filters))) ∧
  (n ∉ Cls._relations cls → n ∈ Cls._includes cls →
     ∀ w1 id payload w2 e,
       internal_id g w = (w1, Ok id) →
       let ps := scoped_params r {[ "include" := VStr n ]} in
       serve_get srv (calls w1) m id ps = Ok payload →
       g n {| self := __init__ (resource_class m) m payload;
              calls := calls w1 ++ [CallGet m id ps] |} = (w2, Ok e) →
       get = if is_not_None e
             then ({| self := set_encoded_item n e (self w1); calls := calls w2 |}, Ok e)
             else unresolved n {| self := self w1; calls := calls w2 |}) ∧
  (n ∉ Cls._relations cls → n ∉ Cls._includes cls →
     get = (w, if is_new r then
                 Ok (if bool_decide (n = "id" ∨ n = "version") then VInt 0
                     else VStr EmptyString)
               else if raises_attr_exception cls (raise_attr_exception (redmine m))
               then Raise ResourceAttrError
               else Ok VNone)) ∧
  (∀ w' res, get = (w', res) →
     (∃ v, res = Ok v ∧ is_not_None v = true ∧
           n ∈ Cls._relations cls ++ Cls._includes cls ∧
           _encoded_attrs (self w') !! n = Some v) ∨
     get_not_None (_encoded_attrs (self w')) n = None) ∧
  (∀ attr, no_None_cached r → no_None_cached (self (getattr py srv depth attr w).1)) ∧
  (∀ c m' attributes k,
     k ∈ Cls._relations c ++ Cls._includes c → attributes !! k = None →
     _decoded_attrs (__init__ c m' attributes) !! k = Some VNone).
Proof.
  intros r cls m g get Hp He Hnone.
  pose proof (get_not_None_None _ _ Hnone) as Hd.
  split; [|split; [|split; [|split; [|split]]]].
  - intros Hr w1 id c Hid Hc. by apply getattr_relation.
  - intros Hr Hi w1 id payload w2 e Hid ps Hget Hg.
    by apply (getattr_include py srv g n w w1 id payload w2 e).
  - intros Hr Hi. unfold get. rewrite getattr_unresolved by done.
    unfold unresolved. unfold_M. fold r cls m. rewrite default_names.
    by destruct (is_new r); [|destruct (raises_attr_exception _ _)].
  - intros w' res Hget. by eapply unresolved_is_not_cached.
  - intros attr. apply keeps_no_None_cached.
  - apply __init___seeds.
Qed.

Lemma None_entry_is_passed_over_witness :
  let g := getattr Fixture.py Fixture.failing 1 in
  Resource___getattr__ Fixture.py Fixture.failing g "due_date"
    (Fixture.world_of Fixture.issue_6)
  = (Fixture.world_of Fixture.issue_6, Raise ResourceAttrError) ∧
  ∃ w', Resource___getattr__ Fixture.py Fixture.failing g "time_entries"
          (Fixture.world_of Fixture.issue_6)
        = (w', Ok (VFilter TimeEntry {[ "issue_id" := VInt 6 ]})).
Proof.
  intros g. split.
  - destruct (None_entry_is_passed_over Fixture.py Fixture.failing 1 "due_date"
                (Fixture.world_of Fixture.issue_6) eq_refl eq_refl eq_refl)
      as (_ & _ & H & _).
    apply (H ltac:(compute_done) ltac:(compute_done)).
  - destruct (None_entry_is_passed_over Fixture.py Fixture.failing 1 "time_entries"
                (Fixture.world_of Fixture.issue_6) eq_refl eq_refl eq_refl)
      as (H & _).
    eexists.
    apply (H ltac:(compute_done)
             (internal_id g (Fixture.world_of Fixture.issue_6)).1 (VInt 6) TimeEntry);
      reflexivity.
Defined.
(** ** The codec, both ways *)

Section CodecBothWays.
Context (py : Python).

Lemma Resource_decode_key attr v m : (Resource_decode py attr v m).1 = attr.
Proof. by destruct v. Qed.

Lemma Resource_decode_twice attr attr' v m :
  Resource_decode py attr' (Resource_decode py attr v m).2 m
  = (attr', (Resource_decode py attr v m).2).
Proof. by destruct v. Qed.

Lemma Resource_decode_no_date attr v m :
  (∀ d, (Resource_decode py attr v m).2 ≠ VDate d) ∧
  (∀ d, (Resource_decode py attr v m).2 ≠ VDateTime d).
Proof. by destruct v. Qed.

(** The value [decode] returns: the one [Resource.decode] returns, but for
    [version_id] of an issue, which is passed through. *)
Lemma decode_value cls attr v m :
  (decode py cls attr v m).2 =
    if bool_decide (cls = Issue ∧ attr = "version_id") then v
    else (Resource_decode py attr v m).2.
Proof.
  destruct (decide (cls = Issue ∧ attr = "version_id")) as [[-> ->]|Hne].
  { by rewrite bool_decide_eq_true_2. }
  rewrite bool_decide_eq_false_2 by done.
  destruct cls; try reflexivity.
  - unfold decode. rewrite bool_decide_eq_false_2; [done|]. intros ->. by apply Hne.
  - unfold decode. by destruct v.
Qed.

End CodecBothWays.

(** X1. Decoding is idempotent, and what it returns holds no date at its top
    level: a date or a date-time becomes its text under the format of the
    connection, anything else stays, and decoding the returned pair again
    returns it unchanged, aliases included.  The one exception is
    [version_id] of an issue, which [Issue.decode] renames and returns
    without looking at the value. *)
Theorem decode_idempotent (py : Python) (cls : Class) (attr : string) (v : value)
    (m : Manager) :
  ¬ (cls = Issue ∧ attr = "version_id") →
  let k := (decode py cls attr v m).1 in
  let dv := (decode py cls attr v m).2 in
  decode py cls k dv m = (k, dv) ∧
  (∀ d, dv ≠ VDate d) ∧ (∀ d, dv ≠ VDateTime d) ∧
  decode py Issue "version_id" v m = ("fixed_version_id", v).
Proof.
  intros Hne k dv.
  assert (Hdv : dv = (Resource_decode py attr v m).2).
  { subst dv. rewrite decode_value. rewrite bool_decide_eq_false_2; done. }
  assert (Hk : ¬ (cls = Issue ∧ k = "version_id") ∧ (decode py cls k dv m).1 = k).
  { subst k. rewrite !decode_key.
    destruct cls; try (split; [by intros [? _]|done]).
    - rewrite bool_decide_eq_false_2 by (intros ->; by apply Hne).
      split; [intros [_ ->]; by apply Hne|].
      rewrite bool_decide_eq_false_2; [done|]. intros ->. by apply Hne.
    - split; [by intros [? _]|]. by repeat case_bool_decide. }
  destruct Hk as [Hk1 Hk2].
  split; [|split; [|split]].
  - rewrite (surjective_pairing (decode py cls k dv m)). rewrite Hk2.
    rewrite decode_value. rewrite bool_decide_eq_false_2 by done.
    rewrite Hdv. by rewrite Resource_decode_twice.
  - rewrite Hdv. apply Resource_decode_no_date.
  - rewrite Hdv. apply Resource_decode_no_date.
  - reflexivity.
Qed.

Lemma decode_idempotent_witness :
  let m := Fixture.manager_of TimeEntry Fixture.strict in
  decode Fixture.py TimeEntry "from_date" (VDate (Date 2014 1 2)) m
  = ("from", VStr "2014-01-02") ∧
  decode Fixture.py TimeEntry "from" (VStr "2014-01-02") m = ("from", VStr "2014-01-02").
Proof.
  intros m.
  destruct (decode_idempotent Fixture.py TimeEntry "from_date" (VDate (Date 2014 1 2)) m)
    as (H & _); [by intros [? _]|].
  split; [reflexivity|exact H].
Defined.

(** X2. The codec round trip.  On an attribute the codec converts (not
    unconvertible for the class, not one that is wrapped in a resource or a
    collection, and not [enabled_modules] of a project) encoding what
    [decode] returned gives the value back: a date-time whenever [strptime]
    reads back what [strftime] wrote, a date whenever in addition its text
    is not taken for a date-time, and every value that is neither a string
    nor a date as it is. *)
Theorem codec_round_trip (py : Python) (cls : Class) (attr : string) (m : Manager) :
  attr ∉ Cls._unconvertible cls →
  _RESOURCE_MAP !! attr = None →
  _RESOURCE_SET_MAP !! attr = None →
  attr ≠ "parent" →
  ¬ (cls = Project ∧ attr = "enabled_modules") →
  let date_format := date_format (redmine m) in
  let datetime_format := datetime_format (redmine m) in
  let round_trip v := encode py cls attr (decode py cls attr v m).2 m = Ok (attr, v) in
  (∀ d, strptime py (strftime_datetime py d datetime_format) datetime_format = Some d →
        round_trip (VDateTime d)) ∧
  (∀ d, strptime py (strftime_date py d date_format) datetime_format = None →
        dt_date <$> strptime py (strftime_date py d date_format) date_format = Some d →
        round_trip (VDate d)) ∧
  (∀ v, match v with VStr _ | VDate _ | VDateTime _ => False | _ => True end →
        round_trip v).
Proof.
  intros Hu Hr Hs Hp Hm df dtf round_trip. subst round_trip. cbn beta.
  assert (Henc : ∀ v, encode py cls attr v m = Resource_encode py cls attr v m).
  { intros v. destruct cls; try reflexivity; simpl.
    - rewrite bool_decide_eq_false_2; [done|]. intros ->. by apply Hm.
    - by rewrite bool_decide_eq_false_2.
    - rewrite bool_decide_eq_false_2; [done|]. intros ->. vm_compute in Hs. discriminate. }
  assert (Hconv : ∀ v, Resource_encode py cls attr v m =
    try_except
      (try_except
         (dt ← datetime_strptime py v dtf; Ok (attr, VDateTime dt))
         [TypeError; ValueError]
         (dt ← datetime_strptime py v df; Ok (attr, VDate (dt_date dt))))
      [TypeError; ValueError] (Ok (attr, v))).
  { intros v. unfold Resource_encode. rewrite bool_decide_eq_false_2 by done.
    rewrite Hr, Hs. by rewrite bool_decide_eq_false_2 by done. }
  assert (Hdec : ∀ v, (decode py cls attr v m).2 = v ∨
                      (decode py cls attr v m).2 = (Resource_decode py attr v m).2).
  { intros v. destruct cls; simpl; try (by right).
    - case_bool_decide; [by left|by right].
    - right. by destruct v. }
  split; [|split].
  - intros d Hd. rewrite Henc, Hconv. destruct (Hdec (VDateTime d)) as [->| ->]; [done|].
    simpl. fold dtf. by rewrite Hd.
  - intros d Hdt Hd. rewrite Henc, Hconv. destruct (Hdec (VDate d)) as [->| ->]; [done|].
    simpl. fold df dtf. rewrite Hdt. simpl.
    destruct (strptime py (strftime_date py d df) df) as [dt|]; [|done].
    simpl in *. by simplify_eq.
  - intros v Hv. rewrite Henc, Hconv.
    destruct (Hdec v) as [->| ->]; destruct v; done.
Qed.

Lemma codec_round_trip_witness :
  let m := Fixture.manager_of Issue Fixture.strict in
  encode Fixture.py Issue "due_date"
    (decode Fixture.py Issue "due_date" (VDate (Date 2014 1 2)) m).2 m
  = Ok ("due_date", VDate (Date 2014 1 2)) ∧
  encode Fixture.py Issue "closed_on"
    (decode Fixture.py Issue "closed_on" (VDateTime Fixture.noon) m).2 m
  = Ok ("closed_on", VDateTime Fixture.noon) ∧
  encode Fixture.py Issue "done_ratio"
    (decode Fixture.py Issue "done_ratio" (VInt 40) m).2 m
  = Ok ("done_ratio", VInt 40).
Proof.
  intros m.
  destruct (codec_round_trip Fixture.py Issue "due_date" m
              ltac:(compute_done) eq_refl eq_refl ltac:(discriminate)
              ltac:(by intros [? _])) as (_ & Hd & _).
  destruct (codec_round_trip Fixture.py Issue "closed_on" m
              ltac:(compute_done) eq_refl eq_refl ltac:(discriminate)
              ltac:(by intros [? _])) as (Hdt & _ & _).
  destruct (codec_round_trip Fixture.py Issue "done_ratio" m
              ltac:(compute_done) eq_refl eq_refl ltac:(discriminate)
              ltac:(by intros [? _])) as (_ & _ & Hv).
  split; [|split].
  - apply Hd; reflexivity.
  - apply Hdt; reflexivity.
  - by apply Hv.
Defined.
(** ** Writing, then reading *)

Section WriteThenRead.
Context (py : Python) (srv : Server).

(** The reads that the overrides of the subclasses leave to
    [Resource.__getattr__]. *)
Lemma class___getattr___base g attr w :
  match __class__ (self w) with
  | Issue => attr ≠ "version" ∧ attr ≠ "watcher"
  | WikiPage | CustomField =>
      attr ∈ ["text"; "value"] → is_Some (_decoded_attrs (self w) !! attr)
  | User => attr = "time_entries" → is_Some (_encoded_attrs (self w) !! attr)
  | Group => attr ≠ "user"
  | _ => True
  end →
  class___getattr__ py srv g attr w = Resource___getattr__ py srv g attr w.
Proof.
  intros H. unfold class___getattr__. unfold_M. cbn [self calls].
  destruct (__class__ (self w)); try reflexivity.
  - destruct H as [H1 H2]. by rewrite !bool_decide_eq_false_2 by done.
  - destruct (decide (attr = "text")) as [->|Hne].
    + rewrite (bool_decide_eq_true_2 (is_Some _)) by (apply H; set_solver).
      by rewrite andb_false_r.
    + by rewrite (bool_decide_eq_false_2 (attr = "text")) by done.
  - destruct (decide (attr = "time_entries")) as [->|Hne].
    + rewrite (bool_decide_eq_true_2 (is_Some _)) by (by apply H).
      by rewrite andb_false_r.
    + by rewrite (bool_decide_eq_false_2 (attr = "time_entries")) by done.
  - by rewrite bool_decide_eq_false_2 by done.
  - destruct (decide (attr = "value")) as [->|Hne].
    + rewrite (bool_decide_eq_true_2 (is_Some _)) by (apply H; set_solver).
      by rewrite andb_false_r.
    + by rewrite (bool_decide_eq_false_2 (attr = "value")) by done.
Qed.

(** A permitted write outside [custom_fields] is the last branch of the
    setter followed by the cleaning of the cache. *)
Lemma Resource___setattr___plain attr v w :
  bool_decide (attr ∈ Cls._members) || String.prefix "_" attr = false →
  attr ∉ (if is_new (self w) then _create_readonly (self w) else _update_readonly (self w)) →
  attr ≠ "custom_fields" →
  Resource___setattr__ py attr v w =
    (setattr_plain py attr v;; modify_self (pop_encoded_item attr)) w.
Proof.
  intros Hs Hro Hcf. unfold Resource___setattr__. unfold_M. cbn [self calls]. rewrite Hs.
  assert (Hc : bool_decide (attr ∈ _create_readonly (self w)) && is_new (self w) = false).
  { destruct (is_new (self w)); [|by rewrite andb_false_r].
    by rewrite bool_decide_eq_false_2. }
  assert (Hu : bool_decide (attr ∈ _update_readonly (self w)) && negb (is_new (self w)) = false).
  { destruct (is_new (self w)); [by rewrite andb_false_r|].
    by rewrite bool_decide_eq_false_2. }
  rewrite Hc, Hu. by rewrite bool_decide_eq_false_2 by done.
Qed.

(** What the last branch of the setter leaves behind. *)
Lemma setattr_plain_spec attr v w :
  let r := self w in
  let k := (decode py (__class__ r) attr v (manager r)).1 in
  let dv := (decode py (__class__ r) attr v (manager r)).2 in
  let stub (e : value) := VDict [("id", e)] in
  let written := set_decoded_item attr dv (set_changes_item k dv r) in
  setattr_plain py attr v w =
    match _SINGLE_ATTR_ID_MAP !! attr, _MULTIPLE_ATTR_ID_MAP !! attr with
    | Some mirrored, _ =>
        ({| self := set_decoded_item mirrored (stub dv) written; calls := calls w |}, Ok tt)
    | None, Some mirrored =>
        match iter dv with
        | Ok elements =>
            ({| self := set_decoded_item mirrored (VList (stub <$> elements)) written;
                calls := calls w |}, Ok tt)
        | Raise e => ({| self := written; calls := calls w |}, Raise e)
        end
    | None, None => ({| self := written; calls := calls w |}, Ok tt)
    end.
Proof.
  intros r k dv stub written. subst r k dv written.
  unfold setattr_plain. unfold_M. cbn [self calls].
  destruct (decode py (__class__ (self w)) attr v (manager (self w))) as [k dv].
  cbn [fst snd self calls].
  destruct (_SINGLE_ATTR_ID_MAP !! attr); [done|].
  destruct (_MULTIPLE_ATTR_ID_MAP !! attr); [|done].
  by destruct (iter dv).
Qed.

(** The convenience names and the attributes they mirror are distinct, and
    no class reads a mirrored attribute in a way of its own. *)
Lemma single_mirrors attr mirrored :
  _SINGLE_ATTR_ID_MAP !! attr = Some mirrored →
  mirrored ≠ attr ∧
  mirrored ∈ ["parent"; "project"; "tracker"; "priority"; "assigned_to"; "category";
              "fixed_version"; "issue"; "activity"].
Proof.
  intros H.
  assert (Hall : map_Forall (fun k v => v ≠ k ∧
            v ∈ ["parent"; "project"; "tracker"; "priority"; "assigned_to"; "category";
                 "fixed_version"; "issue"; "activity"]) _SINGLE_ATTR_ID_MAP).
  { unfold _SINGLE_ATTR_ID_MAP. repeat (apply map_Forall_insert_2; [split; [done|set_solver]|]).
    apply map_Forall_empty. }
  by apply Hall in H.
Qed.

Lemma multiple_mirrors attr mirrored :
  _MULTIPLE_ATTR_ID_MAP !! attr = Some mirrored →
  mirrored ≠ attr ∧ mirrored ∈ ["users"; "roles"] ∧ _SINGLE_ATTR_ID_MAP !! attr = None.
Proof.
  intros H.
  assert (Hall : map_Forall (fun k v => v ≠ k ∧ v ∈ ["users"; "roles"] ∧
                                        _SINGLE_ATTR_ID_MAP !! k = None)
                   _MULTIPLE_ATTR_ID_MAP).
  { unfold _MULTIPLE_ATTR_ID_MAP.
    repeat (apply map_Forall_insert_2; [split; [done|split; [set_solver|done]]|]).
    apply map_Forall_empty. }
  by apply Hall in H.
Qed.

End WriteThenRead.

(** X3. Writing, then reading.  After a permitted write of a value other than
    [None] under a name that no subclass reads in a way of its own, the next
    read of that name does not answer from the cache: it encodes the value
    the write decoded, caches the result and returns it, with no call on the
    manager; a read after that answers the cached result. *)
Theorem write_then_read (py : Python) (srv : Server) (depth : nat) (attr : string)
    (v : value) (w : World) :
  let r := self w in
  let cls := __class__ r in
  let m := manager r in
  bool_decide (attr ∈ Cls._members) || String.prefix "_" attr = false →
  attr ∉ (if is_new r then _create_readonly r else _update_readonly r) →
  attr ≠ "custom_fields" →
  (cls, attr) ∉ [(Issue, "version_id"); (Issue, "version"); (Issue, "watcher");
                 (Group, "user"); (User, "time_entries")] →
  _MULTIPLE_ATTR_ID_MAP !! attr = None →
  v ≠ VNone →
  let dv := (decode py cls attr v m).2 in
  ∃ w1,
    setattr py attr v w = (w1, Ok tt) ∧
    _decoded_attrs (self w1) !! attr = Some dv ∧
    (∀ x, encode py cls attr dv m = Raise x →
       getattr py srv (S depth) attr w1 = (w1, Raise x)) ∧
    (∀ a e, encode py cls attr dv m = Ok (a, e) →
       ∃ w2, getattr py srv (S depth) attr w1 = (w2, Ok e) ∧
             calls w2 = calls w ∧
             _decoded_attrs (self w2) = _decoded_attrs (self w1) ∧
             _changes (self w2) = _changes (self w1) ∧
             ∀ depth', getattr py srv (S depth') attr w2 = (w2, Ok e)).
Proof.
  intros r cls m Hs Hro Hcf Hover Hmulti Hv dv.
  assert (Hdisp : setattr py attr v w = Resource___setattr__ py attr v w).
  { rewrite setattr_dispatch. rewrite bool_decide_eq_false_2; [done|].
    intros [Hc ->]. apply Hover. fold r cls in Hc. rewrite Hc. set_solver. }
  rewrite Hdisp, Resource___setattr___plain by done. unfold_M.
  rewrite setattr_plain_spec. fold r cls m dv. rewrite Hmulti.
  set (k := (decode py cls attr v m).1).
  set (written := set_decoded_item attr dv (set_changes_item k dv r)).
  assert (Hdv : is_not_None dv = true).
  { subst dv. rewrite decode_value.
    destruct (bool_decide (cls = Issue ∧ attr = "version_id")); destruct v; simpl;
      congruence. }
  assert (∃ r1, (match _SINGLE_ATTR_ID_MAP !! attr with
                 | Some mirrored =>
                     ({| self := set_decoded_item mirrored (VDict [("id", dv)]) written;
                         calls := calls w |}, Ok tt)
                 | None => ({| self := written; calls := calls w |}, Ok tt)
                 end) = ({| self := r1; calls := calls w |}, Ok tt) ∧
                __class__ r1 = cls ∧ manager r1 = m ∧
                _decoded_attrs r1 !! attr = Some dv ∧
                _encoded_attrs r1 = _encoded_attrs r) as (r1 & -> & Hc1 & Hm1 & Hd1 & He1).
  { destruct (_SINGLE_ATTR_ID_MAP !! attr) as [mirrored|] eqn:Hsingle.
    - eexists. split; [reflexivity|]. repeat split. simpl.
      apply single_mirrors in Hsingle as [Hne _].
      rewrite lookup_insert_ne by done. apply lookup_insert_eq.
    - eexists. split; [reflexivity|]. repeat split. simpl. apply lookup_insert_eq. }
  cbn [self calls].
  set (w1 := {| self := pop_encoded_item attr r1; calls := calls w |}).
  exists w1. split; [done|]. split; [done|].
  assert (Hp : String.prefix "_" attr = false).
  { by apply orb_false_iff in Hs as [_ ?]. }
  assert (Hbase : ∀ d, getattr py srv (S d) attr w1
                       = Resource___getattr__ py srv (getattr py srv d) attr w1).
  { intros d. rewrite getattr_S. apply class___getattr___base. unfold w1.
    cbn [self pop_encoded_item with_encoded __class__ _decoded_attrs _encoded_attrs].
    rewrite Hc1. destruct cls eqn:Hcls; try exact I.
    - split; intros ->; apply Hover; set_solver.
    - by rewrite Hd1.
    - intros ->. exfalso. apply Hover. set_solver.
    - intros ->. apply Hover. set_solver.
    - by rewrite Hd1. }
  assert (Hnc : get_not_None (_encoded_attrs (self w1)) attr = None).
  { unfold get_not_None. simpl. by rewrite lookup_delete_eq. }
  assert (Hdec : get_not_None (_decoded_attrs (self w1)) attr = Some dv).
  { unfold get_not_None. simpl. by rewrite Hd1, Hdv. }
  split.
  - intros x Hx. rewrite Hbase, (getattr_decoded py srv _ attr w1 dv Hp Hnc Hdec).
    unfold w1 at 1 2. cbn [self pop_encoded_item with_encoded __class__ manager].
    by rewrite Hc1, Hm1, Hx.
  - intros a e He. rewrite Hbase, (getattr_decoded py srv _ attr w1 dv Hp Hnc Hdec).
    unfold w1 at 1 2. cbn [self pop_encoded_item with_encoded __class__ manager].
    rewrite Hc1, Hm1, He.
    eexists. split; [reflexivity|]. repeat split.
    intros depth'. rewrite getattr_S. rewrite class___getattr___base.
    + apply getattr_cached; [done|]. unfold get_not_None. simpl.
      rewrite lookup_insert_eq.
      apply encode_not_None in He as [_ ->]; done.
    + unfold w1.
      cbn [self set_encoded_item pop_encoded_item with_encoded __class__ _decoded_attrs
             _encoded_attrs].
      rewrite Hc1. destruct cls eqn:Hcls; try exact I.
      * split; intros ->; apply Hover; set_solver.
      * by rewrite Hd1.
      * intros _. by rewrite lookup_insert_eq.
      * intros ->. apply Hover. set_solver.
      * by rewrite Hd1.
Qed.

Lemma write_then_read_witness :
  ∃ w1 w2,
    setattr Fixture.py "due_date" (VDate (Date 2014 1 2))
      (Fixture.world_of Fixture.issue_1) = (w1, Ok tt) ∧
    _decoded_attrs (self w1) !! "due_date" = Some (VStr "2014-01-02") ∧
    getattr Fixture.py Fixture.failing 1 "due_date" w1 = (w2, Ok (VDate (Date 2014 1 2))) ∧
    calls w2 = [].
Proof.
  destruct (write_then_read Fixture.py Fixture.failing 0 "due_date" (VDate (Date 2014 1 2))
              (Fixture.world_of Fixture.issue_1)
              eq_refl ltac:(compute_done) ltac:(discriminate) ltac:(compute_done)
              eq_refl ltac:(discriminate))
    as (w1 & Hset & Hdec & _ & Hget).
  destruct (Hget "due_date" (VDate (Date 2014 1 2)) eq_refl) as (w2 & Hread & Hcalls & _).
  exists w1, w2. split; [exact Hset|]. split; [exact Hdec|]. split; [exact Hread|].
  exact Hcalls.
Defined.

(** ** Convenience names and the attributes they mirror *)

Section Mirrors.
Context (py : Python) (srv : Server).

(** The resource a mirrored attribute is read as. *)
Lemma encode_single_mirror cls mirrored raw m :
  mirrored ∈ ["parent"; "project"; "tracker"; "priority"; "assigned_to"; "category";
              "fixed_version"; "issue"; "activity"] →
  encode py cls mirrored raw m =
    Ok (mirrored,
        match _RESOURCE_MAP !! mirrored with
        | Some c => VResource c ∅ raw
        | None =>
            VResource cls
              (if bool_decide (cls = WikiPage)
               then {[ "project_id" := default (VInt 0) (params m !! "project_id") ]}
               else ∅) raw
        end).
Proof.
  intros H. repeat (apply elem_of_cons in H as [->|H]); [..|by apply elem_of_nil in H];
    destruct cls; reflexivity.
Qed.

Lemma encode_multiple_mirror cls mirrored raw m :
  mirrored ∈ ["users"; "roles"] →
  encode py cls mirrored raw m =
    Ok (mirrored, VResourceSet (if bool_decide (mirrored = "users") then User else Role) ∅ raw).
Proof.
  intros H. repeat (apply elem_of_cons in H as [->|H]); [..|by apply elem_of_nil in H];
    destruct cls; reflexivity.
Qed.

(** No subclass reads a mirrored attribute in a way of its own. *)
Lemma mirror_read_base g mirrored w :
  mirrored ∈ ["parent"; "project"; "tracker"; "priority"; "assigned_to"; "category";
              "fixed_version"; "issue"; "activity"; "users"; "roles"] →
  class___getattr__ py srv g mirrored w = Resource___getattr__ py srv g mirrored w.
Proof.
  intros H. apply class___getattr___base.
  destruct (__class__ (self w)); try exact I;
    first [split; intros -> | intros Hin | intros ->]; exfalso; revert H;
    try (revert Hin); clear; set_solver.
Qed.

End Mirrors.

(** X4. Writing an id, then reading the resource.  A permitted write under a
    single-id convenience name ([version_id] of an issue standing for
    [fixed_version_id]) shows in the attribute it mirrors: unless a value of
    that attribute was cached before the write, the next read of it returns
    a resource of the mapped class (of the class itself for [parent]) around
    the stub [{id: value}], with no call on the manager; on an issue the
    alias [version] reads the same resource. *)
Theorem id_write_then_read_resource (py : Python) (srv : Server) (depth : nat)
    (name : string) (v : value) (w : World) (mirrored : string) :
  let r := self w in
  let cls := __class__ r in
  let m := manager r in
  let attr :=
    if bool_decide (cls = Issue ∧ name = "version_id") then "fixed_version_id" else name in
  bool_decide (attr ∈ Cls._members) || String.prefix "_" attr = false →
  attr ∉ (if is_new r then _create_readonly r else _update_readonly r) →
  _SINGLE_ATTR_ID_MAP !! attr = Some mirrored →
  get_not_None (_encoded_attrs r) mirrored = None →
  let stub := VDict [("id", (decode py cls attr v m).2)] in
  let resource :=
    match _RESOURCE_MAP !! mirrored with
    | Some c => VResource c ∅ stub
    | None =>
        VResource cls
          (if bool_decide (cls = WikiPage)
           then {[ "project_id" := default (VInt 0) (params m !! "project_id") ]}
           else ∅) stub
    end in
  ∃ w1 w2,
    setattr py name v w = (w1, Ok tt) ∧
    _decoded_attrs (self w1) !! mirrored = Some stub ∧
    getattr py srv (S depth) mirrored w1 = (w2, Ok resource) ∧
    calls w2 = calls w ∧
    (cls = Issue → mirrored = "fixed_version" →
     getattr py srv (S depth) "version" w1 = (w2, Ok resource)).
Proof.
  intros r cls m attr Hs Hro Hsingle Hnc stub resource.
  destruct (single_mirrors attr mirrored Hsingle) as [Hne Hin].
  assert (Hcf : attr ≠ "custom_fields").
  { intros E. rewrite E in Hsingle. vm_compute in Hsingle. discriminate. }
  rewrite setattr_dispatch. fold r cls attr.
  rewrite Resource___setattr___plain by done. unfold_M.
  rewrite setattr_plain_spec. fold r cls m. rewrite Hsingle. cbn [self calls].
  set (k := (decode py cls attr v m).1).
  set (r1 := pop_encoded_item attr
               (set_decoded_item mirrored stub
                  (set_decoded_item attr (decode py cls attr v m).2
                     (set_changes_item k (decode py cls attr v m).2 r)))).
  set (w1 := {| self := r1; calls := calls w |}).
  assert (Hp : String.prefix "_" mirrored = false).
  { revert Hin. clear. intros H.
    repeat (apply elem_of_cons in H as [->|H]); [..|by apply elem_of_nil in H]; done. }
  assert (He1 : get_not_None (_encoded_attrs (self w1)) mirrored = None).
  { unfold get_not_None. simpl. by rewrite lookup_delete_ne by done. }
  assert (Hd1 : get_not_None (_decoded_attrs (self w1)) mirrored = Some stub).
  { unfold get_not_None. simpl. by rewrite lookup_insert_eq. }
  assert (Hread : Resource___getattr__ py srv (getattr py srv depth) mirrored w1 =
            ({| self := set_encoded_item mirrored resource r1; calls := calls w |},
             Ok resource)).
  { rewrite (getattr_decoded py srv _ mirrored w1 stub Hp He1 Hd1).
    unfold w1 at 1 2. cbn [self]. change (__class__ r1) with cls.
    change (manager r1) with m. by rewrite encode_single_mirror by done. }
  exists w1, {| self := set_encoded_item mirrored resource r1; calls := calls w |}.
  split; [done|]. split; [simpl; apply lookup_insert_eq|].
  split; [|split; [done|]].
  - rewrite getattr_S, mirror_read_base; [done|]. revert Hin. clear. set_solver.
  - intros Hc ->. rewrite getattr_S. unfold class___getattr__. unfold_M.
    cbn [self]. change (__class__ (self w1)) with cls. rewrite Hc.
    by rewrite bool_decide_eq_true_2 by done.
Qed.

Lemma id_write_then_read_resource_witness :
  ∃ w1 w2,
    setattr Fixture.py "version_id" (VInt 7) (Fixture.world_of Fixture.issue_1)
    = (w1, Ok tt) ∧
    _changes (self w1) = {[ "fixed_version_id" := VInt 7 ]} ∧
    getattr Fixture.py Fixture.failing 1 "version" w1
    = (w2, Ok (VResource Version ∅ (VDict [("id", VInt 7)]))).
Proof.
  destruct (id_write_then_read_resource Fixture.py Fixture.failing 0 "version_id" (VInt 7)
              (Fixture.world_of Fixture.issue_1) "fixed_version"
              eq_refl ltac:(compute_done) eq_refl eq_refl)
    as (w1 & w2 & Hset & _ & _ & _ & Hversion).
  exists w1, w2. split; [exact Hset|]. split.
  - injection Hset as <-. reflexivity.
  - by apply Hversion.
Defined.

(** X5. Writing a list of ids, then reading the collection.  A permitted write of
    an iterable under [user_ids] or [role_ids] sets [users], respectively
    [roles], in [decoded] to the stubs [{id: e}] of its elements, and unless
    a value of that attribute was cached before, the next read of it returns
    the collection of users, respectively of roles, around these stubs. *)
Theorem ids_write_then_read_collection (py : Python) (srv : Server) (depth : nat)
    (attr : string) (v : value) (w : World) (mirrored : string) (elements : list value) :
  let r := self w in
  let cls := __class__ r in
  let m := manager r in
  bool_decide (attr ∈ Cls._members) || String.prefix "_" attr = false →
  attr ∉ (if is_new r then _create_readonly r else _update_readonly r) →
  _MULTIPLE_ATTR_ID_MAP !! attr = Some mirrored →
  iter (decode py cls attr v m).2 = Ok elements →
  get_not_None (_encoded_attrs r) mirrored = None →
  let stubs := VList ((fun e => VDict [("id", e)]) <$> elements) in
  let collection :=
    VResourceSet (if bool_decide (mirrored = "users") then User else Role) ∅ stubs in
  ∃ w1 w2,
    setattr py attr v w = (w1, Ok tt) ∧
    _changes (self w1) = <[attr := (decode py cls attr v m).2]> (_changes r) ∧
    _decoded_attrs (self w1) !! mirrored = Some stubs ∧
    getattr py srv (S depth) mirrored w1 = (w2, Ok collection) ∧
    calls w2 = calls w.
Proof.
  intros r cls m Hs Hro Hmulti Hiter Hnc stubs collection.
  destruct (multiple_mirrors attr mirrored Hmulti) as (Hne & Hin & Hsingle).
  assert (Hattr : attr ∈ ["user_ids"; "role_ids"]).
  { destruct (decide (attr = "user_ids")) as [->|H1]; [set_solver|].
    destruct (decide (attr = "role_ids")) as [->|H2]; [set_solver|].
    unfold _MULTIPLE_ATTR_ID_MAP in Hmulti. simpl in Hmulti.
    by rewrite !lookup_insert_ne, lookup_empty in Hmulti. }
  assert (Hcf : attr ≠ "custom_fields") by (intros ->; revert Hattr; clear; set_solver).
  assert (Hk : (decode py cls attr v m).1 = attr).
  { rewrite decode_key. destruct cls; try done;
      rewrite ?bool_decide_eq_false_2; try done; intros ->; revert Hattr; clear; set_solver. }
  rewrite setattr_dispatch. fold r cls.
  rewrite (bool_decide_eq_false_2 (_ ∧ _))
    by (intros [_ ->]; revert Hattr; clear; set_solver).
  rewrite Resource___setattr___plain by done. unfold_M.
  rewrite setattr_plain_spec. fold r cls m. rewrite Hsingle, Hmulti, Hiter. cbn [self calls].
  rewrite Hk. fold stubs.
  set (r1 := pop_encoded_item attr
               (set_decoded_item mirrored stubs
                  (set_decoded_item attr (decode py cls attr v m).2
                     (set_changes_item attr (decode py cls attr v m).2 r)))).
  set (w1 := {| self := r1; calls := calls w |}).
  assert (Hp : String.prefix "_" mirrored = false).
  { revert Hin. clear. intros H.
    repeat (apply elem_of_cons in H as [->|H]); [..|by apply elem_of_nil in H]; done. }
  assert (He1 : get_not_None (_encoded_attrs (self w1)) mirrored = None).
  { unfold get_not_None. simpl. by rewrite lookup_delete_ne by done. }
  assert (Hd1 : get_not_None (_decoded_attrs (self w1)) mirrored = Some stubs).
  { unfold get_not_None. simpl. by rewrite lookup_insert_eq. }
  exists w1, {| self := set_encoded_item mirrored collection r1; calls := calls w |}.
  split; [done|]. split; [done|]. split; [simpl; apply lookup_insert_eq|].
  split; [|done].
  rewrite getattr_S, mirror_read_base by (revert Hin; clear; set_solver).
  rewrite (getattr_decoded py srv _ mirrored w1 stubs Hp He1 Hd1).
  unfold w1 at 1 2. cbn [self]. change (__class__ r1) with cls.
  change (manager r1) with m. by rewrite encode_multiple_mirror by done.
Qed.

Lemma ids_write_then_read_collection_witness :
  let membership :=
    __init__ ProjectMembership (Fixture.manager_of ProjectMembership Fixture.strict) ∅ in
  ∃ w1 w2,
    setattr Fixture.py "role_ids" (VList [VInt 3; VInt 4]) (Fixture.world_of membership)
    = (w1, Ok tt) ∧
    getattr Fixture.py Fixture.failing 1 "roles" w1
    = (w2, Ok (VResourceSet Role ∅ (VList [VDict [("id", VInt 3)]; VDict [("id", VInt 4)]]))).
Proof.
  intros membership.
  destruct (ids_write_then_read_collection Fixture.py Fixture.failing 0 "role_ids"
              (VList [VInt 3; VInt 4]) (Fixture.world_of membership) "roles"
              [VInt 3; VInt 4]
              eq_refl ltac:(compute_done) eq_refl eq_refl eq_refl)
    as (w1 & w2 & Hset & _ & _ & Hget & _).
  exists w1, w2. split; [exact Hset|exact Hget].
Defined.

(** X6. A list of ids that is not one.  A permitted write of [None], of a boolean
    or of an integer under [user_ids] or [role_ids] raises [TypeError], but
    only after the value has been recorded in the pending changes and in
    [decoded]; the mirrored collection and the cache are as they were, so
    that a following [save] submits the value. *)
Theorem ids_write_of_scalar_is_recorded (py : Python) (attr : string) (v : value)
    (w : World) :
  let r := self w in
  bool_decide (attr ∈ Cls._members) || String.prefix "_" attr = false →
  attr ∉ (if is_new r then _create_readonly r else _update_readonly r) →
  is_Some (_MULTIPLE_ATTR_ID_MAP !! attr) →
  match v with VNone | VBool _ | VInt _ => True | _ => False end →
  ∃ w1,
    setattr py attr v w = (w1, Raise TypeError) ∧
    _changes (self w1) = <[attr := v]> (_changes r) ∧
    _decoded_attrs (self w1) = <[attr := v]> (_decoded_attrs r) ∧
    _encoded_attrs (self w1) = _encoded_attrs r ∧
    calls w1 = calls w.
Proof.
  intros r Hs Hro [mirrored Hmulti] Hv.
  destruct (multiple_mirrors attr mirrored Hmulti) as (Hne & Hin & Hsingle).
  assert (Hattr : attr ∈ ["user_ids"; "role_ids"]).
  { destruct (decide (attr = "user_ids")) as [->|H1]; [set_solver|].
    destruct (decide (attr = "role_ids")) as [->|H2]; [set_solver|].
    unfold _MULTIPLE_ATTR_ID_MAP in Hmulti. simpl in Hmulti.
    by rewrite !lookup_insert_ne, lookup_empty in Hmulti. }
  assert (Hcf : attr ≠ "custom_fields") by (intros ->; revert Hattr; clear; set_solver).
  assert (Hdec : decode py (__class__ r) attr v (manager r) = (attr, v)).
  { rewrite (surjective_pairing (decode _ _ _ _ _)). rewrite decode_key, decode_value.
    rewrite (bool_decide_eq_false_2 (_ ∧ _))
      by (intros [_ ->]; revert Hattr; clear; set_solver).
    f_equal; [|by destruct v].
    destruct (__class__ r); try done;
      rewrite ?bool_decide_eq_false_2; try done; intros ->; revert Hattr; clear; set_solver. }
  rewrite setattr_dispatch. fold r.
  rewrite (bool_decide_eq_false_2 (_ ∧ _))
    by (intros [_ ->]; revert Hattr; clear; set_solver).
  rewrite Resource___setattr___plain by done. unfold_M.
  rewrite setattr_plain_spec. fold r. rewrite Hsingle, Hmulti, Hdec. cbn [fst snd].
  destruct v; try done; simpl; eexists; repeat split.
Qed.

Lemma ids_write_of_scalar_is_recorded_witness :
  let membership :=
    __init__ ProjectMembership (Fixture.manager_of ProjectMembership Fixture.strict) ∅ in
  ∃ w1,
    setattr Fixture.py "role_ids" (VInt 3) (Fixture.world_of membership)
    = (w1, Raise TypeError) ∧
    _changes (self w1) = {[ "role_ids" := VInt 3 ]}.
Proof.
  intros membership.
  destruct (ids_write_of_scalar_is_recorded Fixture.py "role_ids" (VInt 3)
              (Fixture.world_of membership)
              eq_refl ltac:(compute_done) ltac:(by eexists) I)
    as (w1 & Hset & Hch & _).
  exists w1. split; [exact Hset|]. rewrite Hch. reflexivity.
Defined.

(** ** What reads leave alone *)

Lemma keeps_bind_get_self (P : Instance → Prop) {B} (k : Instance → M B) :
  (∀ r, P r → keeps P (k r)) → keeps P (get_self ≫= k).
Proof. intros Hk w Hw. unfold_M. by apply Hk. Qed.

Section ReadFrame.
Context (py : Python) (srv : Server) (r0 : Instance).

Lemma read_frame_refl : read_frame r0 r0.
Proof. split; [done|]. intros k. by left. Qed.

Lemma read_frame_encoded k v r : read_frame r0 r → read_frame r0 (set_encoded_item k v r).
Proof. by intros [? ?]. Qed.

Lemma read_frame_relations_name n r :
  read_frame r0 r → read_frame r0 (with_relations_name n r).
Proof. by intros [? ?]. Qed.

Lemma keeps_read_frame_class___getattr__ g attr :
  (∀ a, keeps (read_frame r0) (g a)) →
  keeps (read_frame r0) (class___getattr__ py srv g attr).
Proof.
  intros Hg.
  assert (Hbase : ∀ a, keeps (read_frame r0) (Resource___getattr__ py srv g a)).
  { intros a. apply keeps_Resource___getattr__; [|done].
    intros k v r _. apply read_frame_encoded. }
  unfold class___getattr__. apply keeps_bind_get_self. intros r Hr.
  destruct (__class__ r) eqn:Hc; try apply Hbase.
  - (* Issue *)
    unfold Issue_Watcher.
    repeat first [apply Hbase | apply keeps_internal_id; [done] | keeps_step].
  - (* WikiPage *)
    destruct (bool_decide (attr = "text")
              && negb (bool_decide (is_Some (_decoded_attrs r !! attr)))) eqn:Htext.
    + apply andb_true_iff in Htext as [Ha Hn].
      apply bool_decide_eq_true in Ha as ->.
      apply negb_true_iff, bool_decide_eq_false in Hn.
      assert (Hnone : __class__ r0 = WikiPage ∧ _decoded_attrs r0 !! "text" = None).
      { destruct Hr as [(Hcls & _) Hdec]. split; [congruence|].
        destruct (Hdec "text") as [E|(_ & _ & E)]; [|done].
        rewrite <- E. by apply eq_None_not_Some. }
      repeat first [apply Hbase | apply keeps_refresh_not_itself; [done] | keeps_step].
      destruct H as [Hsh Hdec]. split; [done|]. intros k. simpl.
      destruct (decide (k = "text")) as [->|Hne]; [right; by destruct Hnone|].
      rewrite lookup_insert_ne by done. apply Hdec.
    + repeat first [apply Hbase | keeps_step].
  - (* User *)
    repeat first [apply Hbase | keeps_step]; by apply read_frame_relations_name.
  - (* Group *)
    unfold Group_User.
    repeat first [apply Hbase | apply keeps_internal_id; [done] | keeps_step].
  - (* CustomField *)
    repeat first [apply Hbase | keeps_step].
Qed.

Lemma keeps_read_frame_getattr depth attr :
  keeps (read_frame r0) (getattr py srv depth attr).
Proof.
  revert attr. induction depth as [|d IH]; intros attr; simpl.
  - apply keeps_raise.
  - by apply keeps_read_frame_class___getattr__.
Qed.

End ReadFrame.

(** X7. Reads do not dirty an instance.  Whatever its outcome, an attribute read
    leaves the class, the manager, the readonly sets and the pending changes
    of the receiver as they were, and [decoded] too, but for the text that
    the first read of [text] fetches into a wiki page that had none; in
    particular a read never turns a new instance into a persisted one. *)
Theorem reads_leave_changes_and_decoded (py : Python) (srv : Server) (depth : nat)
    (attr : string) (w : World) :
  let r := self w in
  let r' := self (getattr py srv depth attr w).1 in
  __class__ r' = __class__ r ∧ manager r' = manager r ∧
  _create_readonly r' = _create_readonly r ∧ _update_readonly r' = _update_readonly r ∧
  _changes r' = _changes r ∧
  (∀ k, ¬ (__class__ r = WikiPage ∧ k = "text" ∧ _decoded_attrs r !! "text" = None) →
        _decoded_attrs r' !! k = _decoded_attrs r !! k) ∧
  is_new r' = is_new r.
Proof.
  intros r r'.
  destruct (keeps_read_frame_getattr py srv r depth attr w (read_frame_refl r))
    as [(H1 & H2 & H3 & H4 & H5) Hdec]. fold r' in H1, H2, H3, H4, H5, Hdec.
  assert (Hk : ∀ k, ¬ (__class__ r = WikiPage ∧ k = "text" ∧ _decoded_attrs r !! "text" = None) →
                    _decoded_attrs r' !! k = _decoded_attrs r !! k).
  { intros k Hk. destruct (Hdec k) as [E|(Hc & -> & Hn)]; [done|]. by destruct Hk. }
  repeat split; try done.
  unfold is_new. rewrite !Hk; [done|by intros (_ & ? & _)..].
Qed.

(** ** Refreshing, deleting and saving *)

Section Lifecycle.
Context (py : Python) (srv : Server).

(** No subclass reads [id] or [title] in a way of its own. *)
Lemma identity_read_base g key w :
  key ∈ ["id"; "title"] →
  class___getattr__ py srv g key w = Resource___getattr__ py srv g key w.
Proof.
  intros H. apply class___getattr___base.
  destruct (__class__ (self w)); try exact I;
    first [split; intros -> | intros Hin | intros ->]; exfalso; revert H;
    try (revert Hin); clear; set_solver.
Qed.

(** The identity of an instance that has none: on a new instance [0], or
    the empty string for a wiki page. *)
Lemma internal_id_new depth w :
  let key := if bool_decide (__class__ (self w) = WikiPage) then "title" else "id" in
  is_new (self w) = true →
  get_not_None (_encoded_attrs (self w)) key = None →
  get_not_None (_decoded_attrs (self w)) key = None →
  internal_id (getattr py srv (S depth)) w =
    (w, Ok (if bool_decide (__class__ (self w) = WikiPage) then VStr EmptyString else VInt 0)).
Proof.
  intros key Hnew He Hd. rewrite internal_id_getattr. fold key.
  assert (Hp : String.prefix "_" key = false) by (subst key; by case_bool_decide).
  assert (Hr : key ∉ Cls._relations (__class__ (self w))).
  { subst key. destruct (__class__ (self w)); compute_done. }
  assert (Hi : key ∉ Cls._includes (__class__ (self w))).
  { subst key. destruct (__class__ (self w)); compute_done. }
  rewrite (getattr_unresolved py srv _ key w Hp He Hd Hr Hi).
  unfold unresolved. unfold_M. rewrite Hnew. subst key. by case_bool_decide.
Qed.

End Lifecycle.

(** X8. Refreshing in place.  [refresh()] fetches the resource under the
    identity of the receiver; when the manager raises, the exception
    propagates and the receiver is as resolving its identity left it; when
    the manager answers, the cache is emptied and [decoded] becomes the
    payload, with [None] under the relation and include names it lacks.
    The pending changes are kept either way, so that values written before
    the refresh leave [decoded] but are still submitted by the next
    [save]. *)
Theorem refresh_in_place (py : Python) (srv : Server) (depth : nat) (ps : kwargs)
    (w w1 : World) (id : value) :
  let r := self w in
  let m := manager r in
  let g := getattr py srv depth in
  internal_id g w = (w1, Ok id) →
  let call := CallGet m id (scoped_params r ps) in
  (∀ e, serve_get srv (calls w) m id (scoped_params r ps) = Raise e →
     refresh srv g true ps w = ({| self := self w1; calls := calls w ++ [call] |}, Raise e) ∧
     _changes (self w1) = _changes r ∧ _decoded_attrs (self w1) = _decoded_attrs r) ∧
  (∀ payload, serve_get srv (calls w) m id (scoped_params r ps) = Ok payload →
     ∃ w', refresh srv g true ps w = (w', Ok None) ∧
           calls w' = calls w ++ [call] ∧
           _encoded_attrs (self w') = ∅ ∧
           _decoded_attrs (self w') =
             payload ∪ fromkeys (Cls._relations (resource_class m)
                                 ++ Cls._includes (resource_class m)) ∧
           payload ⊆ _decoded_attrs (self w') ∧
           _changes (self w') = _changes r).
Proof.
  intros r m g Hid call.
  destruct (internal_id_frame py srv depth w w1 (Ok id) Hid)
    as (Hcalls & (Hcls & Hm & _ & _ & Hch) & Hdec & _).
  unfold refresh, Resource_refresh, manager_get. unfold_M. cbn [self calls].
  fold r g. rewrite Hid. cbn [self calls]. rewrite Hcalls. fold m call. split.
  - intros e ->. done.
  - intros payload ->. cbn. eexists. repeat split; [|done].
    apply map_union_subseteq_l.
Qed.

Lemma refresh_in_place_witness :
  let payload : kwargs := <["id" := VInt 1]> (<["subject" := VStr "Server side"]> ∅) in
  let srv := Fixture.serving payload in
  ∃ w', refresh srv (getattr Fixture.py srv 1) true ∅ Fixture.issue_1_edited = (w', Ok None) ∧
        _decoded_attrs (self w') !! "subject" = Some (VStr "Server side") ∧
        _changes (self w') = {[ "subject" := VStr "Fix bug" ]}.
Proof.
  intros payload srv.
  destruct (refresh_in_place Fixture.py srv 1 ∅ Fixture.issue_1_edited
              (internal_id (getattr Fixture.py srv 1) Fixture.issue_1_edited).1
              (VInt 1) eq_refl) as [_ Hok].
  destruct (Hok payload eq_refl) as (w' & Hrefresh & _ & _ & _ & Hsub & Hch).
  exists w'. split; [exact Hrefresh|]. split; [|exact Hch].
  eapply lookup_weaken; [|exact Hsub]. reflexivity.
Defined.

(** X9. An instance that was never saved has the identity [0].  On a new
    instance that is not a wiki page, [delete] asks the manager to delete
    the resource [0] and [refresh] to fetch it, and a relation is filtered
    by the id [0]; the instance itself is left as it was by [delete]. *)
Theorem new_instance_acts_as_id_0 (py : Python) (srv : Server) (depth : nat) (w : World) :
  let r := self w in
  let m := manager r in
  let g := getattr py srv (S depth) in
  is_new r = true →
  __class__ r ≠ WikiPage →
  get_not_None (_encoded_attrs r) "id" = None →
  internal_id g w = (w, Ok (VInt 0)) ∧
  (∀ ps, ∃ response,
     delete_ srv g ps w = ({| self := r; calls := calls w ++ [CallDelete m (VInt 0) ps] |},
                           response)) ∧
  (∀ itself ps, calls (refresh srv g itself ps w).1 = calls w ++ [CallGet m (VInt 0) ps]) ∧
  (∀ attr c, attr ∈ Cls._relations (__class__ r) →
     ¬ (__class__ r = User ∧ attr = "time_entries") →
     get_not_None (_encoded_attrs r) attr = None →
     get_not_None (_decoded_attrs r) attr = None →
     _RELATIONS_MAP !! attr = Some c →
     (getattr py srv (S (S depth)) attr w).2
     = Ok (VFilter c {[ _relations_name r +:+ "_id" := VInt 0 ]})).
Proof.
  intros r m g Hnew Hwiki He.
  assert (Hd : get_not_None (_decoded_attrs r) "id" = None).
  { unfold is_new in Hnew. unfold get_not_None.
    destruct (_decoded_attrs r !! "id") eqn:E; [|done].
    rewrite bool_decide_eq_true_2 in Hnew by (by eexists). done. }
  assert (Hid : internal_id g w = (w, Ok (VInt 0))).
  { pose proof (internal_id_new py srv depth w Hnew) as H.
    rewrite (bool_decide_eq_false_2 (__class__ (self w) = WikiPage)) in H by done.
    by apply H. }
  assert (Hscope : ∀ ps, scoped_params r ps = ps).
  { intros ps. unfold scoped_params. by destruct (__class__ r). }
  split; [done|]. split; [|split].
  - intros ps. unfold delete_, manager_delete, pre_delete, post_delete. unfold_M.
    cbn [self calls]. fold r g. rewrite Hid. cbn [self calls]. fold r m. rewrite Hscope.
    destruct (serve_delete srv (calls w) m (VInt 0) ps); by eexists.
  - intros itself ps. unfold refresh, Resource_refresh, manager_get. unfold_M.
    cbn [self calls]. fold r g. rewrite Hid. cbn [self calls]. fold r m. rewrite Hscope.
    destruct (serve_get srv (calls w) m (VInt 0) ps); [|done]. by destruct itself.
  - intros attr c Hr Huser Hea Hda Hc.
    destruct (relation_not_structural _ _ Hr) as [Hp _].
    rewrite getattr_S, relation_dispatch by done. fold r.
    rewrite (bool_decide_eq_false_2 (_ ∧ _)) by done. cbn [andb]. fold g.
    by rewrite (getattr_relation py srv _ attr w w (VInt 0) c Hp Hea Hda Hr Hid Hc).
Qed.

Lemma new_instance_acts_as_id_0_witness :
  let g := getattr Fixture.py Fixture.failing 1 in
  let w := Fixture.world_of Fixture.new_issue in
  calls (delete_ Fixture.failing g ∅ w).1
  = [CallDelete (Fixture.manager_of Issue Fixture.strict) (VInt 0) ∅] ∧
  (getattr Fixture.py Fixture.failing 2 "time_entries" w).2
  = Ok (VFilter TimeEntry {[ "issue_id" := VInt 0 ]}).
Proof.
  cbv zeta.
  destruct (new_instance_acts_as_id_0 Fixture.py Fixture.failing 0
              (Fixture.world_of Fixture.new_issue)
              eq_refl ltac:(discriminate) eq_refl) as (_ & Hdel & _ & Hrel).
  split.
  - destruct (Hdel ∅) as [response ->]. reflexivity.
  - apply Hrel; [compute_done|by intros [? _]|reflexivity..].
Defined.

Section Created.
Context (py : Python) (srv : Server).

(** An integer id is read as it is, by every class. *)
Lemma encode_id cls z m : encode py cls "id" (VInt z) m = Ok ("id", VInt z).
Proof. destruct cls; reflexivity. Qed.

Lemma getattr_id_decoded depth w z :
  get_not_None (_encoded_attrs (self w)) "id" = None →
  _decoded_attrs (self w) !! "id" = Some (VInt z) →
  getattr py srv (S depth) "id" w =
    ({| self := set_encoded_item "id" (VInt z) (self w); calls := calls w |}, Ok (VInt z)).
Proof.
  intros He Hd. rewrite getattr_S, identity_read_base by set_solver.
  rewrite (getattr_decoded py srv _ "id" w (VInt z) eq_refl He).
  - by rewrite encode_id.
  - unfold get_not_None. by rewrite Hd.
Qed.

End Created.

(** X10. Saving a new instance makes it a persisted one.  When the manager
    answers the creation with a payload that carries an integer id, the
    instance is no longer new, reads of [id] answer that id without a call,
    and the next [save] is an update under that id with no field, whether
    or not anything was written in between. *)
Theorem created_instance_is_persisted (py : Python) (srv : Server) (depth : nat)
    (now : datetime) (w : World) (payload : kwargs) (z : Z) :
  let r := self w in
  let m := manager r in
  is_new r = true →
  __class__ r ≠ WikiPage →
  get_not_None (_encoded_attrs r) "id" = None →
  serve_create srv (calls w) m (_changes r) = Ok payload →
  payload !! "id" = Some (VInt z) →
  ∃ w', save py srv (getattr py srv depth) now w = (w', Ok (VBool true)) ∧
        is_new (self w') = false ∧
        (∀ depth', ∃ w'', getattr py srv (S depth') "id" w' = (w'', Ok (VInt z)) ∧
                          calls w'' = calls w') ∧
        (∀ depth' now',
           calls (save py srv (getattr py srv (S depth')) now' w').1
           = calls w ++ [CallCreate m (_changes r); CallUpdate m (VInt z) ∅]).
Proof.
  intros r m Hnew Hwiki He Hcreate Hid.
  set (r' := with_changes ∅ false
               (with_decoded (raw (__init__ (resource_class m) m payload)) false r)).
  set (w' := {| self := r'; calls := calls w ++ [CallCreate m (_changes r)] |}).
  assert (Hsave : save py srv (getattr py srv depth) now w = (w', Ok (VBool true))).
  { unfold save, pre_create, post_create, manager_create. unfold_M. cbn [self calls].
    fold r m. rewrite Hnew. cbn [negb]. by rewrite Hcreate. }
  assert (Hd' : _decoded_attrs r' !! "id" = Some (VInt z)).
  { simpl. by apply lookup_union_Some_l. }
  assert (Hnew' : is_new r' = false).
  { unfold is_new. rewrite Hd'. by rewrite bool_decide_eq_true_2 by (by eexists). }
  assert (Hread : ∀ d, getattr py srv (S d) "id" w' =
            ({| self := set_encoded_item "id" (VInt z) r'; calls := calls w' |},
             Ok (VInt z))).
  { intros d. by rewrite (getattr_id_decoded py srv d w' z He Hd'). }
  exists w'. split; [done|]. split; [done|]. split.
  - intros d. eexists. split; [apply Hread|done].
  - intros d now'.
    assert (Hint : internal_id (getattr py srv (S d)) w' =
              ({| self := set_encoded_item "id" (VInt z) r'; calls := calls w' |},
               Ok (VInt z))).
    { rewrite internal_id_getattr. change (__class__ (self w')) with (__class__ r).
      rewrite bool_decide_eq_false_2 by done.
      rewrite (getattr_decoded py srv _ "id" w' (VInt z) eq_refl He).
      - by rewrite encode_id.
      - unfold get_not_None. change (self w') with r'. by rewrite Hd'. }
    unfold save, pre_update, manager_update, post_update. unfold_M.
    change (self w') with r'. rewrite Hnew'. cbn [negb]. rewrite Hint.
    cbn [self calls set_encoded_item with_encoded manager _changes r' with_changes
         with_decoded __class__].
    fold m.
    destruct (serve_update srv _ m (VInt z) ∅) as [ack|e].
    + change (__class__ (set_decoded_item "updated_on" _ (set_encoded_item "id" _ r')))
        with (__class__ r).
      destruct (__class__ r) eqn:Hc; try done; cbn [self calls w'];
        by rewrite <- app_assoc.
    + cbn [self calls w']. by rewrite <- app_assoc.
Qed.

Lemma created_instance_is_persisted_witness :
  let payload : kwargs := <["id" := VInt 9]> (<["subject" := VStr "Fix bug"]> ∅) in
  let srv := Fixture.serving payload in
  ∃ w', save Fixture.py srv (getattr Fixture.py srv 1) Fixture.noon
          Fixture.new_issue_fix_bug = (w', Ok (VBool true)) ∧
        is_new (self w') = false ∧
        (getattr Fixture.py srv 1 "id" w').2 = Ok (VInt 9).
Proof.
  intros payload srv.
  destruct (created_instance_is_persisted Fixture.py srv 1 Fixture.noon
              Fixture.new_issue_fix_bug payload 9
              eq_refl ltac:(discriminate) eq_refl eq_refl eq_refl)
    as (w' & Hsave & Hnew & Hid & _).
  exists w'. split; [exact Hsave|]. split; [exact Hnew|].
  destruct (Hid 0%nat) as (w'' & -> & _). reflexivity.
Defined.

(** ** Includes *)

Section Includes.
Context (py : Python) (srv : Server).

(** No subclass reads an include in a way of its own. *)
Lemma include_read_base g attr w :
  attr ∈ Cls._includes (__class__ (self w)) →
  class___getattr__ py srv g attr w = Resource___getattr__ py srv g attr w.
Proof.
  intros H. apply class___getattr___base.
  destruct (__class__ (self w)); try exact I; cbn in H;
    first [split; intros -> | intros Hin | intros ->]; exfalso; revert H;
    try (revert Hin); clear; set_solver.
Qed.

Lemma include_not_structural c attr :
  attr ∈ Cls._includes c → String.prefix "_" attr = false.
Proof.
  destruct c; cbn; intros H; try (by apply elem_of_nil in H);
    repeat (apply elem_of_cons in H as [->|H]; [done|]); by apply elem_of_nil in H.
Qed.

Lemma fromkeys_lookup names k v : fromkeys names !! k = Some v → v = VNone.
Proof.
  unfold fromkeys. intros H. apply elem_of_list_to_map_2 in H.
  by apply list_elem_of_fmap in H as (n & [= _ ->] & _).
Qed.

(** What the constructor leaves under a name: the entry of the payload when
    it is not [None]. *)
Lemma get_not_None___init__ c m payload k :
  get_not_None (_decoded_attrs (__init__ c m payload)) k = get_not_None payload k.
Proof.
  unfold get_not_None. simpl. rewrite lookup_union.
  destruct (payload !! k) as [v|] eqn:Hp; simpl.
  - by destruct (fromkeys _ !! k).
  - destruct (fromkeys _ !! k) as [v|] eqn:Hf; simpl; [|done].
    by rewrite (fromkeys_lookup _ _ _ Hf).
Qed.

End Includes.

(** X11. An include is fetched once.  The first read of an include of the class
    that is neither cached nor in [decoded] (and is not also a relation)
    fetches the resource anew with that include, by one [get] under the
    identity of the receiver; the value the payload holds under the name is
    encoded, cached and returned, and [decoded] is left as it was.  The
    second read answers the cached value without a call. *)
Theorem include_fetched_once (py : Python) (srv : Server) (depth : nat) (attr : string)
    (w w1 : World) (id : value) (payload : kwargs) (raw e : value) :
  let r := self w in
  let cls := __class__ r in
  let m := manager r in
  resource_class m = cls →
  attr ∈ Cls._includes cls →
  attr ∉ Cls._relations cls →
  get_not_None (_encoded_attrs r) attr = None →
  get_not_None (_decoded_attrs r) attr = None →
  internal_id (getattr py srv (S depth)) w = (w1, Ok id) →
  let ps := scoped_params r {[ "include" := VStr attr ]} in
  serve_get srv (calls w) m id ps = Ok payload →
  get_not_None payload attr = Some raw →
  encode py cls attr raw m = Ok (attr, e) →
  ∃ w', getattr py srv (S (S depth)) attr w = (w', Ok e) ∧
        calls w' = calls w ++ [CallGet m id ps] ∧
        _decoded_attrs (self w') = _decoded_attrs r ∧
        ∀ depth', getattr py srv (S depth') attr w' = (w', Ok e).
Proof.
  intros r cls m Hrc Hi Hr He Hd Hid ps Hget Hraw Henc.
  pose proof (include_not_structural _ _ Hi) as Hp.
  destruct (internal_id_frame py srv (S depth) w w1 (Ok id) Hid)
    as (Hcalls & (Hcls & _) & Hdec & _).
  assert (Hne : is_not_None e = true).
  { apply encode_not_None in Henc as [_ ?]; [done|].
    unfold get_not_None in Hraw. destruct (payload !! attr); [|done].
    by destruct (is_not_None v) eqn:?; simplify_eq. }
  set (fetched := {| self := __init__ (resource_class m) m payload;
                     calls := calls w1 ++ [CallGet m id ps] |}).
  assert (Hinner : getattr py srv (S depth) attr fetched =
            ({| self := set_encoded_item attr e (self fetched); calls := calls fetched |},
             Ok e)).
  { rewrite getattr_S, include_read_base by (cbn; by rewrite Hrc).
    rewrite (getattr_decoded py srv _ attr fetched raw Hp eq_refl).
    - cbn [self fetched __init__ __class__ manager]. by rewrite Hrc, Henc.
    - unfold fetched. cbn [self]. by rewrite get_not_None___init__. }
  rewrite <- Hcalls in Hget.
  pose proof (getattr_include py srv (getattr py srv (S depth)) attr w w1 id payload
                _ e Hp He Hd Hr Hi Hid Hget Hinner) as Hread.
  rewrite Hne in Hread.
  exists {| self := set_encoded_item attr e (self w1); calls := calls fetched |}.
  split; [by rewrite getattr_S, include_read_base|].
  split; [by cbn; rewrite Hcalls|]. split; [done|].
  intros depth'. rewrite getattr_S, include_read_base by (cbn; by rewrite Hcls).
  apply getattr_cached; [done|]. unfold get_not_None. simpl.
  by rewrite lookup_insert_eq, Hne.
Qed.

Lemma include_fetched_once_witness :
  let g := getattr Fixture.py Fixture.with_children 2 in
  let children := VResourceSet Issue ∅ (VList [VDict [("id", VInt 7)]]) in
  ∃ w', g "children" (Fixture.world_of Fixture.issue_1) = (w', Ok children) ∧
        calls w' = [CallGet (Fixture.manager_of Issue Fixture.strict) (VInt 1)
                      {[ "include" := VStr "children" ]}] ∧
        g "children" w' = (w', Ok children).
Proof.
  cbv zeta.
  destruct (include_fetched_once Fixture.py Fixture.with_children 0 "children"
              (Fixture.world_of Fixture.issue_1)
              (internal_id (getattr Fixture.py Fixture.with_children 1)
                 (Fixture.world_of Fixture.issue_1)).1 (VInt 1)
              (<["id" := VInt 1]> (<["children" := VList [VDict [("id", VInt 7)]]]> ∅))
              (VList [VDict [("id", VInt 7)]])
              (VResourceSet Issue ∅ (VList [VDict [("id", VInt 7)]]))
              eq_refl ltac:(compute_done) ltac:(compute_done) eq_refl eq_refl eq_refl
              eq_refl eq_refl eq_refl)
    as (w' & Hget & Hcalls & _ & Hagain).
  exists w'. split; [exact Hget|]. split; [exact Hcalls|]. apply (Hagain 1%nat).
Defined.

(** X12. An include that the server leaves out is never resolved.  Suppose every
    [get] of the manager answers a payload that has an integer id and
    nothing (or a null) under an include of the class.  Then, on an instance
    built from such a payload, a read of that include fetches the resource
    anew, reads the include on the fetched resource, which fetches again,
    and so on: whatever the bound on the depth of nested reads, the read
    ends in [RecursionError], after one more [get] for every level. *)
Theorem missing_include_is_never_resolved (py : Python) (srv : Server) (m : Manager)
    (attr : string) :
  let cls := resource_class m in
  attr ∈ Cls._includes cls →
  attr ∉ Cls._relations cls →
  cls ≠ WikiPage →
  (∀ seen id ps, ∃ payload z,
     serve_get srv seen m id ps = Ok payload ∧
     get_not_None payload attr = None ∧ payload !! "id" = Some (VInt z)) →
  ∀ depth payload z log,
    get_not_None payload attr = None →
    payload !! "id" = Some (VInt z) →
    ∃ w', getattr py srv depth attr {| self := __init__ cls m payload; calls := log |}
          = (w', Raise RecursionError) ∧
          length (calls w') = (length log + Nat.pred depth)%nat.
Proof.
  intros cls Hi Hr Hwiki Hsrv.
  pose proof (include_not_structural _ _ Hi) as Hp.
  induction depth as [|[|d] IH]; intros payload z log Hmiss Hid.
  - eexists. split; [reflexivity|]. simpl. lia.
  - set (w := {| self := __init__ cls m payload; calls := log |}).
    rewrite getattr_S, include_read_base by done.
    unfold Resource___getattr__. rewrite Hp. unfold_M. cbn [self w _encoded_attrs __init__].
    replace (get_not_None ∅ attr) with (@None value) by done.
    change (_decoded_attrs _) with (_decoded_attrs (__init__ cls m payload)).
    rewrite get_not_None___init__, Hmiss. cbn [__class__].
    rewrite bool_decide_eq_false_2, bool_decide_eq_true_2 by done.
    unfold refresh, Resource_refresh, internal_id. unfold_M. cbn [self calls __class__].
    destruct cls; try done; (eexists; split; [reflexivity|simpl; lia]).
  - set (r := __init__ cls m payload).
    set (w := {| self := r; calls := log |}).
    assert (Hint : internal_id (getattr py srv (S d)) w =
              ({| self := set_encoded_item "id" (VInt z) r; calls := log |}, Ok (VInt z))).
    { rewrite internal_id_getattr. cbn [self w r __init__ __class__].
      rewrite bool_decide_eq_false_2 by done.
      rewrite (getattr_decoded py srv _ "id" w (VInt z) eq_refl eq_refl).
      - cbn [self w r __init__ __class__ manager]. by rewrite encode_id.
      - change (self w) with (__init__ cls m payload).
        rewrite get_not_None___init__. unfold get_not_None. by rewrite Hid. }
    destruct (Hsrv log (VInt z) (scoped_params r {[ "include" := VStr attr ]}))
      as (fetched & z1 & Hget & Hmiss1 & Hid1).
    destruct (IH fetched z1
                (log ++ [CallGet m (VInt z) (scoped_params r {[ "include" := VStr attr ]})])
                Hmiss1 Hid1) as (w2 & Hinner & Hlen).
    rewrite getattr_S, include_read_base by done.
    unfold Resource___getattr__. rewrite Hp. unfold_M.
    change (get_not_None (_encoded_attrs (self w)) attr) with (@None value).
    change (self w) with (__init__ cls m payload).
    rewrite get_not_None___init__, Hmiss. cbn [__class__ __init__].
    rewrite bool_decide_eq_false_2, bool_decide_eq_true_2 by done.
    unfold refresh, Resource_refresh, manager_get. unfold_M. cbn [self calls w].
    fold r. fold w. rewrite Hint. cbn [self calls manager r __init__].
    fold r. rewrite Hget. unfold on_instance. cbn [self calls resource_class].
    fold cls. rewrite Hinner. cbn [self calls].
    eexists. split; [reflexivity|]. cbn [calls]. rewrite Hlen, length_app. simpl. lia.
Qed.

Lemma missing_include_is_never_resolved_witness :
  let srv := Fixture.serving (<["id" := VInt 1]> ∅) in
  ∃ w', getattr Fixture.py srv 5 "children" (Fixture.world_of Fixture.issue_1)
        = (w', Raise RecursionError) ∧
        length (calls w') = 4%nat.
Proof.
  intros srv.
  pose (payload := <["id" := VInt 1]> (<["project" := VDict [("id", VInt 1)]]> ∅) : kwargs).
  destruct (missing_include_is_never_resolved Fixture.py srv
              (Fixture.manager_of Issue Fixture.strict) "children"
              ltac:(compute_done) ltac:(compute_done) ltac:(discriminate)
              ltac:(intros; by exists (<["id" := VInt 1]> ∅), 1)
              5%nat payload 1 [] eq_refl eq_refl) as (w' & Hget & Hlen).
  exists w'. split; [exact Hget|exact Hlen].
Defined.

(** ** Printing an instance *)

Lemma append_assoc (a b c : string) : (a +:+ b) +:+ c = a +:+ b +:+ c.
Proof.
  induction a as [|x a IH]; [done|].
  change (String x ((a +:+ b) +:+ c) = String x (a +:+ b +:+ c)). by rewrite IH.
Qed.

Section Display.
Context (py : Python) (srv : Server).

(** The representation of an instance whose class displays [id] and one
    more attribute, when both resolve. *)
Lemma representation_id_and_name g n rest target w w1 w2 v z :
  Cls._repr (__class__ (self w)) = ["id"; n] :: rest →
  n ≠ "id" →
  getattr_default py g n VNone w = (w1, Ok v) →
  is_not_None v = true →
  getattr_default py g "id" VNone w1 = (w2, Ok (VInt z)) →
  _representation py g target w =
    (w2, Ok (if bool_decide (target = "str") then [v] else [VInt z; v])).
Proof.
  intros Hrepr Hn Hname Hv Hid. unfold _representation. unfold_M. cbn [self calls].
  rewrite Hrepr. cbn [representation_tuples reverse rev_append representation_attrs].
  unfold reverse. cbn [rev_append representation_attrs]. unfold_M.
  rewrite Hname, Hv. rewrite (bool_decide_eq_true_2 (n ≠ "id")) by done.
  rewrite Hid. cbn [is_not_None length Nat.ltb Nat.leb].
  rewrite (bool_decide_eq_false_2 ("id" ≠ "id")) by (by intros H; apply H).
  cbn. rewrite andb_false_r. by case_bool_decide.
Qed.

(** A read that answers is not turned into its default. *)
Lemma getattr_default_Ok g attr default w w' v :
  g attr w = (w', Ok v) → getattr_default py g attr default w = (w', Ok v).
Proof. unfold getattr_default. by intros ->. Qed.

(** An unconvertible attribute is returned as it is, by every class. *)
Lemma encode_unconvertible cls n v m :
  n ∈ Cls._unconvertible cls → encode py cls n v m = Ok (n, v).
Proof.
  intros Hn.
  assert (Hbase : Resource_encode py cls n v m = Ok (n, v)).
  { unfold Resource_encode. by rewrite bool_decide_eq_true_2. }
  destruct cls; try done; simpl.
  - rewrite bool_decide_eq_false_2; [done|]. intros ->. revert Hn. clear. set_solver.
  - rewrite bool_decide_eq_false_2; [done|]. intros ->. revert Hn. clear. set_solver.
  - rewrite bool_decide_eq_false_2; [done|]. intros ->. revert Hn. clear. set_solver.
Qed.

(** The reads of [id] and of the displayed attribute of a class that
    displays two go to [Resource.__getattr__]. *)
Lemma display_read_base g n rest attr w :
  Cls._repr (__class__ (self w)) = ["id"; n] :: rest →
  attr ∈ ["id"; n] →
  class___getattr__ py srv g attr w = Resource___getattr__ py srv g attr w.
Proof.
  intros Hrepr Hattr. apply class___getattr___base.
  destruct (__class__ (self w)); try exact I; cbn in Hrepr; simplify_eq;
    first [split; intros -> | intros Hin | intros ->]; exfalso; revert Hattr;
    try (revert Hin); clear; set_solver.
Qed.

Lemma display_not_structural c n rest :
  Cls._repr c = ["id"; n] :: rest → String.prefix "_" n = false ∧ n ≠ "id".
Proof. destruct c; cbn; intros H; by simplify_eq. Qed.

(** Reading the displayed attribute [n] and then [id], the decoded value of
    [n] being encoded to [e]. *)
Lemma display_reads depth n rest w z d e :
  let r := self w in
  let g := getattr py srv (S depth) in
  Cls._repr (__class__ r) = ["id"; n] :: rest →
  get_not_None (_encoded_attrs r) n = None →
  get_not_None (_encoded_attrs r) "id" = None →
  _decoded_attrs r !! "id" = Some (VInt z) →
  get_not_None (_decoded_attrs r) n = Some d →
  encode py (__class__ r) n d (manager r) = Ok (n, e) →
  ∃ w1 w2,
    getattr_default py g n VNone w = (w1, Ok e) ∧
    getattr_default py g "id" VNone w1 = (w2, Ok (VInt z)) ∧
    is_not_None e = true ∧
    calls w2 = calls w ∧ __class__ (self w2) = __class__ r.
Proof.
  intros r g Hrepr Hen Hei Hdi Hdn Henc.
  destruct (display_not_structural _ _ _ Hrepr) as [Hp Hne].
  assert (Hv : is_not_None e = true).
  { apply encode_not_None in Henc as [_ ?]; [done|].
    unfold get_not_None in Hdn. destruct (_ !! n); [|done].
    by destruct (is_not_None v) eqn:?; simplify_eq. }
  set (w1 := {| self := set_encoded_item n e r; calls := calls w |}).
  assert (H1 : g n w = (w1, Ok e)).
  { subst g. rewrite getattr_S, (display_read_base _ n rest) by (done || set_solver).
    rewrite (getattr_decoded py srv _ n w d Hp Hen Hdn). fold r. by rewrite Henc. }
  assert (H2 : g "id" w1 = ({| self := set_encoded_item "id" (VInt z) (self w1);
                              calls := calls w |}, Ok (VInt z))).
  { subst g. rewrite (getattr_id_decoded py srv depth w1 z); [done| |done].
    unfold get_not_None in *. simpl. by rewrite lookup_insert_ne. }
  eexists w1, _. split; [by apply getattr_default_Ok|].
  split; [by apply getattr_default_Ok|]. done.
Qed.

End Display.

(** X13. Printing a fetched instance.  For a class that displays [id] and one
    more attribute which it keeps unconverted ([subject] of an issue, [name]
    of a project, of a group, of a tracker and the like), an instance with
    an integer id and a string under that attribute prints as that string,
    and its representation is [<redmine.resources.Class #id "string">]; no
    call is made. *)
Theorem str_and_repr_of_instance (py : Python) (srv : Server) (depth : nat) (w : World)
    (n : string) (rest : list (list string)) (z : Z) (s : string) :
  let r := self w in
  let g := getattr py srv (S depth) in
  Cls._repr (__class__ r) = ["id"; n] :: rest →
  n ∈ Cls._unconvertible (__class__ r) →
  get_not_None (_encoded_attrs r) n = None →
  get_not_None (_encoded_attrs r) "id" = None →
  _decoded_attrs r !! "id" = Some (VInt z) →
  _decoded_attrs r !! n = Some (VStr s) →
  ∃ w',
    __str__ py g w = (w', Ok s) ∧
    __repr__ py g w =
      (w', Ok ("<redmine.resources." +:+ Cls.__name__ (__class__ r) +:+ " #"
               +:+ str py (VInt z) +:+ " " +:+ quote +:+ s +:+ quote +:+ ">")) ∧
    calls w' = calls w.
Proof.
  intros r g Hrepr Hun Hen Hei Hdi Hdn.
  destruct (display_not_structural _ _ _ Hrepr) as [_ Hne].
  destruct (display_reads py srv depth n rest w z (VStr s) (VStr s) Hrepr Hen Hei Hdi)
    as (w1 & w2 & H1 & H2 & Hv & Hcalls & Hcls).
  { unfold get_not_None. fold r. by rewrite Hdn. }
  { by apply encode_unconvertible. }
  fold g in H1, H2. exists w2. split; [|split; [|done]].
  - unfold __str__. unfold_M.
    by rewrite (representation_id_and_name py g n rest "str" w w1 w2 (VStr s) z).
  - unfold __repr__. unfold_M.
    rewrite (representation_id_and_name py g n rest "repr" w w1 w2 (VStr s) z) by done.
    rewrite (bool_decide_eq_false_2 ("repr" = "str")) by done. cbn [self].
    rewrite Hcls. cbn. by rewrite !append_assoc.
Qed.

Lemma str_and_repr_of_instance_witness :
  let issue :=
    __init__ Issue (Fixture.manager_of Issue Fixture.strict)
      (<["id" := VInt 1]> (<["subject" := VStr "Fix bug"]> ∅)) in
  let g := getattr Fixture.py Fixture.failing 1 in
  (__str__ Fixture.py g (Fixture.world_of issue)).2 = Ok "Fix bug" ∧
  (__repr__ Fixture.py g (Fixture.world_of issue)).2
  = Ok ("<redmine.resources.Issue #1 " +:+ quote +:+ "Fix bug" +:+ quote +:+ ">").
Proof.
  intros issue g.
  destruct (str_and_repr_of_instance Fixture.py Fixture.failing 0 (Fixture.world_of issue)
              "subject" [["id"]] 1 "Fix bug"
              eq_refl ltac:(compute_done) eq_refl eq_refl eq_refl eq_refl)
    as (w' & Hstr & Hrepr & _).
  subst g. rewrite Hstr, Hrepr. by split.
Defined.

(** X14. A displayed name that reads as a date.  [Version], [Attachment] and
    [News] display an attribute ([name], [filename], [title]) that they do
    not keep unconverted.  When its string parses as a date-time or as a
    date under the formats of the connection, a read of the attribute
    answers the date, and printing the instance, informally or officially,
    raises [TypeError], since the values to join are not all strings. *)
Theorem date_like_name_is_not_printed (py : Python) (srv : Server) (depth : nat)
    (w : World) (n : string) (rest : list (list string)) (z : Z) (s : string) (e : value) :
  let r := self w in
  let m := manager r in
  let g := getattr py srv (S depth) in
  __class__ r ∈ [Version; Attachment; News] →
  Cls._repr (__class__ r) = ["id"; n] :: rest →
  get_not_None (_encoded_attrs r) n = None →
  get_not_None (_encoded_attrs r) "id" = None →
  _decoded_attrs r !! "id" = Some (VInt z) →
  _decoded_attrs r !! n = Some (VStr s) →
  match strptime py s (datetime_format (redmine m)) with
  | Some dt => Some (VDateTime dt)
  | None => VDate ∘ dt_date <$> strptime py s (date_format (redmine m))
  end = Some e →
  (g n w).2 = Ok e ∧
  (__str__ py g w).2 = Raise TypeError ∧
  (__repr__ py g w).2 = Raise TypeError.
Proof.
  intros r m g Hc Hrepr Hen Hei Hdi Hdn Hconv.
  destruct (display_not_structural _ _ _ Hrepr) as [_ Hne].
  assert (Henc : encode py (__class__ r) n (VStr s) m = Ok (n, e)).
  { fold r in Hc.
    repeat (apply elem_of_cons in Hc as [Hc|Hc]); [..|by apply elem_of_nil in Hc];
      rewrite Hc in *; cbn in Hrepr; simplify_eq; unfold encode, Resource_encode;
      simpl; fold m;
      (destruct (strptime py s (datetime_format (redmine m))) as [dt|]; simpl in *;
       [by simplify_eq|]);
      destruct (strptime py s (date_format (redmine m))) as [dt|]; simpl in *;
      by simplify_eq. }
  assert (He : match e with VDate _ | VDateTime _ => True | _ => False end).
  { destruct (strptime py s (datetime_format (redmine m))); [by simplify_eq|].
    destruct (strptime py s (date_format (redmine m))); simpl in *; by simplify_eq. }
  destruct (display_reads py srv depth n rest w z (VStr s) e Hrepr Hen Hei Hdi)
    as (w1 & w2 & H1 & H2 & Hv & Hcalls & Hcls); [|done|].
  { unfold get_not_None. fold r. by rewrite Hdn. }
  fold g in H1, H2. split; [|split].
  - unfold getattr_default in H1. destruct (g n w) as [w0 [v|x]]; [by simplify_eq|].
    destruct (is_AttributeError py x); by simplify_eq.
  - unfold __str__. unfold_M.
    rewrite (representation_id_and_name py g n rest "str" w w1 w2 e z) by done.
    rewrite bool_decide_eq_true_2 by done. by destruct e.
  - unfold __repr__. unfold_M.
    rewrite (representation_id_and_name py g n rest "repr" w w1 w2 e z) by done.
    rewrite (bool_decide_eq_false_2 ("repr" = "str")) by done. cbn [self].
    by destruct e.
Qed.

Lemma date_like_name_is_not_printed_witness :
  let version :=
    __init__ Version (Fixture.manager_of Version Fixture.strict)
      (<["id" := VInt 3]> (<["name" := VStr "2014-06-01"]> ∅)) in
  let g := getattr Fixture.py Fixture.failing 1 in
  (g "name" (Fixture.world_of version)).2 = Ok (VDate (Date 2014 6 1)) ∧
  (__str__ Fixture.py g (Fixture.world_of version)).2 = Raise TypeError.
Proof.
  intros version g.
  destruct (date_like_name_is_not_printed Fixture.py Fixture.failing 0
              (Fixture.world_of version) "name" [] 3 "2014-06-01" (VDate (Date 2014 6 1))
              ltac:(compute_done) eq_refl eq_refl eq_refl eq_refl eq_refl eq_refl)
    as (Hname & Hstr & _).
  by split.
Defined.

(** ** Links *)

Section Replace.

Lemma replace_from_dotless a s :
  dot ∉ String.list_ascii_of_string a →
  replace_from 0 ".json" "" (a +:+ s) = a +:+ replace_from 0 ".json" "" s.
Proof.
  induction a as [|x a IH]; intros Hdot; [done|].
  change (String x a +:+ s) with (String x (a +:+ s)).
  cbn [replace_from String.prefix].
  destruct (Ascii.ascii_dec _ x) as [E|_].
  { exfalso. apply Hdot. rewrite <- E. apply list_elem_of_here. }
  change (String x a +:+ replace_from 0 ".json" "" s)
    with (String x (a +:+ replace_from 0 ".json" "" s)).
  f_equal. apply IH. intros H. apply Hdot. by apply list_elem_of_further.
Qed.

Lemma replace_from_json s :
  replace_from 0 ".json" "" (".json" +:+ s) = replace_from 0 ".json" "" s.
Proof. by destruct s. Qed.

(** A text without a dot followed by [.json] loses the latter. *)
Lemma replace_json_suffix a :
  dot ∉ String.list_ascii_of_string a → replace ".json" "" (a +:+ ".json") = a.
Proof.
  intros H. unfold replace. rewrite replace_from_dotless by done.
  change (replace_from 0 ".json" "" ".json") with EmptyString.
  induction a as [|x a IH]; [done|].
  change (String x a +:+ "") with (String x (a +:+ "")). f_equal. apply IH.
  intros Hin. apply H. by apply list_elem_of_further.
Qed.

End Replace.

Section LinkOf.
Context (py : Python) (redmine_url : Redmine → string).

(** The path of one resource, the identity filled in. *)
Lemma query_one_format_identity c id :
  c ∈ [Project; Issue; TimeEntry; Attachment; ProjectMembership; IssueCategory;
       IssueRelation; Version; User; Group; Role] →
  query_one c = Some (path_prefix c +:+ "{0}.json") ∧
  query_one_format py c [id] ∅ = Ok (path_prefix c +:+ format_value py id +:+ ".json") ∧
  dot ∉ String.list_ascii_of_string (path_prefix c).
Proof.
  intros H.
  assert (Hdot : ∀ p, bool_decide (dot ∈ String.list_ascii_of_string p) = false →
                      dot ∉ String.list_ascii_of_string p).
  { intros p Hp. by apply bool_decide_eq_false in Hp. }
  repeat (apply elem_of_cons in H as [->|H]); [..|by apply elem_of_nil in H];
    (split; [reflexivity|]);
    (split; [vm_compute; reflexivity|apply Hdot; vm_compute; reflexivity]).
Qed.

Lemma dotless_app a b :
  dot ∉ String.list_ascii_of_string a → dot ∉ String.list_ascii_of_string b →
  dot ∉ String.list_ascii_of_string (a +:+ b).
Proof.
  intros Ha Hb. induction a as [|x a IH]; [done|].
  change (String x a +:+ b) with (String x (a +:+ b)). cbn.
  intros [E|Hin]%elem_of_cons.
  - apply Ha. rewrite E. apply list_elem_of_here.
  - apply IH; [|done]. intros H. apply Ha. by apply list_elem_of_further.
Qed.

End LinkOf.

Lemma append_nil_r (a : string) : a +:+ "" = a.
Proof.
  induction a as [|x a IH]; [done|].
  change (String x (a +:+ "") = String x a). by rewrite IH.
Qed.

(** X15. The link of a resource.  For the classes that have a path of their own
    for one resource, [url] is the address of the server followed by that
    path with the identity of the instance in it (the [identifier] of a
    project, the [id] otherwise) and without its [.json] ending, provided
    the text of the identity has no dot, as that of an integer. *)
Theorem url_of_resource (py : Python) (redmine_url : Redmine → string)
    (g : string → M value) (w w1 : World) (id : value) :
  let r := self w in
  let cls := __class__ r in
  cls ∈ [Project; Issue; TimeEntry; Attachment; ProjectMembership; IssueCategory;
         IssueRelation; Version; User; Group; Role] →
  (if bool_decide (cls = Project) then g "identifier" w else internal_id g w)
  = (w1, Ok id) →
  dot ∉ String.list_ascii_of_string (format_value py id) →
  query_one cls = Some (path_prefix cls +:+ "{0}.json") ∧
  url py redmine_url g w =
    (w1, Ok (VStr (redmine_url (redmine (manager r)) +:+ path_prefix cls
                   +:+ format_value py id))).
Proof.
  intros r cls Hc Hid Hdot.
  destruct (query_one_format_identity py cls id Hc) as (Hq & Hf & Hp).
  split; [done|]. set (prefix := path_prefix cls) in *.
  assert (Hpath : replace ".json" "" (prefix +:+ format_value py id +:+ ".json")
                  = prefix +:+ format_value py id).
  { rewrite <- append_assoc. apply replace_json_suffix. by apply dotless_app. }
  unfold url. unfold_M. cbn [self calls]. fold r cls.
  destruct (decide (cls = Project)) as [E|Hne].
  - rewrite E in *. rewrite bool_decide_eq_true_2 in Hid by done.
    rewrite Hid, Hf, Hpath.
    replace (format py "{0}{1}"
               [VStr (redmine_url (redmine (manager r)));
                VStr (prefix +:+ format_value py id)] ∅)
      with (Ok (redmine_url (redmine (manager r))
                +:+ (prefix +:+ format_value py id) +:+ "") : Res string)
      by (vm_compute; reflexivity).
    by rewrite append_nil_r.
  - rewrite bool_decide_eq_false_2 in Hid by done.
    assert (Hbase : url py redmine_url g w = Resource_url py redmine_url g w).
    { unfold url. unfold_M. cbn [self calls]. fold r cls.
      revert Hc Hne. generalize cls. clear. intros cls Hc Hne.
      repeat (apply elem_of_cons in Hc as [->|Hc]); try done.
      by apply elem_of_nil in Hc. }
    unfold url in Hbase. unfold_M. cbn [self calls] in Hbase. fold r cls in Hbase.
    rewrite Hbase.
    unfold Resource_url. unfold_M. cbn [self calls]. fold r cls.
    rewrite Hq, Hid, Hf. by rewrite Hpath.
Qed.

Lemma url_of_resource_witness :
  ∃ w1, url Fixture.py (fun _ => "http://redmine") (getattr Fixture.py Fixture.failing 1)
          (Fixture.world_of Fixture.issue_1)
        = (w1, Ok (VStr "http://redmine/issues/1")).
Proof.
  destruct (url_of_resource Fixture.py (fun _ => "http://redmine")
              (getattr Fixture.py Fixture.failing 1) (Fixture.world_of Fixture.issue_1)
              (internal_id (getattr Fixture.py Fixture.failing 1)
                 (Fixture.world_of Fixture.issue_1)).1 (VInt 1)
              ltac:(compute_done) eq_refl ltac:(compute_done))
    as (_ & Hurl).
  eexists. exact Hurl.
Defined.

(** X16. The link of a wiki page.  Its [url] is the address of the server
    followed by [/projects/<project>/wiki/<title>], the project being the
    [project_id] of the manager's scope ([0] without one).  Every [.json] of
    the path is dropped, not only the ending of the template: a title that
    holds [.json] loses it in the link, so that the pages titled [a.jsonb]
    and [ab] get the same link. *)
Theorem url_of_wiki_page (py : Python) (redmine_url : Redmine → string)
    (g : string → M value) (w w1 : World) (title : string) :
  let r := self w in
  let m := manager r in
  __class__ r = WikiPage →
  internal_id g w = (w1, Ok (VStr title)) →
  let project := format_value py (default (VInt 0) (params m !! "project_id")) in
  dot ∉ String.list_ascii_of_string project →
  let link t :=
    VStr (redmine_url (redmine m) +:+ "/projects/" +:+ project +:+ "/wiki/" +:+ t) in
  (dot ∉ String.list_ascii_of_string title →
   url py redmine_url g w = (w1, Ok (link title))) ∧
  (∀ a b, title = a +:+ ".json" +:+ b →
     dot ∉ String.list_ascii_of_string a → dot ∉ String.list_ascii_of_string b →
     url py redmine_url g w = (w1, Ok (link (a +:+ b)))).
Proof.
  intros r m Hc Hid project Hproject link.
  assert (Hf : query_one_format py WikiPage [VStr title]
                 {[ "project_id" := default (VInt 0) (params m !! "project_id") ]}
               = Ok ("/projects/" +:+ project +:+ "/wiki/" +:+ title +:+ ".json")).
  { subst project. generalize (default (VInt 0) (params m !! "project_id")).
    intros p. vm_compute. reflexivity. }
  assert (Hurl : ∀ t,
    replace ".json" "" ("/projects/" +:+ project +:+ "/wiki/" +:+ title +:+ ".json")
    = "/projects/" +:+ project +:+ "/wiki/" +:+ t →
    url py redmine_url g w = (w1, Ok (link t))).
  { intros t Ht. unfold url. unfold_M. cbn [self calls]. fold r m. rewrite Hc, Hid, Hf.
    by rewrite Ht. }
  assert (Hhead : ∀ s,
    replace ".json" "" ("/projects/" +:+ project +:+ "/wiki/" +:+ s)
    = "/projects/" +:+ project +:+ "/wiki/" +:+ replace ".json" "" s).
  { intros s. unfold replace.
    rewrite (replace_from_dotless "/projects/") by compute_done.
    rewrite (replace_from_dotless project) by done.
    by rewrite (replace_from_dotless "/wiki/") by compute_done. }
  split.
  - intros Htitle. apply Hurl. rewrite Hhead. by rewrite replace_json_suffix.
  - intros a b -> Ha Hb. apply Hurl. rewrite Hhead. unfold replace.
    rewrite append_assoc, (replace_from_dotless a) by done.
    rewrite append_assoc, replace_from_json.
    fold (replace ".json" "" (b +:+ ".json")). by rewrite replace_json_suffix.
Qed.

Lemma url_of_wiki_page_witness :
  let page :=
    __init__ WikiPage
      {| resource_class := WikiPage; params := {[ "project_id" := VStr "docs" ]};
         redmine := Fixture.strict |}
      {[ "title" := VStr "notes.json" ]} in
  ∃ w1, url Fixture.py (fun _ => "http://redmine") (getattr Fixture.py Fixture.failing 1)
          (Fixture.world_of page)
        = (w1, Ok (VStr "http://redmine/projects/docs/wiki/notes")).
Proof.
  intros page.
  destruct (url_of_wiki_page Fixture.py (fun _ => "http://redmine")
              (getattr Fixture.py Fixture.failing 1) (Fixture.world_of page)
              (internal_id (getattr Fixture.py Fixture.failing 1) (Fixture.world_of page)).1
              "notes.json" eq_refl eq_refl ltac:(compute_done)) as [_ Hjson].
  eexists. apply (Hjson "notes" ""); [reflexivity|compute_done..].
Defined.

(** X17. The links of the other classes.  [Enumeration], [News], [IssueStatus],
    [Tracker], [Query] and [CustomField] build their link from a template of
    their own around the identity, which is taken as it is; a query is
    linked within the project its [decoded] names, [0] without one.  A
    class that has neither a path for one resource nor a link of its own
    has the link [None], and its identity is not even resolved. *)
Theorem url_of_listed_resource (py : Python) (redmine_url : Redmine → string)
    (g : string → M value) (w : World) :
  let r := self w in
  let cls := __class__ r in
  let base := redmine_url (redmine (manager r)) in
  let project := format_value py (default (VInt 0) (_decoded_attrs r !! "project_id")) in
  (cls ∈ [Resource; IssueJournal] → url py redmine_url g w = (w, Ok VNone)) ∧
  (∀ w1 id, internal_id g w = (w1, Ok id) →
     let text := format_value py id in
     ∀ path,
       match cls with
       | Enumeration => path = "/enumerations/" +:+ text +:+ "/edit"
       | News => path = "/news/" +:+ text
       | IssueStatus => path = "/issue_statuses/" +:+ text +:+ "/edit"
       | Tracker => path = "/trackers/" +:+ text +:+ "/edit"
       | Query => path = "/projects/" +:+ project +:+ "/issues?query_id=" +:+ text
       | CustomField => path = "/custom_fields/" +:+ text +:+ "/edit"
       | _ => False
       end →
       url py redmine_url g w = (w1, Ok (VStr (base +:+ path)))).
Proof.
  intros r cls base project. split.
  - intros Hc. unfold url, Resource_url. unfold_M. cbn [self calls].
    unfold cls, r in Hc.
    repeat (apply elem_of_cons in Hc as [Hc|Hc]); [..|by apply elem_of_nil in Hc];
      by rewrite !Hc.
  - intros w1 id Hid text path Hpath. unfold url. unfold_M. cbn [self calls].
    fold r cls base. subst text project.
    destruct cls; try done; rewrite Hid, Hpath;
      match goal with
      | |- context [format py ?t ?args ∅] =>
          let H := fresh in
          assert (H : format py t args ∅ = Ok (base +:+ path));
            [rewrite Hpath; generalize base; intros b;
             generalize (_decoded_attrs r !! "project_id"); intros p;
             first [ vm_compute; reflexivity
                   | rewrite <- (append_nil_r (format_value py id)); vm_compute;
                     reflexivity ]|];
          rewrite Hpath in H; rewrite H
      end; reflexivity.
Qed.

Lemma url_of_listed_resource_witness :
  let tracker :=
    __init__ Tracker (Fixture.manager_of Tracker Fixture.strict) {[ "id" := VInt 2 ]} in
  ∃ w1, url Fixture.py (fun _ => "http://redmine") (getattr Fixture.py Fixture.failing 1)
          (Fixture.world_of tracker)
        = (w1, Ok (VStr "http://redmine/trackers/2/edit")).
Proof.
  intros tracker.
  destruct (url_of_listed_resource Fixture.py (fun _ => "http://redmine")
              (getattr Fixture.py Fixture.failing 1) (Fixture.world_of tracker))
    as [_ Hurl].
  eexists.
  apply (Hurl (internal_id (getattr Fixture.py Fixture.failing 1)
                 (Fixture.world_of tracker)).1 (VInt 2) eq_refl "/trackers/2/edit").
  reflexivity.
Defined.

(** ** The text of a wiki page *)

(** X18. The text of a wiki page is fetched once.  On a wiki page whose
    [decoded] has no [text] entry, the first read of [text] fetches the page
    anew, by one [get] under its title and within the project of its
    manager, stores the text of the payload in [decoded] and in the cache
    and returns it; the second read makes no call. *)
Theorem wiki_text_fetched_once (py : Python) (srv : Server) (depth : nat)
    (w w1 : World) (title : value) (payload : kwargs) (text : value) :
  let r := self w in
  let m := manager r in
  __class__ r = WikiPage →
  resource_class m = WikiPage →
  _decoded_attrs r !! "text" = None →
  get_not_None (_encoded_attrs r) "text" = None →
  internal_id (getattr py srv (S depth)) w = (w1, Ok title) →
  let ps : kwargs := <["project_id" := default (VInt 0) (params m !! "project_id")]> ∅ in
  serve_get srv (calls w) m title ps = Ok payload →
  payload !! "text" = Some text →
  is_not_None text = true →
  ∃ w', getattr py srv (S (S depth)) "text" w = (w', Ok text) ∧
        calls w' = calls w ++ [CallGet m title ps] ∧
        _decoded_attrs (self w') = <["text" := text]> (_decoded_attrs r) ∧
        ∀ depth', getattr py srv (S depth') "text" w' = (w', Ok text).
Proof.
  intros r m Hc Hrc Hd He Hid ps Hget Htext Hnn.
  destruct (internal_id_frame py srv (S depth) w w1 (Ok title) Hid)
    as (Hcalls & (Hcls & Hm & _) & Hdec & _ & _ & Henc).
  assert (Hps : scoped_params r ∅ = ps).
  { unfold scoped_params. fold r. by rewrite Hc. }
  rewrite <- Hcalls in Hget.
  pose proof (refresh_not_itself srv (getattr py srv (S depth)) ∅ w w1 title payload Hid)
    as Hrefresh.
  cbv zeta in Hrefresh. fold r m in Hrefresh. rewrite Hps in Hrefresh.
  specialize (Hrefresh Hget).
  set (fetched := {| self := __init__ (resource_class m) m payload;
                     calls := calls w1 ++ [CallGet m title ps] |}).
  assert (Hunconv : ∀ mm, encode py WikiPage "text" text mm = Ok ("text", text)).
  { intros mm. apply encode_unconvertible. compute_done. }
  assert (Hinner : getattr py srv (S depth) "text" fetched =
            ({| self := set_encoded_item "text" text (self fetched);
                calls := calls fetched |}, Ok text)).
  { rewrite getattr_S, class___getattr___base.
    - rewrite (getattr_decoded py srv _ "text" fetched text eq_refl eq_refl).
      + cbn [self fetched __init__ __class__ manager]. by rewrite Hrc, Hunconv.
      + unfold fetched. cbn [self]. rewrite get_not_None___init__.
        unfold get_not_None. by rewrite Htext, Hnn.
    - cbn [self fetched __init__ __class__ _decoded_attrs]. rewrite Hrc. intros _.
      exists text. by apply lookup_union_Some_l. }
  set (r2 := set_decoded_item "text" text (self w1)).
  set (w2 := {| self := r2; calls := calls fetched |}).
  assert (Hbase : Resource___getattr__ py srv (getattr py srv (S depth)) "text" w2 =
            ({| self := set_encoded_item "text" text r2; calls := calls fetched |},
             Ok text)).
  { rewrite (getattr_decoded py srv _ "text" w2 text eq_refl).
    - cbn [self w2 r2 set_decoded_item with_decoded __class__ manager].
      rewrite Hcls, Hm. fold r m. by rewrite Hc, Hunconv.
    - unfold get_not_None in *. cbn [self w2 r2 set_decoded_item with_decoded _encoded_attrs].
      rewrite Henc; [done|]. compute_done.
    - unfold get_not_None. cbn [self w2 r2 set_decoded_item with_decoded _decoded_attrs].
      by rewrite lookup_insert_eq, Hnn. }
  exists {| self := set_encoded_item "text" text r2; calls := calls fetched |}.
  split; [|split; [|split]].
  - rewrite getattr_S. unfold class___getattr__. unfold_M. cbn [self calls].
    fold r. rewrite Hc. rewrite bool_decide_eq_true_2 by done.
    rewrite Hd. rewrite (bool_decide_eq_false_2 (is_Some None)) by (by intros [? ?]).
    cbn [negb andb]. fold r in Hrefresh. unfold_M. rewrite Hrefresh.
    unfold on_instance. cbn [self calls]. fold fetched. 
    replace ({| self := __init__ (resource_class m) m payload;
                calls := calls w1 ++ [CallGet m title ps] |}) with fetched by done.
    rewrite Hinner. cbn [self calls]. fold r2. fold w2. apply Hbase.
  - cbn. by rewrite Hcalls.
  - cbn. by rewrite Hdec.
  - intros depth'. rewrite getattr_S, class___getattr___base.
    + apply getattr_cached; [done|]. unfold get_not_None. simpl.
      by rewrite lookup_insert_eq, Hnn.
    + cbn [self set_encoded_item with_encoded r2 set_decoded_item with_decoded __class__
           _decoded_attrs]. rewrite Hcls. fold r. rewrite Hc. intros _.
      rewrite lookup_insert_eq. by eexists.
Qed.

Lemma wiki_text_fetched_once_witness :
  let m := Fixture.manager_of WikiPage Fixture.strict in
  let page := __init__ WikiPage m {[ "title" := VStr "Home" ]} in
  let payload : kwargs := <["title" := VStr "Home"]> (<["text" := VStr "Welcome"]> ∅) in
  let srv := Fixture.serving payload in
  ∃ w', getattr Fixture.py srv 2 "text" (Fixture.world_of page) = (w', Ok (VStr "Welcome")) ∧
        calls w' = [CallGet m (VStr "Home") {[ "project_id" := VInt 0 ]}] ∧
        getattr Fixture.py srv 2 "text" w' = (w', Ok (VStr "Welcome")).
Proof.
  intros m page payload srv.
  destruct (wiki_text_fetched_once Fixture.py srv 0 (Fixture.world_of page)
              (internal_id (getattr Fixture.py srv 1) (Fixture.world_of page)).1
              (VStr "Home") payload (VStr "Welcome")
              eq_refl eq_refl eq_refl eq_refl eq_refl eq_refl eq_refl eq_refl)
    as (w' & Hget & Hcalls & _ & Hagain).
  exists w'. split; [exact Hget|]. split; [exact Hcalls|]. apply (Hagain 1%nat).
Defined.

(** ** The codec overrides and the bulk codec *)

Section CodecOverrides.
Context (py : Python).

(** [dict(pairs)] of pairs whose names are pairwise distinct is the pairs. *)
Lemma dict_of_pairs_NoDup (ps : list (string * value)) :
  NoDup ps.*1 → dict_of_pairs ps = ps.
Proof.
  unfold dict_of_pairs.
  assert (H : ∀ acc, NoDup (acc.*1 ++ ps.*1) →
                     foldl (fun d p => assoc_set d p.1 p.2) acc ps = acc ++ ps).
  { induction ps as [|[k v] ps IH]; intros acc Hnd; simpl.
    - by rewrite app_nil_r.
    - assert (Hset : assoc_set acc k v = acc ++ [(k, v)]).
      { apply NoDup_app in Hnd as (_ & Hdisj & _).
        assert (Hk : k ∉ acc.*1).
        { intros Hin. apply (Hdisj k Hin). simpl. apply list_elem_of_here. }
        clear -Hk. induction acc as [|[k' v'] acc IH]; simpl; [done|].
        rewrite bool_decide_eq_false_2.
        - f_equal. apply IH. intros Hin. apply Hk. simpl. by apply list_elem_of_further.
        - intros ->. apply Hk. simpl. apply list_elem_of_here. }
      rewrite Hset. rewrite IH.
      + by rewrite <- app_assoc.
      + rewrite fmap_app. simpl. by rewrite <- app_assoc. }
  intros Hnd. by apply (H []).
Qed.

End CodecOverrides.

(** X19. The modules of a project.  [enabled_modules] of a project is read as the
    list of the names of the modules: when every module of the payload is a
    mapping with a [name], [Project.encode] answers these names in order;
    when the value is not a list of such mappings it raises what the first
    offending element raises, [TypeError] for a module that is no mapping
    and [KeyError] for a mapping without a [name]. *)
Theorem enabled_modules_are_names (py : Python) (m : Manager) (modules : list value) :
  (∀ names,
     Forall2 (fun module n => ∃ d, module = VDict d ∧ assoc_get d "name" = Some n)
       modules names →
     encode py Project "enabled_modules" (VList modules) m
     = Ok ("enabled_modules", VList names)) ∧
  (∀ good bad rest,
     modules = good ++ bad :: rest →
     Forall (fun module => ∃ d n, module = VDict d ∧ assoc_get d "name" = Some n) good →
     match bad with VDict d => assoc_get d "name" = None | _ => True end →
     encode py Project "enabled_modules" (VList modules) m
     = Raise (match bad with VDict _ => KeyError | _ => TypeError end)).
Proof.
  assert (Henc : ∀ l, encode py Project "enabled_modules" (VList l) m =
                      names ← mapM (fun module => getitem module "name") l;
                      Ok ("enabled_modules", VList names)) by done.
  split.
  - intros names H. rewrite Henc.
    assert (Hm : mapM (fun module => getitem module "name") modules = Ok names).
    { induction H as [|module n modules names (d & -> & Hn) _ IH]; [done|].
      cbn [mapM]. simpl. rewrite Hn. simpl. by rewrite IH. }
    by rewrite Hm.
  - intros good bad rest -> Hgood.
    assert (Hgoodm : ∃ names, mapM (fun module => getitem module "name") good = Ok names).
    { induction Hgood as [|module good (d & n & -> & Hn) _ [names IH]]; [by eexists|].
      cbn [mapM]. simpl. rewrite Hn. simpl. rewrite IH. by eexists. }
    destruct Hgoodm as [names Hnames].
    assert (Happ : ∀ tail,
      mapM (fun module => getitem module "name") (good ++ tail) =
      tail_names ← mapM (fun module => getitem module "name") tail; Ok (names ++ tail_names)).
    { intros tail. clear Hgood. revert names Hnames.
      induction good as [|module good IH]; intros names Hnames.
      - injection Hnames as <-. simpl. by destruct (mapM _ tail).
      - cbn [mapM app] in *.
        destruct (getitem module "name") as [n|e]; [|done]. simpl in *.
        destruct (mapM _ good) as [ns|e] eqn:Hg; [|done]. simpl in Hnames.
        injection Hnames as <-. rewrite (IH ns eq_refl).
        by destruct (mapM _ tail). }
    intros Hbad. rewrite Henc, Happ. cbn [mapM].
    destruct bad; try done. simpl. by rewrite Hbad.
Qed.

(** The trackers of a custom field.  [CustomField.encode] reads [trackers]
    as a collection of trackers: a list (that does not hold the string
    [tracker]) is wrapped as it is, and the mapping [{tracker: t}] that
    older servers answer is wrapped as the list of the one tracker [t]. *)
Lemma trackers_of_custom_field (py : Python) (m : Manager) :
  (∀ l, VStr "tracker" ∉ l →
     encode py CustomField "trackers" (VList l) m
     = Ok ("trackers", VResourceSet Tracker ∅ (VList l))) ∧
  (∀ d t, assoc_get d "tracker" = Some t →
     encode py CustomField "trackers" (VDict d) m
     = Ok ("trackers", VResourceSet Tracker ∅ (VList [t]))) ∧
  (∀ d, assoc_get d "tracker" = None →
     encode py CustomField "trackers" (VDict d) m
     = Ok ("trackers", VResourceSet Tracker ∅ (VDict d))).
Proof.
  split; [|split].
  - intros l Hl. simpl.
    assert (Hex : existsb (key_eqb (VStr "tracker")) l = false).
    { apply not_true_iff_false. intros (x & Hin & Hx)%existsb_exists.
      apply Hl. apply list_elem_of_In in Hin.
      destruct x; simpl in Hx; try done. by apply bool_decide_eq_true in Hx as <-. }
    by rewrite Hex.
  - intros d t Ht. simpl. rewrite Ht. by rewrite bool_decide_eq_true_2 by (by eexists).
  - intros d Ht. simpl. rewrite Ht.
    by rewrite bool_decide_eq_false_2 by (by intros [? ?]).
Qed.


(** ** Writing the same custom fields again *)

Lemma key_eqb_equiv_r a b c : key_eqb b c = true → key_eqb a b = key_eqb a c.
Proof.
  intros Hbc. destruct (key_eqb a b) eqn:Hab.
  - symmetry. by eapply key_eqb_trans.
  - symmetry. apply not_true_iff_false. intros Hac.
    rewrite key_eqb_sym in Hbc. by rewrite (key_eqb_trans _ _ _ Hac Hbc) in Hab.
Qed.

Lemma key_eqb_refl_l a b : key_eqb a b = true → key_eqb a a = true.
Proof. intros H. eapply key_eqb_trans; [done|]. by rewrite key_eqb_sym. Qed.

Lemma ids_get_equiv new a b : key_eqb a b = true → ids_get new a = ids_get new b.
Proof.
  intros Hab. induction new as [|[k v] new IH]; simpl; [done|].
  by rewrite (key_eqb_equiv_r k a b Hab), IH.
Qed.

Lemma ids_get_Some_elem new id v :
  ids_get new id = Some v → ∃ k, (k, v) ∈ new ∧ key_eqb k id = true.
Proof.
  induction new as [|[k v'] new IH]; simpl; [done|].
  destruct (key_eqb k id) eqn:Hk.
  - intros [= ->]. exists k. split; [apply list_elem_of_here|done].
  - intros H. destruct (IH H) as (k' & Hin & Hk'). exists k'.
    split; [by apply list_elem_of_further|done].
Qed.

Lemma ids_get_elem new k v :
  distinct_keys new.*1 → (k, v) ∈ new → key_eqb k k = true → ids_get new k = Some v.
Proof.
  induction new as [|[k' v'] new IH]; simpl.
  { intros _ H. by apply elem_of_nil in H. }
  intros [Hk' Hd] [[= -> ->]|Hin]%elem_of_cons Hkk.
  - by rewrite Hkk.
  - destruct (key_eqb k' k) eqn:E; [|by apply IH].
    rewrite Forall_forall in Hk'. rewrite (Hk' k) in E; [done|].
    apply list_elem_of_fmap. by exists (k, v).
Qed.

Lemma has_id_equiv a b f : key_eqb a b = true → has_id a f = has_id b f.
Proof.
  intros Hab. unfold has_id. destruct (field_id f) as [id|]; [|done].
  rewrite (key_eqb_sym a id), (key_eqb_sym b id). by apply key_eqb_equiv_r.
Qed.

(** The field that takes the place of a stored field has the id of the
    stored field. *)
Lemma has_id_replacement new seen f id :
  self_keyed new → has_id id (replacement new seen f) = has_id id f.
Proof.
  intros Hsk. unfold replacement.
  destruct (field_id f) as [id0|] eqn:Hf; [|done].
  destruct (existsb (has_id id0) seen); [done|].
  destruct (ids_get new id0) as [v|] eqn:Hv; [|done]. simpl.
  apply ids_get_Some_elem in Hv as (k & Hin & Hk).
  unfold self_keyed in Hsk. rewrite Forall_forall in Hsk.
  specialize (Hsk (k, v) Hin). simpl in Hsk.
  unfold has_id in *. rewrite Hf.
  destruct (field_id v) as [k'|]; [|done].
  apply key_eqb_equiv_r. rewrite key_eqb_sym in Hsk. by eapply key_eqb_trans.
Qed.

Lemma existsb_has_id_imap id (G : nat → value → value) l :
  (∀ j f, has_id id (G j f) = has_id id f) →
  existsb (has_id id) (imap G l) = existsb (has_id id) l.
Proof.
  revert G. induction l as [|f l IH]; intros G HG; [done|].
  rewrite imap_cons. simpl. rewrite HG. f_equal. apply IH. intros j g. apply HG.
Qed.

Lemma take_imap_replacement new stored i :
  take i (imap (fun j f => replacement new (take j stored) f) stored)
  = imap (fun j f => replacement new (take j stored) f) (take i stored).
Proof.
  apply list_eq. intros j. rewrite list_lookup_imap.
  destruct (decide (j < i)%nat) as [Hlt|Hge].
  - by rewrite !lookup_take_lt, list_lookup_imap by done.
  - by rewrite !lookup_take_ge by lia.
Qed.

Lemma imap_fixed {A} (G : nat → A → A) (l : list A) :
  (∀ i x, l !! i = Some x → G i x = x) → imap G l = l.
Proof.
  intros H. apply list_eq. intros i. rewrite list_lookup_imap.
  destruct (l !! i) as [x|] eqn:Hx; simpl; [|done]. by rewrite (H i x).
Qed.

Lemma filter_none {A} (P : A → bool) l :
  (∀ x, x ∈ l → P x = false) → List.filter P l = [].
Proof.
  induction l as [|x l IH]; simpl; [done|]. intros H.
  rewrite (H x) by apply list_elem_of_here.
  apply IH. intros y Hy. apply H. by apply list_elem_of_further.
Qed.

(** An incoming field whose key is its own id, found by that id. *)
Lemma self_keyed_elem new k v :
  self_keyed new → (k, v) ∈ new →
  ∃ k', field_id v = Some k' ∧ key_eqb k k' = true.
Proof.
  intros Hsk Hin. unfold self_keyed in Hsk. rewrite Forall_forall in Hsk.
  specialize (Hsk (k, v) Hin). simpl in Hsk. unfold has_id in Hsk.
  destruct (field_id v) as [k'|]; [|done]. by exists k'.
Qed.

Lemma replacement_incoming new seen k v :
  distinct_keys new.*1 → self_keyed new → (k, v) ∈ new →
  replacement new seen v = v.
Proof.
  intros Hd Hsk Hin. destruct (self_keyed_elem new k v Hsk Hin) as (k' & Hf & Hk).
  unfold replacement. rewrite Hf. destruct (existsb _ _); [done|].
  rewrite key_eqb_sym in Hk. rewrite (ids_get_equiv new k' k Hk).
  rewrite (ids_get_elem new k v Hd Hin); [done|].
  rewrite key_eqb_sym in Hk. by eapply key_eqb_refl_l.
Qed.

(** Merging the same incoming fields into the merged list changes nothing. *)
Lemma merged_fields_again new stored :
  distinct_keys new.*1 → self_keyed new →
  merged_fields new (merged_fields new stored) = merged_fields new stored.
Proof.
  intros Hd Hsk.
  set (R := imap (fun j f => replacement new (take j stored) f) stored).
  set (U := (unmatched stored new).*2).
  assert (HS : merged_fields new stored = R ++ U) by done.
  assert (Hlen : length R = length stored) by (unfold R; by rewrite length_imap).
  assert (Hseen : ∀ id l,
    existsb (has_id id) (imap (fun j f => replacement new (take j stored) f) l)
    = existsb (has_id id) l).
  { intros id l. apply existsb_has_id_imap. intros j f. by apply has_id_replacement. }
  assert (Hsub : ∀ kv, kv ∈ unmatched stored new → kv ∈ new).
  { intros kv Hin. unfold unmatched in Hin. apply list_elem_of_In in Hin.
    apply filter_In in Hin as [Hin _]. by apply list_elem_of_In. }
  (* no incoming field is left unmatched *)
  assert (Ha : unmatched (R ++ U) new = []).
  { unfold unmatched.
    assert (Hall : ∀ kv, kv ∈ new → existsb (has_id kv.1) (R ++ U) = true).
    { intros [k v] Hin. simpl. rewrite existsb_app. unfold R. rewrite Hseen.
      destruct (existsb (has_id k) stored) eqn:Hst; [done|]. simpl.
      apply existsb_exists. exists v. split.
      - apply list_elem_of_In. unfold U. apply list_elem_of_fmap. exists (k, v).
        split; [done|]. unfold unmatched. apply list_elem_of_In, filter_In.
        split; [by apply list_elem_of_In|]. simpl. by rewrite Hst.
      - unfold self_keyed in Hsk. rewrite Forall_forall in Hsk. by apply (Hsk (k, v)). }
    apply filter_none. intros kv Hin. by rewrite (Hall kv Hin). }
  (* every field of the merged list stays *)
  assert (Hb : ∀ i f, (R ++ U) !! i = Some f → replacement new (take i (R ++ U)) f = f).
  { intros i f Hi. destruct (decide (i < length R)%nat) as [Hlt|Hge].
    - rewrite lookup_app_l in Hi by done.
      rewrite take_app_le by lia.
      unfold R in Hi. rewrite list_lookup_imap in Hi.
      destruct (stored !! i) as [f0|] eqn:Hf0; [|done]. simpl in Hi.
      injection Hi as <-.
      unfold R. rewrite take_imap_replacement.
      set (seen := take i stored).
      destruct (field_id f0) as [id0|] eqn:Hid0.
      2:{ assert (Hf : replacement new seen f0 = f0)
            by (unfold replacement; by rewrite Hid0).
          rewrite Hf. unfold replacement. by rewrite Hid0. }
      destruct (existsb (has_id id0) seen) eqn:Hs.
      { assert (Hf : replacement new seen f0 = f0)
          by (unfold replacement; by rewrite Hid0, Hs).
        rewrite Hf. unfold replacement at 1. by rewrite Hid0, Hseen, Hs. }
      destruct (ids_get new id0) as [v|] eqn:Hv.
      + assert (Hf : replacement new seen f0 = v)
          by (unfold replacement; by rewrite Hid0, Hs, Hv).
        rewrite Hf. apply ids_get_Some_elem in Hv as (k & Hin & _).
        by eapply replacement_incoming.
      + assert (Hf : replacement new seen f0 = f0)
          by (unfold replacement; by rewrite Hid0, Hs, Hv).
        rewrite Hf. unfold replacement at 1. by rewrite Hid0, Hseen, Hs, Hv.
    - rewrite lookup_app_r in Hi by lia.
      unfold U in Hi. rewrite list_lookup_fmap in Hi.
      destruct (unmatched stored new !! (i - length R)%nat) as [[k v]|] eqn:Hkv; [|done].
      simpl in Hi. injection Hi as <-.
      apply (replacement_incoming new _ k v Hd Hsk).
      apply Hsub. by eapply list_elem_of_lookup_2. }
  rewrite HS. unfold merged_fields at 1. rewrite Ha. simpl. rewrite app_nil_r.
  by apply imap_fixed.
Qed.

Lemma assoc_get_snoc d k' v' k :
  assoc_get (d ++ [(k', v')]) k =
    match assoc_get d k with
    | Some v => Some v
    | None => if bool_decide (k' = k) then Some v' else None
    end.
Proof.
  induction d as [|[k0 v0] d IH]; simpl; [done|].
  destruct (bool_decide (k0 = k)); [done|apply IH].
Qed.

Lemma assoc_get_set d k' v' k :
  assoc_get (assoc_set d k' v') k =
    if bool_decide (k' = k) then Some v' else assoc_get d k.
Proof.
  induction d as [|[k0 v0] d IH]; simpl; [done|].
  destruct (decide (k0 = k')) as [->|Hne].
  - rewrite (bool_decide_eq_true_2 (k' = k')) by done. simpl. by case_bool_decide.
  - rewrite (bool_decide_eq_false_2 (k0 = k')) by done. simpl. rewrite IH.
    repeat case_bool_decide; by simplify_eq.
Qed.

Lemma assoc_get_None d k : assoc_get d k = None ↔ k ∉ d.*1.
Proof.
  induction d as [|[k0 v0] d IH]; simpl.
  - split; [|done]. intros _ H. by apply elem_of_nil in H.
  - case_bool_decide as Hk.
    + split; [done|]. intros H. exfalso. apply H. rewrite Hk. apply list_elem_of_here.
    + rewrite IH. split.
      * intros H [E|Hin]%elem_of_cons; [by subst|done].
      * intros H Hin. apply H. by apply list_elem_of_further.
Qed.

(** What [dict(pairs)] holds under a name is the value of the last pair of
    that name. *)
Lemma assoc_get_dict_of_pairs ps k :
  assoc_get (dict_of_pairs ps) k = assoc_get (reverse ps) k.
Proof.
  unfold dict_of_pairs.
  assert (H : ∀ acc,
    assoc_get (foldl (fun d p => assoc_set d p.1 p.2) acc ps) k =
      match assoc_get (reverse ps) k with
      | Some v => Some v
      | None => assoc_get acc k
      end).
  { induction ps as [|[k' v'] ps IH]; intros acc; simpl; [done|].
    rewrite IH, reverse_cons, assoc_get_snoc, assoc_get_set.
    destruct (assoc_get (reverse ps) k); [done|]. by destruct (bool_decide (k' = k)). }
  rewrite H. by destruct (assoc_get (reverse ps) k).
Qed.

Lemma assoc_get_reverse_NoDup d k : NoDup d.*1 → assoc_get (reverse d) k = assoc_get d k.
Proof.
  induction d as [|[k0 v0] d IH]; [done|]. rewrite fmap_cons. simpl.
  intros [Hk0 Hnd]%NoDup_cons. rewrite reverse_cons, assoc_get_snoc, IH by done.
  case_bool_decide as Hk.
  - subst k0. apply assoc_get_None in Hk0. by rewrite Hk0.
  - by destruct (assoc_get d k).
Qed.

Section Again.
Context (py : Python) (cls : Class) (m : Manager).

(** Decoding a dict leaves an [id] that is not a date under [id]. *)
Lemma assoc_get_bulk_decode_id d id :
  NoDup d.*1 → assoc_get d "id" = Some id →
  match id with VNone | VBool _ | VInt _ | VStr _ => True | _ => False end →
  assoc_get (bulk_decode py cls d m) "id" = Some id.
Proof.
  intros Hnd Hid Hplain. unfold bulk_decode.
  rewrite assoc_get_dict_of_pairs, <- fmap_reverse.
  rewrite <- (assoc_get_reverse_NoDup d "id" Hnd) in Hid.
  revert Hid. generalize (reverse d). clear Hnd. intros l.
  induction l as [|[k v] l IH]; [done|].
  rewrite fmap_cons. cbn [fst snd].
  pose proof (decode_key py cls k v m) as Hk1.
  pose proof (decode_value py cls k v m) as Hv1.
  destruct (decode py cls k v m) as [k2 v2]. cbn [fst snd assoc_get] in *.
  assert (Hkey : bool_decide (k2 = "id") = bool_decide (k = "id")).
  { apply bool_decide_ext. rewrite Hk1.
    destruct cls; try done; repeat case_bool_decide; naive_solver. }
  rewrite Hkey. destruct (decide (k = "id")) as [->|Hne].
  - rewrite !bool_decide_eq_true_2 by done. intros [= ->].
    rewrite Hv1. rewrite bool_decide_eq_false_2 by (by intros [_ ?]). by destruct id.
  - rewrite !bool_decide_eq_false_2 by done. apply IH.
Qed.

(** The dict built from plain incoming fields keys every field by its own
    id. *)
Lemma custom_fields_dict_self_keyed fields acc new :
  Forall plain_field fields →
  self_keyed acc →
  custom_fields_dict py cls m fields acc = Ok new →
  self_keyed new.
Proof.
  intros Hplain. revert acc. induction Hplain as [|f fields Hf _ IH]; intros acc Hacc.
  { simpl. by intros [= <-]. }
  destruct Hf as (d & id & -> & Hnd & Hid & Hplain). simpl. rewrite Hid. simpl.
  replace (hashable id) with true by (by destruct id). apply IH.
  assert (Hv : has_id id (VDict (bulk_decode py cls d m)) = true).
  { unfold has_id, field_id. rewrite (assoc_get_bulk_decode_id d id Hnd Hid Hplain).
    destruct id; simpl in *; try done; by apply bool_decide_eq_true. }
  clear -Hacc Hv. unfold self_keyed in *.
  induction acc as [|[k v] acc IH]; simpl.
  - by repeat constructor.
  - apply Forall_cons in Hacc as [Hkv Hacc]. simpl in Hkv.
    destruct (key_eqb k id) eqn:Hk.
    + constructor; [|done]. simpl. by rewrite (has_id_equiv k id _ Hk).
    + constructor; [done|]. by apply IH.
Qed.

Lemma plain_field_well_formed fields :
  Forall plain_field fields → forallb well_formed_field fields = true.
Proof.
  induction 1 as [|f fields (d & id & -> & _ & Hid & Hplain) _ IH]; [done|].
  simpl. unfold well_formed_field at 1. simpl. rewrite Hid, IH. by destruct id.
Qed.

End Again.

(** The merged list of well-formed stored fields is well formed. *)
Lemma merged_fields_well_formed new stored :
  self_keyed new →
  forallb well_formed_field stored = true →
  forallb well_formed_field (merged_fields new stored) = true.
Proof.
  intros Hsk Hwf.
  assert (Hin : ∀ k v, (k, v) ∈ new → well_formed_field v = true).
  { intros k v Hkv. destruct (self_keyed_elem new k v Hsk Hkv) as (k' & Hf & Hk).
    unfold well_formed_field. rewrite Hf.
    destruct k, k'; simpl in *; done. }
  apply forallb_forall. intros f Hf. apply list_elem_of_In in Hf.
  unfold merged_fields in Hf. apply elem_of_app in Hf as [Hf|Hf].
  - apply list_elem_of_lookup in Hf as [i Hi]. rewrite list_lookup_imap in Hi.
    destruct (stored !! i) as [f0|] eqn:Hf0; [|done]. simpl in Hi. injection Hi as <-.
    assert (Hf0wf : well_formed_field f0 = true).
    { rewrite forallb_forall in Hwf. apply Hwf. apply list_elem_of_In.
      by eapply list_elem_of_lookup_2. }
    unfold replacement. destruct (field_id f0) as [id0|]; [|done].
    destruct (existsb _ _); [done|].
    destruct (ids_get new id0) as [v|] eqn:Hv; [|done]. simpl.
    apply ids_get_Some_elem in Hv as (k & Hkv & _). by eapply Hin.
  - apply list_elem_of_fmap in Hf as ([k v] & -> & Hkv). simpl.
    apply (Hin k). unfold unmatched in Hkv. apply list_elem_of_In in Hkv.
    apply filter_In in Hkv as [Hkv _]. by apply list_elem_of_In.
Qed.

(** What a permitted write of well-formed custom fields leaves behind. *)
Lemma custom_fields_write (py : Python) v w fields stored new :
  let r := self w in
  "custom_fields" ∉ (if is_new r then _create_readonly r else _update_readonly r) →
  iter v = Ok fields →
  custom_fields_dict py (__class__ r) (manager r) fields [] = Ok new →
  distinct_keys new.*1 →
  default (VList []) (_decoded_attrs r !! "custom_fields") = VList stored →
  forallb well_formed_field stored = true →
  ∃ w',
    setattr py "custom_fields" v w = (w', Ok tt) ∧
    _decoded_attrs (self w') =
      <["custom_fields" := VList (merged_fields new stored)]> (_decoded_attrs r) ∧
    _changes (self w') =
      <["custom_fields" := VList (merged_fields new stored)]> (_changes r) ∧
    _encoded_attrs (self w') = delete "custom_fields" (_encoded_attrs r) ∧
    calls w' = calls w ∧
    __class__ (self w') = __class__ r ∧ manager (self w') = manager r ∧
    _create_readonly (self w') = _create_readonly r ∧
    _update_readonly (self w') = _update_readonly r.
Proof.
  intros r Hro Hiter Hnew Hdist Hstored Hswf. subst r.
  assert (Hset : setattr py "custom_fields" v w =
    (setattr_custom_fields py "custom_fields" v;;
     modify_self (pop_encoded_item "custom_fields")) w).
  { rewrite setattr_dispatch.
    rewrite bool_decide_eq_false_2 by (by intros [_ ?]).
    unfold Resource___setattr__. unfold_M. cbn [self calls].
    replace (bool_decide ("custom_fields" ∈ Cls._members) || String.prefix "_" "custom_fields")
      with false by done.
    destruct (is_new (self w)); cbn [negb andb]; rewrite ?andb_false_r, ?andb_true_r;
      by rewrite (bool_decide_eq_false_2 ("custom_fields" ∈ _)) by done. }
  rewrite Hset. clear Hset. unfold setattr_custom_fields. unfold_M. cbn [self calls].
  rewrite Hiter. simpl. rewrite Hnew. simpl.
  destruct (_decoded_attrs (self w) !! "custom_fields") as [s|] eqn:Hs; simpl in Hstored.
  - subst s. simpl. rewrite (custom_fields_loop_merged new stored Hdist Hswf).
    cbn [self calls]. eexists. split; [reflexivity|].
    unfold store_custom_fields, merged_fields.
    destruct (custom_fields_shared (self w)); simpl; repeat split; try done.
    by rewrite insert_insert_eq.
  - injection Hstored as <-. simpl. eexists. split; [reflexivity|].
    unfold merged_fields, unmatched. simpl.
    rewrite (filter_all _ new) by done. repeat split; try done.
    by rewrite insert_insert_eq.
Qed.

(** X21. Writing the same custom fields again changes nothing.  After a
    permitted write of plain custom fields (dicts whose id is [None], a
    boolean, an integer or a string) over well-formed stored fields, a second
    write of the same value succeeds and leaves [decoded], the pending
    changes and the cache exactly as the first write left them: nothing is
    appended twice. *)
Theorem custom_fields_write_is_idempotent (py : Python) (v : value) (w : World)
    (fields stored : list value) :
  let r := self w in
  "custom_fields" ∉ (if is_new r then _create_readonly r else _update_readonly r) →
  iter v = Ok fields →
  Forall plain_field fields →
  default (VList []) (_decoded_attrs r !! "custom_fields") = VList stored →
  forallb well_formed_field stored = true →
  ∃ w1 w2,
    setattr py "custom_fields" v w = (w1, Ok tt) ∧
    setattr py "custom_fields" v w1 = (w2, Ok tt) ∧
    _decoded_attrs (self w2) = _decoded_attrs (self w1) ∧
    _changes (self w2) = _changes (self w1) ∧
    _encoded_attrs (self w2) = _encoded_attrs (self w1) ∧
    calls w2 = calls w.
Proof.
  intros r Hro Hiter Hplain Hstored Hswf.
  pose proof (plain_field_well_formed fields Hplain) as Hwf.
  destruct (custom_fields_dict_spec py (__class__ r) (manager r) fields [] Hwf)
    as (new & Hnew & Hdist & _).
  specialize (Hdist I).
  assert (Hsk : self_keyed new).
  { eapply custom_fields_dict_self_keyed; [done| |done]. by constructor. }
  destruct (custom_fields_write py v w fields stored new Hro Hiter Hnew Hdist Hstored Hswf)
    as (w1 & Hset1 & Hd1 & Hc1 & He1 & Hcalls1 & Hcls1 & Hm1 & Hcr1 & Hur1).
  fold r in Hd1, Hc1, He1, Hcls1, Hm1, Hcr1, Hur1.
  assert (Hnew1 : is_new (self w1) = is_new r).
  { unfold is_new. rewrite Hd1. by rewrite !lookup_insert_ne by done. }
  destruct (custom_fields_write py v w1 fields (merged_fields new stored) new)
    as (w2 & Hset2 & Hd2 & Hc2 & He2 & Hcalls2 & _).
  - by rewrite Hnew1, Hcr1, Hur1.
  - done.
  - by rewrite Hcls1, Hm1.
  - done.
  - by rewrite Hd1, lookup_insert_eq.
  - by apply merged_fields_well_formed.
  - exists w1, w2. split; [done|]. split; [done|].
    rewrite merged_fields_again in Hd2, Hc2 by done.
    rewrite Hd2, Hc2, He2, Hd1, Hc1, He1, Hcalls2, Hcalls1.
    rewrite !insert_insert_eq. repeat split.
    apply delete_id. apply lookup_delete_eq.
Qed.

Lemma custom_fields_write_is_idempotent_witness :
  let v := VList [Fixture.field 2 "c"; Fixture.field 3 "d"] in
  ∃ w1, setattr Fixture.py "custom_fields" v (Fixture.world_of Fixture.issue_3) = (w1, Ok tt) ∧
        _decoded_attrs (self (setattr Fixture.py "custom_fields" v w1).1)
        = _decoded_attrs (self w1).
Proof.
  intros v.
  destruct (custom_fields_write_is_idempotent Fixture.py v (Fixture.world_of Fixture.issue_3)
              [Fixture.field 2 "c"; Fixture.field 3 "d"]
              [Fixture.field 1 "a"; Fixture.field 2 "b"])
    as (w1 & w2 & Hset1 & Hset2 & Hd & _).
  - compute_done.
  - reflexivity.
  - repeat constructor; eexists _, _; (split; [reflexivity|]);
      (split; [repeat constructor; set_solver|]); by split.
  - reflexivity.
  - reflexivity.
  - exists w1. split; [exact Hset1|]. by rewrite Hset2.
Defined.
(** ** The order in which an attribute is resolved *)

Section Order.
Context (py : Python) (srv : Server).

(** A name that the class does not resolve itself goes to
    [Resource.__getattr__] as it is. *)
Lemma own_names_base g attr w :
  attr ∉ own_names (__class__ (self w)) →
  class___getattr__ py srv g attr w = Resource___getattr__ py srv g attr w.
Proof.
  intros H. unfold class___getattr__. unfold_M. cbn [self calls].
  destruct (__class__ (self w)); try reflexivity; cbn in H.
  - assert (attr ≠ "version" ∧ attr ≠ "watcher") as [H1 H2] by set_solver.
    by rewrite !bool_decide_eq_false_2 by done.
  - assert (attr ≠ "text") as H1 by set_solver.
    by rewrite (bool_decide_eq_false_2 (attr = "text")) by done.
  - assert (attr ≠ "time_entries") as H1 by set_solver.
    by rewrite (bool_decide_eq_false_2 (attr = "time_entries")) by done.
  - assert (attr ≠ "user") as H1 by set_solver.
    by rewrite bool_decide_eq_false_2 by done.
  - assert (attr ≠ "value") as H1 by set_solver.
    by rewrite (bool_decide_eq_false_2 (attr = "value")) by done.
Qed.

(** The constructor keys the relations of an instance by the relation key
    of its class. *)
Lemma __init___relation_key c m attributes :
  _relations_name (__init__ c m attributes) = relation_key c.
Proof. by destruct c. Qed.

(** Step 4, when the read on the resource fetched anew raises. *)
Lemma getattr_include_raises g attr w w1 id payload w2 x :
  String.prefix "_" attr = false →
  get_not_None (_encoded_attrs (self w)) attr = None →
  get_not_None (_decoded_attrs (self w)) attr = None →
  attr ∉ Cls._relations (__class__ (self w)) →
  attr ∈ Cls._includes (__class__ (self w)) →
  internal_id g w = (w1, Ok id) →
  let m := manager (self w) in
  let ps := scoped_params (self w) {[ "include" := VStr attr ]} in
  serve_get srv (calls w1) m id ps = Ok payload →
  g attr {| self := __init__ (resource_class m) m payload;
            calls := calls w1 ++ [CallGet m id ps] |} = (w2, Raise x) →
  Resource___getattr__ py srv g attr w = ({| self := self w1; calls := calls w2 |}, Raise x).
Proof.
  intros Hp He Hd Hr Hi Hid m ps Hget Hg.
  unfold Resource___getattr__. rewrite Hp. unfold_M.
  rewrite He, Hd. rewrite bool_decide_eq_false_2 by done.
  rewrite bool_decide_eq_true_2 by done.
  pose proof (refresh_not_itself srv g {[ "include" := VStr attr ]} w w1 id payload Hid Hget)
    as Hrf.
  unfold_M. rewrite Hrf. unfold on_instance. cbn [self calls]. fold m ps.
  by rewrite Hg.
Qed.

End Order.

(** *** The relation key over the life of an instance *)

Section Keyed.
Context (py : Python) (srv : Server).

Lemma keyed___init__ c m attributes : keyed (__init__ c m attributes).
Proof. left. apply __init___relation_key. Qed.

Lemma keeps_keyed_as_class___getattr__ r0 g attr :
  (∀ a, keeps (keyed_as r0) (g a)) →
  keeps (keyed_as r0) (class___getattr__ py srv g attr).
Proof.
  intros Hg.
  assert (Hbase : ∀ a, keeps (keyed_as r0) (Resource___getattr__ py srv g a)).
  { intros a. apply keeps_Resource___getattr__; [|done]. by intros k v r _ [? ?]. }
  unfold class___getattr__. apply keeps_bind_get_self. intros r [Hcls Hr].
  destruct (__class__ r) eqn:Hc; try apply Hbase.
  - (* Issue *)
    unfold Issue_Watcher.
    repeat first [apply Hbase | apply keeps_internal_id; [done] | keeps_step].
  - (* WikiPage *)
    repeat first [apply Hbase | apply keeps_refresh_not_itself; [done] | keeps_step].
    by destruct H.
  - (* User *)
    repeat first [apply Hbase | keeps_step].
    + destruct H as [Hcls' _]. split; [done|]. right. simpl. split; [congruence|done].
    + destruct H as [Hcls' _]. split; [done|]. left. simpl.
      by rewrite Hcls', <- Hcls.
  - (* Group *)
    unfold Group_User.
    repeat first [apply Hbase | apply keeps_internal_id; [done] | keeps_step].
  - (* CustomField *)
    repeat first [apply Hbase | keeps_step].
Qed.

Lemma keeps_keyed_as_getattr r0 depth attr :
  keeps (keyed_as r0) (getattr py srv depth attr).
Proof.
  revert attr. induction depth as [|d IH]; intros attr; simpl.
  - apply keeps_raise.
  - by apply keeps_keyed_as_class___getattr__.
Qed.

Lemma keeps_keyed_getattr depth attr : keeps keyed (getattr py srv depth attr).
Proof.
  intros w Hw.
  by destruct (keeps_keyed_as_getattr (self w) depth attr w (conj eq_refl Hw)).
Qed.

Lemma keeps_keyed_setattr attr v :
  structural attr = false → keeps keyed (setattr py attr v).
Proof.
  intros Hs.
  assert (Hbase : ∀ a, structural a = false → keeps keyed (Resource___setattr__ py a v)).
  { intros a Ha. unfold Resource___setattr__. unfold structural in Ha. rewrite Ha.
    unfold setattr_custom_fields, setattr_plain.
    repeat keeps_step; try done.
    all: unfold store_custom_fields; by destruct (custom_fields_shared _). }
  unfold setattr. repeat first [apply Hbase; done | keeps_step].
Qed.

Lemma keeps_keyed_save g now :
  (∀ a, keeps keyed (g a)) → keeps keyed (save py srv g now).
Proof.
  intros Hg. unfold save, manager_update, manager_create, post_update, pre_update,
    pre_create, post_create.
  repeat first [apply keeps_internal_id; [done] | keeps_step]; done.
Qed.

Lemma keeps_keyed_refresh g itself ps :
  (∀ a, keeps keyed (g a)) → keeps keyed (refresh srv g itself ps).
Proof.
  intros Hg. unfold refresh, Resource_refresh.
  repeat first [apply keeps_internal_id; [done] | apply keeps_manager_get | keeps_step];
    done.
Qed.

Lemma keeps_keyed_delete g ps :
  (∀ a, keeps keyed (g a)) → keeps keyed (delete_ srv g ps).
Proof.
  intros Hg. unfold delete_, manager_delete, pre_delete, post_delete.
  repeat first [apply keeps_internal_id; [done] | keeps_step]; done.
Qed.

(** An instance holds the relation key of its class from its constructor
    on. *)
Lemma reachable_keyed w : reachable py srv w → keyed (self w).
Proof.
  induction 1.
  - apply keyed___init__.
  - by apply keeps_keyed_getattr.
  - by apply keeps_keyed_setattr.
  - apply keeps_keyed_save; [|done]. intros a. apply keeps_keyed_getattr.
  - apply keeps_keyed_refresh; [|done]. intros a. apply keeps_keyed_getattr.
  - apply keeps_keyed_delete; [|done]. intros a. apply keeps_keyed_getattr.
Qed.

End Keyed.

(** C1, as the code has it.  For a name that does not start with an
    underscore and that the class of the instance does not resolve in a
    [__getattr__] of its own, a read resolves in this order: (1) the cached
    value ([encoded[n]] other than [None]) is returned; (2) else the decoded
    value ([decoded[n]] other than [None]) is encoded by the codec of the
    class, cached and returned; (3) else, for a relation name, the filtered
    collection of the mapped class, keyed by the identity of the instance
    under the relation key of the class, is cached and returned (this is
    the key an instance holds from its constructor on; only a user whose
    read of [time_entries] was interrupted holds [user] in its place);
    (4) else, for an include name, the resource is fetched anew by one [get]
    restricted to that include, which leaves the instance as it was, and
    when the payload holds a value for the name that value is encoded,
    cached and returned; (5) else, for a name that is neither, on a new
    instance [0] is returned for [id] and [version] and the empty string for
    any other name; (6) and on a persisted one [ResourceAttrError] is raised
    when the policy is [True] or a list naming the class, and [None] is
    returned otherwise. *)
Theorem get_resolution_order (py : Python) (srv : Server) (depth : nat) (attr : string)
    (w : World) :
  String.prefix "_" attr = false →
  attr ∉ own_names (__class__ (self w)) →
  let r := self w in
  let cls := __class__ r in
  let m := manager r in
  let identity := internal_id (getattr py srv (S depth)) w in
  let get := getattr py srv (S (S depth)) attr w in
  (∀ e, get_not_None (_encoded_attrs r) attr = Some e → get = (w, Ok e)) ∧
  (get_not_None (_encoded_attrs r) attr = None →
   (∀ d, get_not_None (_decoded_attrs r) attr = Some d →
      match encode py cls attr d m with
      | Ok (_, e) => get = ({| self := set_encoded_item attr e r; calls := calls w |}, Ok e)
      | Raise x => get = (w, Raise x)
      end) ∧
   (get_not_None (_decoded_attrs r) attr = None →
    (attr ∈ Cls._relations cls →
       _relations_name r = relation_key cls →
       ∀ w1 id, identity = (w1, Ok id) →
         ∃ c, _RELATIONS_MAP !! attr = Some c ∧
              let filters : kwargs := {[ relation_key cls +:+ "_id" := id ]} in
              get = ({| self := set_encoded_item attr (VFilter c filters) (self w1);
                        calls := calls w ++ [CallFilter (new_manager m c ∅) filters] |},
                     Ok (VFilter c filters))) ∧
    (attr ∉ Cls._relations cls →
     (attr ∈ Cls._includes cls →
        resource_class m = cls →
        ∀ w1 id payload raw, identity = (w1, Ok id) →
          let ps := scoped_params r {[ "include" := VStr attr ]} in
          serve_get srv (calls w) m id ps = Ok payload →
          get_not_None payload attr = Some raw →
          match encode py cls attr raw m with
          | Ok (_, e) =>
              get = ({| self := set_encoded_item attr e (self w1);
                        calls := calls w ++ [CallGet m id ps] |}, Ok e)
          | Raise x =>
              get = ({| self := self w1; calls := calls w ++ [CallGet m id ps] |}, Raise x)
          end) ∧
     (attr ∉ Cls._includes cls →
        let policy := raise_attr_exception (redmine m) in
        let demands :=
          policy = VBool true ∨
          ∃ names, policy = VList names ∧ VStr (Cls.__name__ cls) ∈ names in
        (is_new r = true →
           get = (w, Ok (if bool_decide (attr = "id" ∨ attr = "version")
                         then VInt 0 else VStr EmptyString))) ∧
        (is_new r = false → demands → get = (w, Raise ResourceAttrError)) ∧
        (is_new r = false → ¬ demands → get = (w, Ok VNone)))))) ∧
  (∀ c m0 attributes, _relations_name (__init__ c m0 attributes) = relation_key c) ∧
  (reachable py srv w → keyed r).
Proof.
  intros Hp Hown r cls m identity get.
  assert (Hget : get = Resource___getattr__ py srv (getattr py srv (S depth)) attr w).
  { subst get. rewrite getattr_S. by apply own_names_base. }
  split.
  { intros e He. rewrite Hget. by apply getattr_cached. }
  split; [|split; [apply __init___relation_key|apply reachable_keyed]].
  intros He. split.
  { intros d Hd. rewrite Hget, (getattr_decoded py srv _ attr w d Hp He Hd).
    fold r cls m. by destruct (encode py cls attr d m) as [[a e]|x]. }
  intros Hd. split.
  { intros Hr Hkey w1 id Hid. destruct (relation_mapped _ _ Hr) as [c Hc].
    exists c. split; [done|]. intros filters.
    destruct (internal_id_frame py srv (S depth) w w1 _ Hid) as (Hcalls & _).
    rewrite Hget, (getattr_relation py srv _ attr w w1 id c Hp He Hd Hr Hid Hc).
    fold r m. rewrite Hkey, Hcalls. reflexivity. }
  intros Hr. split.
  - intros Hi Hrc w1 id payload raw Hid ps Hsrv Hraw.
    destruct (internal_id_frame py srv (S depth) w w1 _ Hid) as (Hcalls & _).
    rewrite <- Hcalls in Hsrv. rewrite <- Hcalls.
    set (fetched := {| self := __init__ (resource_class m) m payload;
                       calls := calls w1 ++ [CallGet m id ps] |}).
    assert (Hinner : getattr py srv (S depth) attr fetched =
              match encode py cls attr raw m with
              | Ok (_, e) =>
                  ({| self := set_encoded_item attr e (self fetched);
                      calls := calls fetched |}, Ok e)
              | Raise x => (fetched, Raise x)
              end).
    { rewrite getattr_S, own_names_base by (cbn; by rewrite Hrc).
      rewrite (getattr_decoded py srv _ attr fetched raw Hp eq_refl).
      - cbn [self fetched __init__ __class__ manager]. by rewrite Hrc.
      - unfold fetched. cbn [self]. by rewrite get_not_None___init__. }
    destruct (encode py cls attr raw m) as [[a e]|x] eqn:Henc.
    + assert (Hne : is_not_None e = true).
      { apply encode_not_None in Henc as [_ ?]; [done|].
        unfold get_not_None in Hraw. destruct (payload !! attr); [|done].
        by destruct (is_not_None v) eqn:?; simplify_eq. }
      rewrite Hget.
      rewrite (getattr_include py srv _ attr w w1 id payload _ e Hp He Hd Hr Hi Hid
                 Hsrv Hinner).
      by rewrite Hne.
    + rewrite Hget.
      by rewrite (getattr_include_raises py srv _ attr w w1 id payload _ x Hp He Hd Hr Hi Hid
                    Hsrv Hinner).
  - intros Hi policy demands. subst policy demands.
    rewrite Hget, (getattr_unresolved py srv _ attr w Hp He Hd Hr Hi).
    unfold unresolved. unfold_M. fold r cls m. repeat split.
    + intros ->. by rewrite default_names.
    + intros -> Hdem. apply raises_attr_exception_spec in Hdem. by rewrite Hdem.
    + intros -> Hdem.
      destruct (raises_attr_exception _ _) eqn:E; [|done].
      by apply raises_attr_exception_spec in E.
Qed.

Lemma get_resolution_order_witness :
  let strict := Fixture.manager_of Issue Fixture.strict in
  let children := VResourceSet Issue ∅ (VList [VDict [("id", VInt 7)]]) in
  let entries := VFilter TimeEntry {[ "issue_id" := VInt 1 ]} in
  (* a new issue: the defaults *)
  getattr Fixture.py Fixture.failing 2 "id" (Fixture.world_of Fixture.new_issue)
  = (Fixture.world_of Fixture.new_issue, Ok (VInt 0)) ∧
  getattr Fixture.py Fixture.failing 2 "subject" (Fixture.world_of Fixture.new_issue)
  = (Fixture.world_of Fixture.new_issue, Ok (VStr "")) ∧
  (* issue 1: a decoded value, a relation, an include, a missing attribute *)
  (∃ w', getattr Fixture.py Fixture.failing 2 "project" (Fixture.world_of Fixture.issue_1)
         = (w', Ok (VResource Project ∅ (VDict [("id", VInt 1)]))) ∧
         getattr Fixture.py Fixture.failing 2 "project" w'
         = (w', Ok (VResource Project ∅ (VDict [("id", VInt 1)])))) ∧
  (∃ w', getattr Fixture.py Fixture.failing 2 "time_entries" (Fixture.world_of Fixture.issue_1)
         = (w', Ok entries) ∧
         calls w' = [CallFilter (Fixture.manager_of TimeEntry Fixture.strict)
                       {[ "issue_id" := VInt 1 ]}] ∧
         _encoded_attrs (self w') !! "time_entries" = Some entries) ∧
  (∃ w', getattr Fixture.py Fixture.with_children 2 "children"
           (Fixture.world_of Fixture.issue_1) = (w', Ok children) ∧
         calls w' = [CallGet strict (VInt 1) {[ "include" := VStr "children" ]}] ∧
         _encoded_attrs (self w') !! "children" = Some children ∧
         _decoded_attrs (self w') = _decoded_attrs Fixture.issue_1) ∧
  getattr Fixture.py Fixture.failing 2 "estimate" (Fixture.world_of Fixture.issue_1)
  = (Fixture.world_of Fixture.issue_1, Raise ResourceAttrError) ∧
  (* user 5, under a policy that does not raise: a relation, a missing
     attribute *)
  (∃ w', getattr Fixture.py Fixture.failing 2 "issues" (Fixture.world_of Fixture.user_5)
         = (w', Ok (VFilter Issue {[ "assigned_to_id" := VInt 5 ]})) ∧
         calls w' = [CallFilter (Fixture.manager_of Issue Fixture.lenient)
                       {[ "assigned_to_id" := VInt 5 ]}]) ∧
  getattr Fixture.py Fixture.failing 2 "mail" (Fixture.world_of Fixture.user_5)
  = (Fixture.world_of Fixture.user_5, Ok VNone).
Proof.
  cbv zeta.
  pose (order := fun srv attr r H1 H2 =>
          get_resolution_order Fixture.py srv 0 attr (Fixture.world_of r) H1 H2).
  split; [|split; [|split; [|split; [|split; [|split; [|split]]]]]].
  - destruct (order Fixture.failing "id" Fixture.new_issue eq_refl ltac:(compute_done))
      as (_ & H & _). destruct (H eq_refl) as (_ & H2). destruct (H2 eq_refl) as (_ & H3).
    destruct (H3 ltac:(compute_done)) as (_ & H4).
    destruct (H4 ltac:(compute_done)) as (H5 & _). exact (H5 eq_refl).
  - destruct (order Fixture.failing "subject" Fixture.new_issue eq_refl ltac:(compute_done))
      as (_ & H & _). destruct (H eq_refl) as (_ & H2). destruct (H2 eq_refl) as (_ & H3).
    destruct (H3 ltac:(compute_done)) as (_ & H4).
    destruct (H4 ltac:(compute_done)) as (H5 & _). exact (H5 eq_refl).
  - destruct (order Fixture.failing "project" Fixture.issue_1 eq_refl ltac:(compute_done))
      as (_ & H & _). destruct (H eq_refl) as (H2 & _).
    specialize (H2 (VDict [("id", VInt 1)]) eq_refl). cbn in H2.
    eexists. split; [exact H2|].
    match goal with |- getattr _ _ _ _ ?w' = _ =>
      destruct (get_resolution_order Fixture.py Fixture.failing 0 "project" w'
                  eq_refl ltac:(compute_done)) as (H1 & _)
    end.
    exact (H1 _ eq_refl).
  - destruct (order Fixture.failing "time_entries" Fixture.issue_1 eq_refl
                ltac:(compute_done)) as (_ & H & _).
    destruct (H eq_refl) as (_ & H2). destruct (H2 eq_refl) as (H3 & _).
    destruct (H3 ltac:(compute_done) eq_refl
                (internal_id (getattr Fixture.py Fixture.failing 1)
                   (Fixture.world_of Fixture.issue_1)).1 (VInt 1) eq_refl)
      as (c & Hc & Hread).
    injection Hc as <-. eexists. split; [exact Hread|]. split; reflexivity.
  - destruct (order Fixture.with_children "children" Fixture.issue_1 eq_refl
                ltac:(compute_done)) as (_ & H & _).
    destruct (H eq_refl) as (_ & H2). destruct (H2 eq_refl) as (_ & H3).
    destruct (H3 ltac:(compute_done)) as (H4 & _).
    specialize (H4 ltac:(compute_done) eq_refl
                  (internal_id (getattr Fixture.py Fixture.with_children 1)
                     (Fixture.world_of Fixture.issue_1)).1 (VInt 1)
                  (<["id" := VInt 1]> (<["children" := VList [VDict [("id", VInt 7)]]]> ∅))
                  (VList [VDict [("id", VInt 7)]]) eq_refl eq_refl eq_refl).
    cbn in H4. eexists. split; [exact H4|]. repeat split.
  - destruct (order Fixture.failing "estimate" Fixture.issue_1 eq_refl ltac:(compute_done))
      as (_ & H & _). destruct (H eq_refl) as (_ & H2). destruct (H2 eq_refl) as (_ & H3).
    destruct (H3 ltac:(compute_done)) as (_ & H4).
    destruct (H4 ltac:(compute_done)) as (_ & H5 & _). apply (H5 eq_refl). by left.
  - destruct (order Fixture.failing "issues" Fixture.user_5 eq_refl
                ltac:(compute_done)) as (_ & H & _).
    destruct (H eq_refl) as (_ & H2). destruct (H2 eq_refl) as (H3 & _).
    destruct (H3 ltac:(compute_done) eq_refl
                (internal_id (getattr Fixture.py Fixture.failing 1)
                   (Fixture.world_of Fixture.user_5)).1 (VInt 5) eq_refl)
      as (c & Hc & Hread).
    injection Hc as <-. eexists. split; [exact Hread|]. reflexivity.
  - destruct (order Fixture.failing "mail" Fixture.user_5 eq_refl ltac:(compute_done))
      as (_ & H & _). destruct (H eq_refl) as (_ & H2). destruct (H2 eq_refl) as (_ & H3).
    destruct (H3 ltac:(compute_done)) as (_ & H4).
    destruct (H4 ltac:(compute_done)) as (_ & _ & H5). apply (H5 eq_refl).
    intros [[=]|(names & [=] & _)].
Defined.

(** The claim as stated fails where a class resolves a name itself.
    [Issue] reads [version] as [fixed_version]: on a new issue, where the
    name is neither cached, nor decoded, nor a relation, nor an include, it
    resolves to the default of [fixed_version], the empty string, and not to
    the [0] of the name [version]. *)
Lemma new_issue_version_reads_empty :
  let w := Fixture.world_of Fixture.new_issue in
  String.prefix "_" "version" = false ∧
  get_not_None (_encoded_attrs (self w)) "version" = None ∧
  get_not_None (_decoded_attrs (self w)) "version" = None ∧
  ("version" ∉ Cls._relations (__class__ (self w))) ∧
  ("version" ∉ Cls._includes (__class__ (self w))) ∧
  is_new (self w) = true ∧
  ∀ depth,
    getattr Fixture.py Fixture.failing (S depth) "version" w = (w, Ok (VStr "")) ∧
    getattr Fixture.py Fixture.failing (S depth) "version" w ≠ (w, Ok (VInt 0)).
Proof.
  cbv zeta. repeat split; try done; try compute_done.
Qed.
(** ** The bulk codec *)

Section Bulk.

Lemma assoc_set_names (d : list (string * value)) k v :
  (assoc_set d k v).*1 = if bool_decide (k ∈ d.*1) then d.*1 else d.*1 ++ [k].
Proof.
  induction d as [|[k' v'] d IH]; [done|].
  cbn [assoc_set]. rewrite (fmap_cons fst ((k', v')) d). cbn [fst].
  destruct (decide (k' = k)) as [->|Hne].
  - rewrite (bool_decide_eq_true_2 (k = k)) by done.
    by rewrite bool_decide_eq_true_2 by apply list_elem_of_here.
  - rewrite (bool_decide_eq_false_2 (k' = k)) by done.
    rewrite fmap_cons. cbn [fst]. rewrite IH.
    destruct (bool_decide (k ∈ d.*1)) eqn:Hk.
    + apply bool_decide_eq_true in Hk.
      by rewrite bool_decide_eq_true_2 by (by apply list_elem_of_further).
    + apply bool_decide_eq_false in Hk.
      rewrite bool_decide_eq_false_2; [done|].
      intros [E|Hin]%elem_of_cons; [by subst|done].
Qed.

(** The names [dict(pairs)] holds, in order: those already there, then the
    new ones as they first occur. *)
Lemma foldl_assoc_set_names (ps acc : list (string * value)) :
  (foldl (fun d p => assoc_set d p.1 p.2) acc ps).*1 =
    acc.*1 ++ List.filter (fun x => negb (bool_decide (x ∈ acc.*1)))
                (first_occurrences ps.*1).
Proof.
  revert acc. induction ps as [|[k v] ps IH]; intros acc; simpl.
  { by rewrite app_nil_r. }
  rewrite IH, assoc_set_names. destruct (bool_decide (k ∈ acc.*1)) eqn:Hk; simpl.
  - f_equal. rewrite filter_and. apply filter_ext_in. intros x _.
    apply bool_decide_eq_true in Hk.
    destruct (bool_decide (x ∈ acc.*1)) eqn:Hx; simpl; [by rewrite andb_false_r|].
    rewrite andb_true_r. rewrite bool_decide_eq_false_2; [done|]. intros ->.
    by apply bool_decide_eq_false in Hx.
  - rewrite <- app_assoc. simpl. f_equal. f_equal.
    rewrite filter_and. apply filter_ext_in. intros x _.
    destruct (decide (x = k)) as [->|Hne].
    + rewrite (bool_decide_eq_true_2 (k = k)) by done. simpl.
      rewrite bool_decide_eq_true_2; [done|]. apply elem_of_app. right.
      apply list_elem_of_here.
    + rewrite (bool_decide_eq_false_2 (x = k)) by done. simpl. f_equal.
      apply bool_decide_ext. rewrite elem_of_app, elem_of_cons, elem_of_nil. tauto.
Qed.

Lemma dict_of_pairs_names (ps : list (string * value)) :
  (dict_of_pairs ps).*1 = first_occurrences ps.*1.
Proof.
  unfold dict_of_pairs. rewrite foldl_assoc_set_names.
  change ([] : list (string * value)).*1 with ([] : list string).
  rewrite app_nil_l. apply filter_all. intros x _.
  rewrite bool_decide_eq_false_2; [done|]. apply not_elem_of_nil.
Qed.

Lemma NoDup_first_occurrences names : NoDup (first_occurrences names).
Proof.
  induction names as [|n names IH]; simpl; [constructor|].
  constructor.
  - intros Hin. apply list_elem_of_In, filter_In in Hin as [_ Hn].
    by rewrite bool_decide_eq_true_2 in Hn.
  - clear -IH. induction IH as [|x l Hx Hnd IH']; simpl; [constructor|].
    destruct (negb (bool_decide (x = n))); [|done].
    constructor; [|done]. intros Hin. apply Hx.
    apply list_elem_of_In, filter_In in Hin as [Hin _]. by apply list_elem_of_In.
Qed.

End Bulk.

(** X20. The bulk codec works entry by entry.  [bulk_decode] decodes every
    entry of a dict and builds a dict of the decoded pairs: each decoded name
    stands once, at the place where it first occurs among the decoded pairs,
    with the value of the last pair of that name.  So when the decoded names
    are pairwise distinct the result is the decoded pairs in the order of the
    dict; and when several entries decode to one name, as [from_date] and
    [from] or [to_date] and [to] of a time entry do, one entry remains, where
    the first of them stood, with the value of the last of them. *)
Theorem bulk_decode_entry_by_entry (py : Python) (cls : Class) (m : Manager)
    (attrs : list (string * value)) :
  let pairs := (fun kv => decode py cls kv.1 kv.2 m) <$> attrs in
  let decoded := bulk_decode py cls attrs m in
  decoded.*1 = first_occurrences pairs.*1 ∧
  NoDup decoded.*1 ∧
  (∀ k, assoc_get decoded k = last_value pairs k) ∧
  (NoDup pairs.*1 → decoded = pairs).
Proof.
  intros pairs decoded. subst decoded. unfold bulk_decode. fold pairs.
  split; [apply dict_of_pairs_names|]. split; [|split].
  - rewrite dict_of_pairs_names. apply NoDup_first_occurrences.
  - intros k. apply assoc_get_dict_of_pairs.
  - apply dict_of_pairs_NoDup.
Qed.

Lemma bulk_decode_entry_by_entry_witness :
  let decoded :=
    bulk_decode Fixture.py TimeEntry
      [("hours", VInt 2); ("from", VStr "2014-01-01"); ("to_date", VDate (Date 2014 2 1));
       ("from_date", VDate (Date 2014 1 2)); ("to", VStr "2014-02-02")]
      (Fixture.manager_of TimeEntry Fixture.strict) in
  decoded.*1 = ["hours"; "from"; "to"] ∧
  assoc_get decoded "from" = Some (VStr "2014-01-02") ∧
  assoc_get decoded "to" = Some (VStr "2014-02-02") ∧
  bulk_decode Fixture.py Issue [("id", VInt 1); ("value", VDate (Date 2014 1 2))]
    (Fixture.manager_of Issue Fixture.strict)
  = [("id", VInt 1); ("value", VStr "2014-01-02")].
Proof.
  cbv zeta.
  destruct (bulk_decode_entry_by_entry Fixture.py TimeEntry
              (Fixture.manager_of TimeEntry Fixture.strict)
              [("hours", VInt 2); ("from", VStr "2014-01-01");
               ("to_date", VDate (Date 2014 2 1)); ("from_date", VDate (Date 2014 1 2));
               ("to", VStr "2014-02-02")]) as (Hnames & _ & Hlast & _).
  destruct (bulk_decode_entry_by_entry Fixture.py Issue
              (Fixture.manager_of Issue Fixture.strict)
              [("id", VInt 1); ("value", VDate (Date 2014 1 2))]) as (_ & _ & _ & Hdistinct).
  split; [|split; [|split]].
  - rewrite Hnames. reflexivity.
  - rewrite Hlast. reflexivity.
  - rewrite Hlast. reflexivity.
  - rewrite Hdistinct; [reflexivity|]. simpl. repeat constructor; set_solver.
Defined.
